(** * Inventory ledger, costed recipes and document state machines

    A shallow embedding of the request handlers of the restaurant back
    office (app/api/v1: sales, inventory, purchase_orders, stock_requests,
    stock_transfers, menus, units) and of the tables they read and write
    (app/models), followed by the properties of the inventory ledger.

    Conventions of the embedding.

    - A table is the list of its rows in insertion order.  No handler ever
      issues a DELETE, so the primary key of a row is modelled by its
      position in the table: [t !! id] is SELECT ... WHERE id = :id, an
      INSERT appends and returns [length t].
    - [fetchone()] of a query without ORDER BY returns the first matching
      row of the table.
    - NUMERIC(12,4) quantities are integers counting ten-thousandths and
      NUMERIC(12,2) amounts are integers counting hundredths; the product
      of a quantity and a unit cost counts millionths.  Request quantities
      are taken at the scale of the column that stores them, and the
      conversions through [float] are the identity on such values.
    - Timestamps (created_at, updated_at, shipped_at, ...) are left out;
      a calendar day is the integer YYYYMMDD, and the day of the request,
      used for numbering documents, is part of the request context, as is
      the day of the [created_at] that stock requests and stock transfers
      are counted by.
    - Authentication runs before a handler is entered and is not
      modelled.  The handlers are what runs once the role check has passed;
      the role check itself is [require_role], further down. *)

From Stdlib Require Import ZArith QArith Lia Lqa String Sorted.
From stdpp Require Import base option list.

(** ** Rows (app/models) *)

Inductive OutletType := CENTRAL | OUTLET.
Inductive PurchaseOrderStatus := PO_DRAFT | PO_ORDERED | PO_RECEIVED | PO_CANCELLED.
Inductive StockRequestStatus :=
  SR_PENDING | SR_APPROVED | SR_REJECTED | SR_FULFILLED | SR_CANCELLED.
Inductive StockTransferStatus := ST_DRAFT | ST_SHIPPED | ST_RECEIVED | ST_CANCELLED.
Inductive SourceType := PURCHASE | TRANSFER_IN | TRANSFER_OUT | SALE | ADJUSTMENT | WASTAGE.

#[global] Instance OutletType_eq_dec : EqDecision OutletType.
Proof. solve_decision. Defined.
#[global] Instance PurchaseOrderStatus_eq_dec : EqDecision PurchaseOrderStatus.
Proof. solve_decision. Defined.
#[global] Instance StockRequestStatus_eq_dec : EqDecision StockRequestStatus.
Proof. solve_decision. Defined.
#[global] Instance StockTransferStatus_eq_dec : EqDecision StockTransferStatus.
Proof. solve_decision. Defined.
#[global] Instance SourceType_eq_dec : EqDecision SourceType.
Proof. solve_decision. Defined.

Record Organization := { max_menu_items : Z }.

Record Outlet := {
  outlet_organization_id : nat;
  outlet_code : string;
  outlet_type : OutletType }.

Record Ingredient := {
  ingredient_organization_id : nat;
  ingredient_name : string }.

Record Unit := { unit_symbol : string }.

Record Supplier := { supplier_organization_id : nat }.

Record Menu := {
  menu_organization_id : nat;
  menu_name : string;
  menu_category : option string;
  menu_price : Z;
  menu_description : option string;
  menu_image_url : option string;
  menu_is_active : bool }.

Record Recipe := {
  recipe_menu_id : nat;
  recipe_version : Z;
  recipe_is_active : bool;
  recipe_notes : option string }.

Record RecipeItem := {
  ri_recipe_id : nat;
  ri_ingredient_id : nat;
  ri_qty : Z;
  ri_unit_id : nat }.

Record InventoryStock := {
  stock_organization_id : nat;
  stock_outlet_id : nat;
  stock_ingredient_id : nat;
  qty_on_hand : Z;
  min_qty : Z;
  stock_unit_id : nat;
  last_cost : option Z }.

(** The order number [<outlet code>-<YYYYMMDD>-<sequence>] and the
    [<PREFIX>-<YYYYMMDD>-<sequence>] numbers of the other documents. *)
Record DocumentNumber := {
  number_prefix : string;
  number_day : Z;
  number_sequence : nat }.

(** The texts written to [inventory_ledger.remarks]. *)
Inductive Remarks :=
| SoldViaOrder (number : DocumentNumber)      (* f"Sold via order {order_no}" *)
| ReceivedFromPO                              (* "Received from PO" *)
| StockTransferredOut                         (* 'Stock transferred out' *)
| StockTransferredIn                          (* 'Stock transferred in' *)
| AdjustmentRemarks (text : string).          (* data.remarks *)

Record InventoryLedger := {
  ledger_organization_id : nat;
  ledger_outlet_id : nat;
  ledger_ingredient_id : nat;
  change_qty : Z;
  source_type : SourceType;
  source_id : option nat;
  ledger_unit_id : nat;
  ledger_unit_cost : option Z;
  ledger_total_cost : option Z;
  remarks : Remarks }.


Record SalesOrder := {
  so_organization_id : nat;
  order_no : DocumentNumber;
  so_outlet_id : nat;
  so_user_id : nat;
  order_datetime : Z;
  so_total_amount : Z;
  payment_method : option string;
  customer_name : option string;
  so_notes : option string }.

(** One entry of [ingredient_usage_json]. *)
Record IngredientUsage := {
  usage_ingredient_id : nat;
  usage_ingredient_name : string;
  usage_qty : Z;
  usage_unit_id : nat;
  usage_unit_symbol : string;
  usage_unit_cost : Z;
  usage_total_cost : Z }.

(** [hpp_at_that_time] is the quotient [total_hpp / qty], in millionths;
    it is kept exact here (the column rounds it to two decimals). *)
Record SalesOrderItem := {
  soi_sales_order_id : nat;
  soi_menu_id : nat;
  soi_qty : Z;
  price_at_that_time : Z;
  hpp_at_that_time : Q;
  total_item_amount : Z;
  ingredient_usage_json : list IngredientUsage;
  soi_notes : option string }.

Record PurchaseOrder := {
  po_organization_id : nat;
  po_no : DocumentNumber;
  po_supplier_id : nat;
  po_outlet_id : nat;
  po_status : PurchaseOrderStatus;
  po_order_date : Z;
  po_expected_date : option Z;
  po_received_date : option Z;
  po_total_amount : Z;
  po_notes : option string;
  po_created_by : nat;
  po_received_by : option nat }.

Record PurchaseOrderItem := {
  poi_purchase_order_id : nat;
  poi_ingredient_id : nat;
  qty_ordered : Z;
  qty_received : Z;
  poi_unit_id : nat;
  poi_unit_cost : Z;
  poi_total_cost : Z;
  poi_notes : option string }.

Record StockRequest := {
  sr_organization_id : nat;
  request_no : DocumentNumber;
  sr_created_on : Z;
  sr_from_outlet_id : nat;
  sr_to_outlet_id : nat;
  sr_status : StockRequestStatus;
  sr_requested_by : nat;
  sr_approved_by : option nat;
  sr_notes : option string }.

Record StockRequestItem := {
  sri_stock_request_id : nat;
  sri_ingredient_id : nat;
  requested_qty : Z;
  requested_unit_id : nat;
  approved_qty : Z;
  sri_notes : option string }.

Record StockTransfer := {
  st_organization_id : nat;
  transfer_no : DocumentNumber;
  st_created_on : Z;
  st_from_outlet_id : nat;
  st_to_outlet_id : nat;
  st_stock_request_id : option nat;
  st_status : StockTransferStatus;
  st_created_by : nat;
  st_received_by : option nat;
  st_notes : option string }.

Record StockTransferItem := {
  sti_stock_transfer_id : nat;
  sti_ingredient_id : nat;
  sti_qty : Z;
  sti_unit_id : nat;
  sti_unit_cost : option Z;
  sti_total_cost : option Z }.

(** ** The database *)

Record DB := {
  organizations : list Organization;
  outlets : list Outlet;
  ingredients : list Ingredient;
  units : list Unit;
  suppliers : list Supplier;
  menus : list Menu;
  recipes : list Recipe;
  recipe_items : list RecipeItem;
  inventory_stock : list InventoryStock;
  inventory_ledger : list InventoryLedger;
  sales_orders : list SalesOrder;
  sales_order_items : list SalesOrderItem;
  purchase_orders : list PurchaseOrder;
  purchase_order_items : list PurchaseOrderItem;
  stock_requests : list StockRequest;
  stock_request_items : list StockRequestItem;
  stock_transfers : list StockTransfer;
  stock_transfer_items : list StockTransferItem }.

Definition with_menus (f : list Menu → list Menu) (db : DB) : DB :=
  {| organizations := organizations db; outlets := outlets db;
     ingredients := ingredients db; units := units db; suppliers := suppliers db;
     menus := f (menus db); recipes := recipes db; recipe_items := recipe_items db;
     inventory_stock := inventory_stock db; inventory_ledger := inventory_ledger db;
     sales_orders := sales_orders db; sales_order_items := sales_order_items db;
     purchase_orders := purchase_orders db;
     purchase_order_items := purchase_order_items db;
     stock_requests := stock_requests db;
     stock_request_items := stock_request_items db;
     stock_transfers := stock_transfers db;
     stock_transfer_items := stock_transfer_items db |}.

Definition with_recipes (f : list Recipe → list Recipe) (db : DB) : DB :=
  {| organizations := organizations db; outlets := outlets db;
     ingredients := ingredients db; units := units db; suppliers := suppliers db;
     menus := menus db; recipes := f (recipes db); recipe_items := recipe_items db;
     inventory_stock := inventory_stock db; inventory_ledger := inventory_ledger db;
     sales_orders := sales_orders db; sales_order_items := sales_order_items db;
     purchase_orders := purchase_orders db;
     purchase_order_items := purchase_order_items db;
     stock_requests := stock_requests db;
     stock_request_items := stock_request_items db;
     stock_transfers := stock_transfers db;
     stock_transfer_items := stock_transfer_items db |}.

Definition with_recipe_items (f : list RecipeItem → list RecipeItem) (db : DB) : DB :=
  {| organizations := organizations db; outlets := outlets db;
     ingredients := ingredients db; units := units db; suppliers := suppliers db;
     menus := menus db; recipes := recipes db; recipe_items := f (recipe_items db);
     inventory_stock := inventory_stock db; inventory_ledger := inventory_ledger db;
     sales_orders := sales_orders db; sales_order_items := sales_order_items db;
     purchase_orders := purchase_orders db;
     purchase_order_items := purchase_order_items db;
     stock_requests := stock_requests db;
     stock_request_items := stock_request_items db;
     stock_transfers := stock_transfers db;
     stock_transfer_items := stock_transfer_items db |}.

Definition with_inventory_stock
    (f : list InventoryStock → list InventoryStock) (db : DB) : DB :=
  {| organizations := organizations db; outlets := outlets db;
     ingredients := ingredients db; units := units db; suppliers := suppliers db;
     menus := menus db; recipes := recipes db; recipe_items := recipe_items db;
     inventory_stock := f (inventory_stock db);
     inventory_ledger := inventory_ledger db;
     sales_orders := sales_orders db; sales_order_items := sales_order_items db;
     purchase_orders := purchase_orders db;
     purchase_order_items := purchase_order_items db;
     stock_requests := stock_requests db;
     stock_request_items := stock_request_items db;
     stock_transfers := stock_transfers db;
     stock_transfer_items := stock_transfer_items db |}.

Definition with_inventory_ledger
    (f : list InventoryLedger → list InventoryLedger) (db : DB) : DB :=
  {| organizations := organizations db; outlets := outlets db;
     ingredients := ingredients db; units := units db; suppliers := suppliers db;
     menus := menus db; recipes := recipes db; recipe_items := recipe_items db;
     inventory_stock := inventory_stock db;
     inventory_ledger := f (inventory_ledger db);
     sales_orders := sales_orders db; sales_order_items := sales_order_items db;
     purchase_orders := purchase_orders db;
     purchase_order_items := purchase_order_items db;
     stock_requests := stock_requests db;
     stock_request_items := stock_request_items db;
     stock_transfers := stock_transfers db;
     stock_transfer_items := stock_transfer_items db |}.

Definition with_sales_orders (f : list SalesOrder → list SalesOrder) (db : DB) : DB :=
  {| organizations := organizations db; outlets := outlets db;
     ingredients := ingredients db; units := units db; suppliers := suppliers db;
     menus := menus db; recipes := recipes db; recipe_items := recipe_items db;
     inventory_stock := inventory_stock db; inventory_ledger := inventory_ledger db;
     sales_orders := f (sales_orders db);
     sales_order_items := sales_order_items db;
     purchase_orders := purchase_orders db;
     purchase_order_items := purchase_order_items db;
     stock_requests := stock_requests db;
     stock_request_items := stock_request_items db;
     stock_transfers := stock_transfers db;
     stock_transfer_items := stock_transfer_items db |}.

Definition with_sales_order_items
    (f : list SalesOrderItem → list SalesOrderItem) (db : DB) : DB :=
  {| organizations := organizations db; outlets := outlets db;
     ingredients := ingredients db; units := units db; suppliers := suppliers db;
     menus := menus db; recipes := recipes db; recipe_items := recipe_items db;
     inventory_stock := inventory_stock db; inventory_ledger := inventory_ledger db;
     sales_orders := sales_orders db;
     sales_order_items := f (sales_order_items db);
     purchase_orders := purchase_orders db;
     purchase_order_items := purchase_order_items db;
     stock_requests := stock_requests db;
     stock_request_items := stock_request_items db;
     stock_transfers := stock_transfers db;
     stock_transfer_items := stock_transfer_items db |}.

Definition with_purchase_orders
    (f : list PurchaseOrder → list PurchaseOrder) (db : DB) : DB :=
  {| organizations := organizations db; outlets := outlets db;
     ingredients := ingredients db; units := units db; suppliers := suppliers db;
     menus := menus db; recipes := recipes db; recipe_items := recipe_items db;
     inventory_stock := inventory_stock db; inventory_ledger := inventory_ledger db;
     sales_orders := sales_orders db; sales_order_items := sales_order_items db;
     purchase_orders := f (purchase_orders db);
     purchase_order_items := purchase_order_items db;
     stock_requests := stock_requests db;
     stock_request_items := stock_request_items db;
     stock_transfers := stock_transfers db;
     stock_transfer_items := stock_transfer_items db |}.

Definition with_purchase_order_items
    (f : list PurchaseOrderItem → list PurchaseOrderItem) (db : DB) : DB :=
  {| organizations := organizations db; outlets := outlets db;
     ingredients := ingredients db; units := units db; suppliers := suppliers db;
     menus := menus db; recipes := recipes db; recipe_items := recipe_items db;
     inventory_stock := inventory_stock db; inventory_ledger := inventory_ledger db;
     sales_orders := sales_orders db; sales_order_items := sales_order_items db;
     purchase_orders := purchase_orders db;
     purchase_order_items := f (purchase_order_items db);
     stock_requests := stock_requests db;
     stock_request_items := stock_request_items db;
     stock_transfers := stock_transfers db;
     stock_transfer_items := stock_transfer_items db |}.

Definition with_stock_requests
    (f : list StockRequest → list StockRequest) (db : DB) : DB :=
  {| organizations := organizations db; outlets := outlets db;
     ingredients := ingredients db; units := units db; suppliers := suppliers db;
     menus := menus db; recipes := recipes db; recipe_items := recipe_items db;
     inventory_stock := inventory_stock db; inventory_ledger := inventory_ledger db;
     sales_orders := sales_orders db; sales_order_items := sales_order_items db;
     purchase_orders := purchase_orders db;
     purchase_order_items := purchase_order_items db;
     stock_requests := f (stock_requests db);
     stock_request_items := stock_request_items db;
     stock_transfers := stock_transfers db;
     stock_transfer_items := stock_transfer_items db |}.

Definition with_stock_request_items
    (f : list StockRequestItem → list StockRequestItem) (db : DB) : DB :=
  {| organizations := organizations db; outlets := outlets db;
     ingredients := ingredients db; units := units db; suppliers := suppliers db;
     menus := menus db; recipes := recipes db; recipe_items := recipe_items db;
     inventory_stock := inventory_stock db; inventory_ledger := inventory_ledger db;
     sales_orders := sales_orders db; sales_order_items := sales_order_items db;
     purchase_orders := purchase_orders db;
     purchase_order_items := purchase_order_items db;
     stock_requests := stock_requests db;
     stock_request_items := f (stock_request_items db);
     stock_transfers := stock_transfers db;
     stock_transfer_items := stock_transfer_items db |}.

Definition with_stock_transfers
    (f : list StockTransfer → list StockTransfer) (db : DB) : DB :=
  {| organizations := organizations db; outlets := outlets db;
     ingredients := ingredients db; units := units db; suppliers := suppliers db;
     menus := menus db; recipes := recipes db; recipe_items := recipe_items db;
     inventory_stock := inventory_stock db; inventory_ledger := inventory_ledger db;
     sales_orders := sales_orders db; sales_order_items := sales_order_items db;
     purchase_orders := purchase_orders db;
     purchase_order_items := purchase_order_items db;
     stock_requests := stock_requests db;
     stock_request_items := stock_request_items db;
     stock_transfers := f (stock_transfers db);
     stock_transfer_items := stock_transfer_items db |}.

Definition with_stock_transfer_items
    (f : list StockTransferItem → list StockTransferItem) (db : DB) : DB :=
  {| organizations := organizations db; outlets := outlets db;
     ingredients := ingredients db; units := units db; suppliers := suppliers db;
     menus := menus db; recipes := recipes db; recipe_items := recipe_items db;
     inventory_stock := inventory_stock db; inventory_ledger := inventory_ledger db;
     sales_orders := sales_orders db; sales_order_items := sales_order_items db;
     purchase_orders := purchase_orders db;
     purchase_order_items := purchase_order_items db;
     stock_requests := stock_requests db;
     stock_request_items := stock_request_items db;
     stock_transfers := stock_transfers db;
     stock_transfer_items := f (stock_transfer_items db) |}.

(** ** Exceptions raised by the handlers

    Each constructor is one [raise HTTPException(...)] site; the f-string
    arguments of the detail message are the constructor's arguments. *)

Inductive HTTPException :=
| OutletNotFound                              (* 404 "Outlet not found" *)
| IngredientNotFound                          (* 404 "Ingredient not found" *)
| SupplierNotFound                            (* 404 "Supplier not found" *)
| FromOutletNotFound                          (* 404 "From outlet not found" *)
| ToOutletNotFound                            (* 404 "To outlet not found" *)
| MenuNotFound                                (* 404 "Menu not found" *)
| MenuOfOrderNotFound (menu_id : nat)         (* 404 "Menu {menu_id} not found" *)
| MenuNotActive (name : string)               (* 400 "Menu '{name}' is not active" *)
| InsufficientStockNamed (name : string)
      (* 400 "Insufficient stock for ingredient '{ingredient_name}'" *)
| InsufficientStockOf (ingredient_id : nat)
      (* 400 "Insufficient stock for ingredient {ingredient_id}" *)
| NegativeStockAdjustment         (* 400 "Adjustment would result in negative stock" *)
| NegativeNewStock           (* 400 "Cannot create new stock with negative quantity" *)
| MenuLimitReached (limit : Z)                (* 403 "Menu limit reached. ..." *)
| NoFieldsToUpdate                            (* 400 "No fields to update" *)
| PurchaseOrderNotFound                       (* 404 "Purchase order not found" *)
| CannotApprovePO (st : PurchaseOrderStatus)  (* 400 "Cannot approve PO with status: .." *)
| CannotReceivePO (st : PurchaseOrderStatus)  (* 400 "Cannot receive PO with status: .." *)
| CannotCancelReceivedPO              (* 400 "Cannot cancel received purchase order" *)
| StockRequestNotFound                        (* 404 "Stock request not found" *)
| RequestNotToCentral      (* 400 "Stock requests must be sent to CENTRAL outlet" *)
| CannotApproveRequest (st : StockRequestStatus)
| CannotRejectRequest (st : StockRequestStatus)
| CannotCancelRequest (st : StockRequestStatus)
| StockTransferNotFound                       (* 404 "Stock transfer not found" *)
| CannotShipTransfer (st : StockTransferStatus)
| CannotReceiveTransfer (st : StockTransferStatus)
| CannotCancelReceivedTransfer        (* 400 "Cannot cancel received transfer" *)
| CannotCancelShippedTransfer
      (* 400 "Cannot cancel shipped transfer. Please receive it first." *)
| ConversionNotFound          (* 404 "No conversion found between these units" *)
| InternalServerError.
      (* an uncaught exception: an attribute read on None, an error of the
         database such as a division by zero *)

(** ** Transactions

    A handler body runs against the session's working copy of the
    database.  It either returns or raises; what it wrote before raising
    is still in the working copy. *)

Inductive outcome (A : Type) :=
| Ok (a : A)
| Raise (e : HTTPException).
Arguments Ok {A} a.
Arguments Raise {A} e.

Definition tx (A : Type) : Type := DB → outcome A * DB.

Definition ret {A} (a : A) : tx A := λ db, (Ok a, db).
Definition raise {A} (e : HTTPException) : tx A := λ db, (Raise e, db).
Definition bind {A B} (m : tx A) (k : A → tx B) : tx B :=
  λ db, match m db with
        | (Ok a, db') => k a db'
        | (Raise e, db') => (Raise e, db')
        end.

(** [db.execute(text("SELECT ..."))]: a read of the working copy. *)
Definition query {A} (q : DB → A) : tx A := λ db, (Ok (q db), db).
(** [db.execute(text("INSERT/UPDATE ..."))]: a write to the working copy. *)
Definition execute (w : DB → DB) : tx unit := λ db, (Ok tt, w db).

Notation "'let*' x ':=' m 'in' k" := (bind m (λ x, k))
  (at level 10, x binder, m at level 100, k at level 200).
Notation "m '>>' k" := (bind m (λ _, k))
  (at level 100, k at level 200, right associativity).

(** [for x in l: body], threading the local variables [s] of the loop. *)
Fixpoint for_acc {A S} (l : list A) (s : S) (body : A → S → tx S) : tx S :=
  match l with
  | [] => ret s
  | x :: l' => let* s' := body x s in for_acc l' s' body
  end.

Definition for_each {A} (l : list A) (body : A → tx unit) : tx unit :=
  for_acc l tt (λ x _, body x).

(** The session of one request (app/database.py, [get_db]).  The session
    factory has [autocommit=False]; every handler calls [db.commit()] as
    its last statement before returning, and [get_db] closes the session in
    its [finally] clause, which discards whatever was not committed.  So a
    request that raises leaves the database as it found it. *)
Definition session {A} (body : tx A) : tx A :=
  λ db, match body db with
        | (Ok a, db') => (Ok a, db')
        | (Raise e, _) => (Raise e, db)
        end.

(** What the authentication layer hands to every handler, and the clocks.
    [today] is [date.today()] of the application.  [created_day] is the day
    of the [created_at] that the database stamps on a row which the handler
    inserts without writing that column, as the INSERTs of stock requests
    and stock transfers do: the default of the column is declared in
    [TimestampMixin] (app/models/base.py), which is not among the sources,
    and is taken as this parameter. *)
Record Context := {
  organization_id : nat;
  user_id : nat;
  today : Z;
  created_day : Z }.

(** ** Queries shared by the handlers *)

(** [SELECT ... FROM t WHERE id = :id AND organization_id = :org_id]. *)
Definition select_in_org {A} (org_of : A → nat) (org id : nat) (t : list A)
    : option A :=
  match t !! id with
  | Some r => if decide (org_of r = org) then Some r else None
  | None => None
  end.

(** [SELECT ... FROM inventory_stock WHERE outlet_id = :o AND
    ingredient_id = :i], then [fetchone()]: the row and its id. *)
Definition find_stock (outlet_id ingredient_id : nat) (db : DB)
    : option (nat * InventoryStock) :=
  list_find (λ s, stock_outlet_id s = outlet_id ∧ stock_ingredient_id s = ingredient_id)
            (inventory_stock db).

Definition set_qty_on_hand (q : Z) (s : InventoryStock) : InventoryStock :=
  {| stock_organization_id := stock_organization_id s;
     stock_outlet_id := stock_outlet_id s;
     stock_ingredient_id := stock_ingredient_id s;
     qty_on_hand := q; min_qty := min_qty s;
     stock_unit_id := stock_unit_id s; last_cost := last_cost s |}.

Definition set_qty_and_cost (q : Z) (c : option Z) (s : InventoryStock)
    : InventoryStock :=
  {| stock_organization_id := stock_organization_id s;
     stock_outlet_id := stock_outlet_id s;
     stock_ingredient_id := stock_ingredient_id s;
     qty_on_hand := q; min_qty := min_qty s;
     stock_unit_id := stock_unit_id s; last_cost := c |}.

(** [INSERT INTO t ... RETURNING id]. *)
Definition insert_returning {A} (table : DB → list A)
    (add : (list A → list A) → DB → DB) (row : A) : tx nat :=
  let* id := query (λ db, length (table db)) in
  execute (add (λ t, t ++ [row])) >> ret id.

(** The read side of the ledger: what the stock row of a pair says, a
    missing row standing for a quantity of zero, and what the ledger
    entries of the pair add up to. *)
Definition stock_level (outlet_id ingredient_id : nat) (db : DB) : Z :=
  match find_stock outlet_id ingredient_id db with
  | Some (_, s) => qty_on_hand s
  | None => 0
  end.


(** Python truthiness of an optional number: [x if x else None]. *)
Definition truthy (c : option Z) : option Z :=
  match c with
  | Some x => if decide (x = 0%Z) then None else Some x
  | None => None
  end.

(** ** Sales orders (app/api/v1/sales.py) *)

Record SalesOrderItemCreate := {
  soic_menu_id : nat;
  soic_qty : Z;
  soic_notes : option string }.

Record SalesOrderCreate := {
  soc_outlet_id : nat;
  soc_payment_method : option string;
  soc_customer_name : option string;
  soc_notes : option string;
  soc_items : list SalesOrderItemCreate }.

Definition generate_order_number (org outlet_id : nat) (day : Z) (db : DB) : DocumentNumber :=
  let outlet_code :=
    match outlets db !! outlet_id with Some o => outlet_code o | None => "OUT"%string end in
  let count :=
    length (filter (λ so, so_organization_id so = org ∧ so_outlet_id so = outlet_id
                          ∧ order_datetime so = day) (sales_orders db)) in
  {| number_prefix := outlet_code; number_day := day; number_sequence := count + 1 |}.

(** [SELECT id FROM recipes WHERE menu_id = :menu_id AND is_active = true
    ORDER BY version DESC LIMIT 1]; among recipes of equal version the
    earliest row is taken. *)
Definition active_recipe (menu_id : nat) (db : DB) : option nat :=
  fst <$>
  foldl (λ best c,
           match best with
           | None => Some c
           | Some b => if decide (recipe_version b.2 < recipe_version c.2)%Z
                       then Some c else Some b
           end)
        None
        (filter (λ c, recipe_menu_id c.2 = menu_id ∧ recipe_is_active c.2 = true)
                (imap pair (recipes db))).

(** One row of the join
    [recipe_items ri JOIN ingredients i JOIN units u LEFT JOIN inventory_stock s]. *)
Record RecipeLine := {
  line_ingredient_id : nat;
  line_qty : Z;
  line_unit_id : nat;
  line_ingredient_name : string;
  line_unit_symbol : string;
  line_last_cost : option Z }.

Definition recipe_lines (recipe_id outlet_id : nat) (db : DB) : list RecipeLine :=
  flat_map
    (λ ri,
       match ingredients db !! ri_ingredient_id ri, units db !! ri_unit_id ri with
       | Some i, Some u =>
           let line c :=
             {| line_ingredient_id := ri_ingredient_id ri; line_qty := ri_qty ri;
                line_unit_id := ri_unit_id ri;
                line_ingredient_name := ingredient_name i;
                line_unit_symbol := unit_symbol u; line_last_cost := c |} in
           match filter (λ s, stock_ingredient_id s = ri_ingredient_id ri
                              ∧ stock_outlet_id s = outlet_id) (inventory_stock db) with
           | [] => [line None]
           | stocks => (λ s, line (last_cost s)) <$> stocks
           end
       | _, _ => []
       end)
    (filter (λ ri, ri_recipe_id ri = recipe_id) (recipe_items db)).

(** The lines a requested item is costed and checked on: those of the
    active recipe of its menu, none when the menu has no active recipe. *)
Definition lines_of_menu (menu_id outlet_id : nat) (db : DB) : list RecipeLine :=
  match active_recipe menu_id db with
  | Some recipe_id => recipe_lines recipe_id outlet_id db
  | None => []
  end.

(** An entry of the local list [order_items]. *)
Record OrderItem := {
  oi_menu_id : nat;
  oi_qty : Z;
  oi_price : Z;
  oi_hpp : Q;
  oi_total : Z;
  oi_ingredient_usage : list IngredientUsage;
  oi_notes : option string }.

(** Body of [for ri in recipe_items]: cost the line, then check the stock. *)
Definition cost_and_check_line (outlet_id : nat) (qty : Z) (ri : RecipeLine)
    (acc : list IngredientUsage * Z) : tx (list IngredientUsage * Z) :=
  let usage := (line_qty ri * qty)%Z in
  let item_cost :=
    match truthy (line_last_cost ri) with Some c => (usage * c)%Z | None => 0%Z end in
  let entry :=
    {| usage_ingredient_id := line_ingredient_id ri;
       usage_ingredient_name := line_ingredient_name ri;
       usage_qty := usage; usage_unit_id := line_unit_id ri;
       usage_unit_symbol := line_unit_symbol ri;
       usage_unit_cost := default 0%Z (truthy (line_last_cost ri));
       usage_total_cost := item_cost |} in
  let* stock := query (find_stock outlet_id (line_ingredient_id ri)) in
  match stock with
  | Some (_, s) =>
      if decide (qty_on_hand s < usage)%Z
      then raise (InsufficientStockNamed (line_ingredient_name ri))
      else ret (acc.1 ++ [entry], (acc.2 + item_cost)%Z)
  | None => raise (InsufficientStockNamed (line_ingredient_name ri))
  end.

(** Body of the first [for item_data in data.items]. *)
Definition prepare_item (ctx : Context) (outlet_id : nat) (item_data : SalesOrderItemCreate)
    (acc : Z * list OrderItem) : tx (Z * list OrderItem) :=
  let* menu := query (λ db, select_in_org menu_organization_id (organization_id ctx)
                                          (soic_menu_id item_data) (menus db)) in
  match menu with
  | None => raise (MenuOfOrderNotFound (soic_menu_id item_data))
  | Some menu =>
      if negb (menu_is_active menu) then raise (MenuNotActive (menu_name menu)) else
      let* recipe_items := query (lines_of_menu (soic_menu_id item_data) outlet_id) in
      let* costed := for_acc recipe_items ([], 0%Z)
                             (cost_and_check_line outlet_id (soic_qty item_data)) in
      let item_total := (menu_price menu * soic_qty item_data)%Z in
      ret ((acc.1 + item_total)%Z,
           acc.2 ++ [ {| oi_menu_id := soic_menu_id item_data;
                         oi_qty := soic_qty item_data;
                         oi_price := menu_price menu;
                         oi_hpp := if decide (0 < soic_qty item_data)%Z
                                   then Qmake costed.2 (Z.to_pos (soic_qty item_data))
                                   else 0%Q;
                         oi_total := item_total;
                         oi_ingredient_usage := costed.1;
                         oi_notes := soic_notes item_data |} ])
  end.

(** [UPDATE inventory_stock SET qty_on_hand = qty_on_hand - :usage_qty
    WHERE outlet_id = :outlet_id AND ingredient_id = :ingredient_id]. *)
Definition deduct_stock (outlet_id ingredient_id : nat) (usage : Z)
    (t : list InventoryStock) : list InventoryStock :=
  (λ s, if decide (stock_outlet_id s = outlet_id ∧ stock_ingredient_id s = ingredient_id)
        then set_qty_on_hand (qty_on_hand s - usage) s else s) <$> t.

(** Body of [for ingredient in item["ingredient_usage"]]. *)
Definition post_sale (ctx : Context) (outlet_id order_id : nat) (number : DocumentNumber)
    (ingredient : IngredientUsage) : tx unit :=
  execute (with_inventory_stock
             (deduct_stock outlet_id (usage_ingredient_id ingredient) (usage_qty ingredient))) >>
  execute (with_inventory_ledger (λ t, t ++ [
    {| ledger_organization_id := organization_id ctx;
       ledger_outlet_id := outlet_id;
       ledger_ingredient_id := usage_ingredient_id ingredient;
       change_qty := - usage_qty ingredient;
       source_type := SALE; source_id := Some order_id;
       ledger_unit_id := usage_unit_id ingredient;
       ledger_unit_cost := Some (usage_unit_cost ingredient);
       ledger_total_cost := Some (usage_total_cost ingredient);
       remarks := SoldViaOrder number |} ])).

(** Body of the second loop, [for item in order_items]. *)
Definition store_item (ctx : Context) (outlet_id order_id : nat) (number : DocumentNumber)
    (item : OrderItem) : tx unit :=
  execute (with_sales_order_items (λ t, t ++ [
    {| soi_sales_order_id := order_id; soi_menu_id := oi_menu_id item;
       soi_qty := oi_qty item; price_at_that_time := oi_price item;
       hpp_at_that_time := oi_hpp item; total_item_amount := oi_total item;
       ingredient_usage_json := oi_ingredient_usage item;
       soi_notes := oi_notes item |} ])) >>
  for_each (oi_ingredient_usage item) (post_sale ctx outlet_id order_id number).

Definition create_sales_order_body (ctx : Context) (data : SalesOrderCreate)
    : tx (nat * DocumentNumber * Z) :=
  let* outlet := query (λ db, select_in_org outlet_organization_id (organization_id ctx)
                                            (soc_outlet_id data) (outlets db)) in
  match outlet with
  | None => raise OutletNotFound
  | Some _ =>
      let* number := query (generate_order_number (organization_id ctx)
                                                  (soc_outlet_id data) (today ctx)) in
      let* prepared := for_acc (soc_items data) (0%Z, [])
                               (prepare_item ctx (soc_outlet_id data)) in
      let* order_id := insert_returning sales_orders with_sales_orders
        {| so_organization_id := organization_id ctx; order_no := number;
           so_outlet_id := soc_outlet_id data; so_user_id := user_id ctx;
           order_datetime := today ctx; so_total_amount := prepared.1;
           payment_method := soc_payment_method data;
           customer_name := soc_customer_name data; so_notes := soc_notes data |} in
      for_each prepared.2 (store_item ctx (soc_outlet_id data) order_id number) >>
      ret (order_id, number, prepared.1)
  end.

Definition create_sales_order (ctx : Context) (data : SalesOrderCreate)
    : tx (nat * DocumentNumber * Z) :=
  session (create_sales_order_body ctx data).

(** ** Manual adjustments (app/api/v1/inventory.py) *)

Record InventoryAdjustmentCreate := {
  adj_ingredient_id : nat;
  adj_outlet_id : nat;
  adjustment_qty : Z;
  adj_unit_id : nat;
  adj_remarks : string }.

Definition create_inventory_adjustment_body (ctx : Context)
    (data : InventoryAdjustmentCreate) : tx nat :=
  let* outlet := query (λ db, select_in_org outlet_organization_id (organization_id ctx)
                                            (adj_outlet_id data) (outlets db)) in
  if outlet is None then raise OutletNotFound else
  let* ingredient := query (λ db, select_in_org ingredient_organization_id
                                    (organization_id ctx) (adj_ingredient_id data)
                                    (ingredients db)) in
  if ingredient is None then raise IngredientNotFound else
  let* existing_stock := query (find_stock (adj_outlet_id data) (adj_ingredient_id data)) in
  (match existing_stock with
   | Some (stock_id, s) =>
       let new_qty := (qty_on_hand s + adjustment_qty data)%Z in
       if decide (new_qty < 0)%Z then raise NegativeStockAdjustment else
       execute (with_inventory_stock (alter (set_qty_on_hand new_qty) stock_id))
   | None =>
       if decide (adjustment_qty data < 0)%Z then raise NegativeNewStock else
       execute (with_inventory_stock (λ t, t ++ [
         {| stock_organization_id := organization_id ctx;
            stock_outlet_id := adj_outlet_id data;
            stock_ingredient_id := adj_ingredient_id data;
            qty_on_hand := adjustment_qty data; min_qty := 0;
            stock_unit_id := adj_unit_id data; last_cost := None |} ]))
   end) >>
  insert_returning inventory_ledger with_inventory_ledger
    {| ledger_organization_id := organization_id ctx;
       ledger_outlet_id := adj_outlet_id data;
       ledger_ingredient_id := adj_ingredient_id data;
       change_qty := adjustment_qty data;
       source_type := ADJUSTMENT; source_id := None;
       ledger_unit_id := adj_unit_id data;
       ledger_unit_cost := None; ledger_total_cost := None;
       remarks := AdjustmentRemarks (adj_remarks data) |}.

Definition create_inventory_adjustment (ctx : Context)
    (data : InventoryAdjustmentCreate) : tx nat :=
  session (create_inventory_adjustment_body ctx data).

(** ** Purchase orders (app/api/v1/purchase_orders.py) *)

Record PurchaseOrderItemCreate := {
  poic_ingredient_id : nat;
  poic_qty_ordered : Z;
  poic_unit_id : nat;
  poic_unit_cost : Z;
  poic_notes : option string }.

Record PurchaseOrderCreate := {
  poc_supplier_id : nat;
  poc_outlet_id : nat;
  poc_order_date : Z;
  poc_expected_date : option Z;
  poc_notes : option string;
  poc_items : list PurchaseOrderItemCreate }.

Record ReceivePurchaseOrderItem := {
  rpo_item_id : nat;
  rpo_qty_received : Z }.

Record ReceivePurchaseOrder := {
  rpo_items : list ReceivePurchaseOrderItem;
  rpo_received_date : Z }.

Definition generate_po_number (org : nat) (day : Z) (db : DB) : DocumentNumber :=
  let count :=
    length (filter (λ po, po_organization_id po = org ∧ po_order_date po = day)
                   (purchase_orders db)) in
  {| number_prefix := "PO"; number_day := day; number_sequence := count + 1 |}.

Definition set_po_status (st : PurchaseOrderStatus) (po : PurchaseOrder) : PurchaseOrder :=
  {| po_organization_id := po_organization_id po; po_no := po_no po;
     po_supplier_id := po_supplier_id po; po_outlet_id := po_outlet_id po;
     po_status := st; po_order_date := po_order_date po;
     po_expected_date := po_expected_date po;
     po_received_date := po_received_date po;
     po_total_amount := po_total_amount po; po_notes := po_notes po;
     po_created_by := po_created_by po; po_received_by := po_received_by po |}.

Definition set_po_received (day : Z) (user : nat) (po : PurchaseOrder) : PurchaseOrder :=
  {| po_organization_id := po_organization_id po; po_no := po_no po;
     po_supplier_id := po_supplier_id po; po_outlet_id := po_outlet_id po;
     po_status := PO_RECEIVED; po_order_date := po_order_date po;
     po_expected_date := po_expected_date po;
     po_received_date := Some day;
     po_total_amount := po_total_amount po; po_notes := po_notes po;
     po_created_by := po_created_by po; po_received_by := Some user |}.

Definition set_qty_received (q : Z) (it : PurchaseOrderItem) : PurchaseOrderItem :=
  {| poi_purchase_order_id := poi_purchase_order_id it;
     poi_ingredient_id := poi_ingredient_id it;
     qty_ordered := qty_ordered it; qty_received := q;
     poi_unit_id := poi_unit_id it; poi_unit_cost := poi_unit_cost it;
     poi_total_cost := poi_total_cost it; poi_notes := poi_notes it |}.

(** [total_amount] and [total_cost] are NUMERIC(12,2) columns: the
    database rounds the product of a quantity and a unit cost to two
    decimals in each row it stores.  The rows below keep the product as
    the handler computes it, in millionths; what the two columns hold
    after rounding is not modelled. *)
Definition create_purchase_order_body (ctx : Context) (data : PurchaseOrderCreate)
    : tx (nat * DocumentNumber) :=
  let* supplier := query (λ db, select_in_org supplier_organization_id
                                  (organization_id ctx) (poc_supplier_id data)
                                  (suppliers db)) in
  if supplier is None then raise SupplierNotFound else
  let* outlet := query (λ db, select_in_org outlet_organization_id (organization_id ctx)
                                            (poc_outlet_id data) (outlets db)) in
  if outlet is None then raise OutletNotFound else
  let* number := query (generate_po_number (organization_id ctx) (today ctx)) in
  let total_amount :=
    foldr (λ item acc, poic_qty_ordered item * poic_unit_cost item + acc)%Z 0%Z
          (poc_items data) in
  let* po_id := insert_returning purchase_orders with_purchase_orders
    {| po_organization_id := organization_id ctx; po_no := number;
       po_supplier_id := poc_supplier_id data; po_outlet_id := poc_outlet_id data;
       po_status := PO_DRAFT; po_order_date := poc_order_date data;
       po_expected_date := poc_expected_date data; po_received_date := None;
       po_total_amount := total_amount; po_notes := poc_notes data;
       po_created_by := user_id ctx; po_received_by := None |} in
  for_each (poc_items data) (λ item,
    execute (with_purchase_order_items (λ t, t ++ [
      {| poi_purchase_order_id := po_id;
         poi_ingredient_id := poic_ingredient_id item;
         qty_ordered := poic_qty_ordered item; qty_received := 0;
         poi_unit_id := poic_unit_id item; poi_unit_cost := poic_unit_cost item;
         poi_total_cost := poic_qty_ordered item * poic_unit_cost item;
         poi_notes := poic_notes item |} ]))) >>
  ret (po_id, number).

Definition create_purchase_order (ctx : Context) (data : PurchaseOrderCreate)
    : tx (nat * DocumentNumber) :=
  session (create_purchase_order_body ctx data).

Definition approve_purchase_order_body (ctx : Context) (po_id : nat) : tx unit :=
  let* po := query (λ db, select_in_org po_organization_id (organization_id ctx)
                                        po_id (purchase_orders db)) in
  match po with
  | None => raise PurchaseOrderNotFound
  | Some po =>
      if decide (po_status po ≠ PO_DRAFT) then raise (CannotApprovePO (po_status po)) else
      execute (with_purchase_orders (alter (set_po_status PO_ORDERED) po_id))
  end.

Definition approve_purchase_order (ctx : Context) (po_id : nat) : tx unit :=
  session (approve_purchase_order_body ctx po_id).

(** [SELECT ... FROM purchase_order_items WHERE id = :item_id AND
    purchase_order_id = :po_id]. *)
Definition select_po_item (item_id po_id : nat) (db : DB) : option PurchaseOrderItem :=
  match purchase_order_items db !! item_id with
  | Some it => if decide (poi_purchase_order_id it = po_id) then Some it else None
  | None => None
  end.

(** Body of [for item_data in data.items] of [receive_purchase_order]. *)
Definition receive_po_line (ctx : Context) (po_id outlet_id : nat)
    (item_data : ReceivePurchaseOrderItem) : tx unit :=
  let* item := query (select_po_item (rpo_item_id item_data) po_id) in
  match item with
  | None => ret tt                                              (* continue *)
  | Some item =>
      execute (with_purchase_order_items
                 (alter (set_qty_received (rpo_qty_received item_data))
                        (rpo_item_id item_data))) >>
      let* existing_stock := query (find_stock outlet_id (poi_ingredient_id item)) in
      (match existing_stock with
       | Some (stock_id, s) =>
           execute (with_inventory_stock
                      (alter (set_qty_and_cost
                                (qty_on_hand s + rpo_qty_received item_data)
                                (Some (poi_unit_cost item))) stock_id))
       | None =>
           execute (with_inventory_stock (λ t, t ++ [
             {| stock_organization_id := organization_id ctx;
                stock_outlet_id := outlet_id;
                stock_ingredient_id := poi_ingredient_id item;
                qty_on_hand := rpo_qty_received item_data; min_qty := 0;
                stock_unit_id := poi_unit_id item;
                last_cost := Some (poi_unit_cost item) |} ]))
       end) >>
      execute (with_inventory_ledger (λ t, t ++ [
        {| ledger_organization_id := organization_id ctx;
           ledger_outlet_id := outlet_id;
           ledger_ingredient_id := poi_ingredient_id item;
           change_qty := rpo_qty_received item_data;
           source_type := PURCHASE; source_id := Some po_id;
           ledger_unit_id := poi_unit_id item;
           ledger_unit_cost := Some (poi_unit_cost item);
           ledger_total_cost := Some (rpo_qty_received item_data * poi_unit_cost item)%Z;
           remarks := ReceivedFromPO |} ]))
  end.

Definition receive_purchase_order_body (ctx : Context) (po_id : nat)
    (data : ReceivePurchaseOrder) : tx unit :=
  let* po := query (λ db, select_in_org po_organization_id (organization_id ctx)
                                        po_id (purchase_orders db)) in
  match po with
  | None => raise PurchaseOrderNotFound
  | Some po =>
      if decide (po_status po = PO_ORDERED ∨ po_status po = PO_DRAFT) then
        for_each (rpo_items data) (receive_po_line ctx po_id (po_outlet_id po)) >>
        execute (with_purchase_orders
                   (alter (set_po_received (rpo_received_date data) (user_id ctx)) po_id))
      else raise (CannotReceivePO (po_status po))
  end.

Definition receive_purchase_order (ctx : Context) (po_id : nat)
    (data : ReceivePurchaseOrder) : tx unit :=
  session (receive_purchase_order_body ctx po_id data).

Definition cancel_purchase_order_body (ctx : Context) (po_id : nat) : tx unit :=
  let* po := query (λ db, select_in_org po_organization_id (organization_id ctx)
                                        po_id (purchase_orders db)) in
  match po with
  | None => raise PurchaseOrderNotFound
  | Some po =>
      if decide (po_status po = PO_RECEIVED) then raise CannotCancelReceivedPO else
      execute (with_purchase_orders (alter (set_po_status PO_CANCELLED) po_id))
  end.

Definition cancel_purchase_order (ctx : Context) (po_id : nat) : tx unit :=
  session (cancel_purchase_order_body ctx po_id).

(** ** Stock requests (app/api/v1/stock_requests.py) *)

Record StockRequestItemCreate := {
  sric_ingredient_id : nat;
  sric_requested_qty : Z;
  sric_requested_unit_id : nat;
  sric_notes : option string }.

Record StockRequestCreate := {
  src_from_outlet_id : nat;
  src_to_outlet_id : nat;
  src_notes : option string;
  src_items : list StockRequestItemCreate }.

Record ApproveStockRequestItem := {
  asr_item_id : nat;
  asr_approved_qty : Z }.

Record ApproveStockRequest := { asr_items : list ApproveStockRequestItem }.

(** [SELECT COUNT ... FROM stock_requests WHERE organization_id = :org_id
    AND DATE(created_at) = :today], with [date.today()] for [:today]. *)
Definition generate_request_number (org : nat) (day : Z) (db : DB) : DocumentNumber :=
  let count :=
    length (filter (λ sr, sr_organization_id sr = org ∧ sr_created_on sr = day)
                   (stock_requests db)) in
  {| number_prefix := "SR"; number_day := day; number_sequence := count + 1 |}.

Definition set_sr_status (st : StockRequestStatus) (by_user : option nat)
    (sr : StockRequest) : StockRequest :=
  {| sr_organization_id := sr_organization_id sr; request_no := request_no sr;
     sr_created_on := sr_created_on sr;
     sr_from_outlet_id := sr_from_outlet_id sr; sr_to_outlet_id := sr_to_outlet_id sr;
     sr_status := st; sr_requested_by := sr_requested_by sr;
     sr_approved_by := if by_user is Some u then Some u else sr_approved_by sr;
     sr_notes := sr_notes sr |}.

Definition set_approved_qty (q : Z) (it : StockRequestItem) : StockRequestItem :=
  {| sri_stock_request_id := sri_stock_request_id it;
     sri_ingredient_id := sri_ingredient_id it;
     requested_qty := requested_qty it;
     requested_unit_id := requested_unit_id it;
     approved_qty := q; sri_notes := sri_notes it |}.

Definition create_stock_request_body (ctx : Context) (data : StockRequestCreate)
    : tx (nat * DocumentNumber) :=
  let* from_outlet := query (λ db, select_in_org outlet_organization_id
                                     (organization_id ctx) (src_from_outlet_id data)
                                     (outlets db)) in
  if from_outlet is None then raise FromOutletNotFound else
  let* to_outlet := query (λ db, select_in_org outlet_organization_id
                                   (organization_id ctx) (src_to_outlet_id data)
                                   (outlets db)) in
  match to_outlet with
  | None => raise ToOutletNotFound
  | Some to_outlet =>
      if decide (outlet_type to_outlet ≠ CENTRAL) then raise RequestNotToCentral else
      let* number := query (generate_request_number (organization_id ctx) (today ctx)) in
      let* request_id := insert_returning stock_requests with_stock_requests
        {| sr_organization_id := organization_id ctx; request_no := number;
           sr_created_on := created_day ctx;     (* the default of created_at *)
           sr_from_outlet_id := src_from_outlet_id data;
           sr_to_outlet_id := src_to_outlet_id data;
           sr_status := SR_PENDING; sr_requested_by := user_id ctx;
           sr_approved_by := None; sr_notes := src_notes data |} in
      for_each (src_items data) (λ item,
        execute (with_stock_request_items (λ t, t ++ [
          {| sri_stock_request_id := request_id;
             sri_ingredient_id := sric_ingredient_id item;
             requested_qty := sric_requested_qty item;
             requested_unit_id := sric_requested_unit_id item;
             approved_qty := 0; sri_notes := sric_notes item |} ]))) >>
      ret (request_id, number)
  end.

Definition create_stock_request (ctx : Context) (data : StockRequestCreate)
    : tx (nat * DocumentNumber) :=
  session (create_stock_request_body ctx data).

(** [SELECT ... FROM stock_request_items WHERE id = :item_id AND
    stock_request_id = :request_id]. *)
Definition select_request_item (item_id request_id : nat) (db : DB)
    : option StockRequestItem :=
  match stock_request_items db !! item_id with
  | Some it => if decide (sri_stock_request_id it = request_id) then Some it else None
  | None => None
  end.

(** Body of [for item_data in data.items] of [approve_stock_request]. *)
Definition approve_line (request_id central_id : nat)
    (item_data : ApproveStockRequestItem) : tx unit :=
  let* item := query (select_request_item (asr_item_id item_data) request_id) in
  match item with
  | None => ret tt                                              (* continue *)
  | Some item =>
      let* central_stock := query (find_stock central_id (sri_ingredient_id item)) in
      let available_qty :=
        match central_stock with Some (_, s) => qty_on_hand s | None => 0%Z end in
      let max_approved := Z.min (requested_qty item) available_qty in
      let approved := Z.min (asr_approved_qty item_data) max_approved in
      execute (with_stock_request_items
                 (alter (set_approved_qty approved) (asr_item_id item_data)))
  end.

Definition approve_stock_request_body (ctx : Context) (request_id : nat)
    (data : ApproveStockRequest) : tx unit :=
  let* request := query (λ db, select_in_org sr_organization_id (organization_id ctx)
                                             request_id (stock_requests db)) in
  match request with
  | None => raise StockRequestNotFound
  | Some request =>
      if decide (sr_status request ≠ SR_PENDING)
      then raise (CannotApproveRequest (sr_status request)) else
      for_each (asr_items data) (approve_line request_id (sr_to_outlet_id request)) >>
      execute (with_stock_requests
                 (alter (set_sr_status SR_APPROVED (Some (user_id ctx))) request_id))
  end.

Definition approve_stock_request (ctx : Context) (request_id : nat)
    (data : ApproveStockRequest) : tx unit :=
  session (approve_stock_request_body ctx request_id data).

Definition reject_stock_request_body (ctx : Context) (request_id : nat) : tx unit :=
  let* request := query (λ db, select_in_org sr_organization_id (organization_id ctx)
                                             request_id (stock_requests db)) in
  match request with
  | None => raise StockRequestNotFound
  | Some request =>
      if decide (sr_status request ≠ SR_PENDING)
      then raise (CannotRejectRequest (sr_status request)) else
      execute (with_stock_requests
                 (alter (set_sr_status SR_REJECTED (Some (user_id ctx))) request_id))
  end.

Definition reject_stock_request (ctx : Context) (request_id : nat) : tx unit :=
  session (reject_stock_request_body ctx request_id).

Definition cancel_stock_request_body (ctx : Context) (request_id : nat) : tx unit :=
  let* request := query (λ db, select_in_org sr_organization_id (organization_id ctx)
                                             request_id (stock_requests db)) in
  match request with
  | None => raise StockRequestNotFound
  | Some request =>
      if decide (sr_status request = SR_PENDING ∨ sr_status request = SR_APPROVED) then
        execute (with_stock_requests (alter (set_sr_status SR_CANCELLED None) request_id))
      else raise (CannotCancelRequest (sr_status request))
  end.

Definition cancel_stock_request (ctx : Context) (request_id : nat) : tx unit :=
  session (cancel_stock_request_body ctx request_id).

(** ** Stock transfers (app/api/v1/stock_transfers.py) *)

Record StockTransferItemCreate := {
  stic_ingredient_id : nat;
  stic_qty : Z;
  stic_unit_id : nat;
  stic_unit_cost : option Z }.

Record StockTransferCreate := {
  stc_from_outlet_id : nat;
  stc_to_outlet_id : nat;
  stc_stock_request_id : option nat;
  stc_notes : option string;
  stc_items : list StockTransferItemCreate }.

(** [SELECT COUNT ... FROM stock_transfers WHERE organization_id = :org_id
    AND DATE(created_at) = :today], with [date.today()] for [:today]. *)
Definition generate_transfer_number (org : nat) (day : Z) (db : DB) : DocumentNumber :=
  let count :=
    length (filter (λ st, st_organization_id st = org ∧ st_created_on st = day)
                   (stock_transfers db)) in
  {| number_prefix := "ST"; number_day := day; number_sequence := count + 1 |}.

Definition set_st_status (st : StockTransferStatus) (received_by : option nat)
    (t : StockTransfer) : StockTransfer :=
  {| st_organization_id := st_organization_id t; transfer_no := transfer_no t;
     st_created_on := st_created_on t;
     st_from_outlet_id := st_from_outlet_id t; st_to_outlet_id := st_to_outlet_id t;
     st_stock_request_id := st_stock_request_id t; st_status := st;
     st_created_by := st_created_by t;
     st_received_by := if received_by is Some u then Some u else st_received_by t;
     st_notes := st_notes t |}.

(** [SELECT ... FROM stock_transfer_items WHERE stock_transfer_id = :id]. *)
Definition items_of_transfer (transfer_id : nat) (db : DB) : list StockTransferItem :=
  filter (λ it, sti_stock_transfer_id it = transfer_id) (stock_transfer_items db).

Definition create_stock_transfer_body (ctx : Context) (data : StockTransferCreate)
    : tx (nat * DocumentNumber) :=
  let* from_outlet := query (λ db, select_in_org outlet_organization_id
                                     (organization_id ctx) (stc_from_outlet_id data)
                                     (outlets db)) in
  if from_outlet is None then raise FromOutletNotFound else
  let* to_outlet := query (λ db, select_in_org outlet_organization_id
                                   (organization_id ctx) (stc_to_outlet_id data)
                                   (outlets db)) in
  if to_outlet is None then raise ToOutletNotFound else
  let* number := query (generate_transfer_number (organization_id ctx) (today ctx)) in
  let* transfer_id := insert_returning stock_transfers with_stock_transfers
    {| st_organization_id := organization_id ctx; transfer_no := number;
       st_created_on := created_day ctx;         (* the default of created_at *)
       st_from_outlet_id := stc_from_outlet_id data;
       st_to_outlet_id := stc_to_outlet_id data;
       st_stock_request_id := stc_stock_request_id data; st_status := ST_DRAFT;
       st_created_by := user_id ctx; st_received_by := None;
       st_notes := stc_notes data |} in
  for_each (stc_items data) (λ item,
    let* stock := query (find_stock (stc_from_outlet_id data) (stic_ingredient_id item)) in
    let unit_cost :=
      match truthy (stic_unit_cost item) with
      | Some c => c
      | None => match stock with
                | Some (_, s) => default 0%Z (truthy (last_cost s))
                | None => 0%Z
                end
      end in
    execute (with_stock_transfer_items (λ t, t ++ [
      {| sti_stock_transfer_id := transfer_id;
         sti_ingredient_id := stic_ingredient_id item;
         sti_qty := stic_qty item; sti_unit_id := stic_unit_id item;
         sti_unit_cost := Some unit_cost;
         sti_total_cost := Some (stic_qty item * unit_cost)%Z |} ]))) >>
  ret (transfer_id, number).

Definition create_stock_transfer (ctx : Context) (data : StockTransferCreate)
    : tx (nat * DocumentNumber) :=
  session (create_stock_transfer_body ctx data).

(** Body of [for item in items] of [ship_stock_transfer]. *)
Definition ship_item (ctx : Context) (transfer_id from_outlet_id : nat)
    (item : StockTransferItem) : tx unit :=
  let* stock := query (find_stock from_outlet_id (sti_ingredient_id item)) in
  match stock with
  | None => raise (InsufficientStockOf (sti_ingredient_id item))
  | Some (stock_id, s) =>
      if decide (qty_on_hand s < sti_qty item)%Z
      then raise (InsufficientStockOf (sti_ingredient_id item)) else
      execute (with_inventory_stock
                 (alter (set_qty_on_hand (qty_on_hand s - sti_qty item)) stock_id)) >>
      execute (with_inventory_ledger (λ t, t ++ [
        {| ledger_organization_id := organization_id ctx;
           ledger_outlet_id := from_outlet_id;
           ledger_ingredient_id := sti_ingredient_id item;
           change_qty := - sti_qty item;
           source_type := TRANSFER_OUT; source_id := Some transfer_id;
           ledger_unit_id := sti_unit_id item;
           ledger_unit_cost := truthy (sti_unit_cost item);
           ledger_total_cost := truthy (sti_total_cost item);
           remarks := StockTransferredOut |} ]))
  end.

Definition ship_stock_transfer_body (ctx : Context) (transfer_id : nat) : tx unit :=
  let* transfer := query (λ db, select_in_org st_organization_id (organization_id ctx)
                                              transfer_id (stock_transfers db)) in
  match transfer with
  | None => raise StockTransferNotFound
  | Some transfer =>
      if decide (st_status transfer ≠ ST_DRAFT)
      then raise (CannotShipTransfer (st_status transfer)) else
      let* items := query (items_of_transfer transfer_id) in
      for_each items (ship_item ctx transfer_id (st_from_outlet_id transfer)) >>
      execute (with_stock_transfers (alter (set_st_status ST_SHIPPED None) transfer_id))
  end.

Definition ship_stock_transfer (ctx : Context) (transfer_id : nat) : tx unit :=
  session (ship_stock_transfer_body ctx transfer_id).

(** Body of [for item in items] of [receive_stock_transfer]. *)
Definition receive_item (ctx : Context) (transfer_id to_outlet_id : nat)
    (item : StockTransferItem) : tx unit :=
  let* existing_stock := query (find_stock to_outlet_id (sti_ingredient_id item)) in
  (match existing_stock with
   | Some (stock_id, s) =>
       execute (with_inventory_stock
                  (alter (set_qty_and_cost (qty_on_hand s + sti_qty item)
                                           (truthy (sti_unit_cost item))) stock_id))
   | None =>
       execute (with_inventory_stock (λ t, t ++ [
         {| stock_organization_id := organization_id ctx;
            stock_outlet_id := to_outlet_id;
            stock_ingredient_id := sti_ingredient_id item;
            qty_on_hand := sti_qty item; min_qty := 0;
            stock_unit_id := sti_unit_id item;
            last_cost := truthy (sti_unit_cost item) |} ]))
   end) >>
  execute (with_inventory_ledger (λ t, t ++ [
    {| ledger_organization_id := organization_id ctx;
       ledger_outlet_id := to_outlet_id;
       ledger_ingredient_id := sti_ingredient_id item;
       change_qty := sti_qty item;
       source_type := TRANSFER_IN; source_id := Some transfer_id;
       ledger_unit_id := sti_unit_id item;
       ledger_unit_cost := truthy (sti_unit_cost item);
       ledger_total_cost := truthy (sti_total_cost item);
       remarks := StockTransferredIn |} ])).

Definition receive_stock_transfer_body (ctx : Context) (transfer_id : nat) : tx unit :=
  let* transfer := query (λ db, select_in_org st_organization_id (organization_id ctx)
                                              transfer_id (stock_transfers db)) in
  match transfer with
  | None => raise StockTransferNotFound
  | Some transfer =>
      if decide (st_status transfer ≠ ST_SHIPPED)
      then raise (CannotReceiveTransfer (st_status transfer)) else
      let* items := query (items_of_transfer transfer_id) in
      for_each items (receive_item ctx transfer_id (st_to_outlet_id transfer)) >>
      execute (with_stock_transfers
                 (alter (set_st_status ST_RECEIVED (Some (user_id ctx))) transfer_id)) >>
      match st_stock_request_id transfer with
      | Some request_id =>
          execute (with_stock_requests (alter (set_sr_status SR_FULFILLED None) request_id))
      | None => ret tt
      end
  end.

Definition receive_stock_transfer (ctx : Context) (transfer_id : nat) : tx unit :=
  session (receive_stock_transfer_body ctx transfer_id).

Definition cancel_stock_transfer_body (ctx : Context) (transfer_id : nat) : tx unit :=
  let* transfer := query (λ db, select_in_org st_organization_id (organization_id ctx)
                                              transfer_id (stock_transfers db)) in
  match transfer with
  | None => raise StockTransferNotFound
  | Some transfer =>
      if decide (st_status transfer = ST_RECEIVED) then raise CannotCancelReceivedTransfer
      else if decide (st_status transfer = ST_SHIPPED) then raise CannotCancelShippedTransfer
      else execute (with_stock_transfers (alter (set_st_status ST_CANCELLED None) transfer_id))
  end.

Definition cancel_stock_transfer (ctx : Context) (transfer_id : nat) : tx unit :=
  session (cancel_stock_transfer_body ctx transfer_id).

(** ** Menus and recipes (app/api/v1/menus.py) *)

Record RecipeItemCreate := {
  ric_ingredient_id : nat;
  ric_qty : Z;
  ric_unit_id : nat }.

Record RecipeCreate := {
  rc_version : Z;
  rc_is_active : bool;
  rc_notes : option string;
  rc_items : list RecipeItemCreate }.

Record MenuCreate := {
  mc_name : string;
  mc_category : option string;
  mc_price : Z;
  mc_description : option string;
  mc_image_url : option string;
  mc_recipe : option RecipeCreate }.

Record MenuUpdate := {
  mu_name : option string;
  mu_category : option string;
  mu_price : option Z;
  mu_description : option string;
  mu_image_url : option string;
  mu_is_active : option bool }.

Definition insert_recipe_items (recipe_id : nat) (items : list RecipeItemCreate) : tx unit :=
  for_each items (λ item,
    execute (with_recipe_items (λ t, t ++ [
      {| ri_recipe_id := recipe_id; ri_ingredient_id := ric_ingredient_id item;
         ri_qty := ric_qty item; ri_unit_id := ric_unit_id item |} ]))).

Definition create_menu_body (ctx : Context) (data : MenuCreate) : tx nat :=
  let* org := query (λ db, organizations db !! organization_id ctx) in
  let* current_count :=
    query (λ db, length (filter (λ m, menu_organization_id m = organization_id ctx)
                                (menus db))) in
  match org with
  | None => raise InternalServerError
  | Some org =>
      if decide (max_menu_items org ≤ Z.of_nat current_count)%Z
      then raise (MenuLimitReached (max_menu_items org)) else
      let* menu_id := insert_returning menus with_menus
        {| menu_organization_id := organization_id ctx; menu_name := mc_name data;
           menu_category := mc_category data; menu_price := mc_price data;
           menu_description := mc_description data;
           menu_image_url := mc_image_url data; menu_is_active := true |} in
      match mc_recipe data with
      | Some recipe =>
          let* recipe_id := insert_returning recipes with_recipes
            {| recipe_menu_id := menu_id; recipe_version := rc_version recipe;
               recipe_is_active := true; recipe_notes := rc_notes recipe |} in
          insert_recipe_items recipe_id (rc_items recipe)
      | None => ret tt
      end >>
      ret menu_id
  end.

Definition create_menu (ctx : Context) (data : MenuCreate) : tx nat :=
  session (create_menu_body ctx data).

Definition apply_menu_update (data : MenuUpdate) (m : Menu) : Menu :=
  {| menu_organization_id := menu_organization_id m;
     menu_name := default (menu_name m) (mu_name data);
     menu_category := if mu_category data is Some c then Some c else menu_category m;
     menu_price := default (menu_price m) (mu_price data);
     menu_description :=
       if mu_description data is Some d then Some d else menu_description m;
     menu_image_url := if mu_image_url data is Some u then Some u else menu_image_url m;
     menu_is_active := default (menu_is_active m) (mu_is_active data) |}.

Definition no_update_fields (data : MenuUpdate) : bool :=
  match mu_name data, mu_category data, mu_price data,
        mu_description data, mu_image_url data, mu_is_active data with
  | None, None, None, None, None, None => true
  | _, _, _, _, _, _ => false
  end.

Definition update_menu_body (ctx : Context) (menu_id : nat) (data : MenuUpdate) : tx unit :=
  let* existing := query (λ db, select_in_org menu_organization_id (organization_id ctx)
                                              menu_id (menus db)) in
  if existing is None then raise MenuNotFound else
  if no_update_fields data then raise NoFieldsToUpdate else
  execute (with_menus (alter (apply_menu_update data) menu_id)).

(** The response of [update_menu], read back after the commit, is not
    modelled. *)
Definition update_menu (ctx : Context) (menu_id : nat) (data : MenuUpdate) : tx unit :=
  session (update_menu_body ctx menu_id data).

(** [SELECT COALESCE(MAX(version), 0) FROM recipes WHERE menu_id = :menu_id]. *)
Definition max_version (menu_id : nat) (db : DB) : Z :=
  match filter (λ r, recipe_menu_id r = menu_id) (recipes db) with
  | [] => 0%Z
  | r :: rs => foldl (λ m r', Z.max m (recipe_version r')) (recipe_version r) rs
  end.

Definition set_recipe_inactive (r : Recipe) : Recipe :=
  {| recipe_menu_id := recipe_menu_id r; recipe_version := recipe_version r;
     recipe_is_active := false; recipe_notes := recipe_notes r |}.

(** [UPDATE recipes SET is_active = false WHERE menu_id = :menu_id]. *)
Definition deactivate_recipes (menu_id : nat) (t : list Recipe) : list Recipe :=
  (λ r, if decide (recipe_menu_id r = menu_id) then set_recipe_inactive r else r) <$> t.

Definition create_recipe_for_menu_body (ctx : Context) (menu_id : nat)
    (data : RecipeCreate) : tx (nat * Z) :=
  let* menu := query (λ db, select_in_org menu_organization_id (organization_id ctx)
                                          menu_id (menus db)) in
  if menu is None then raise MenuNotFound else
  let* max_version := query (max_version menu_id) in
  let new_version := (max_version + 1)%Z in
  (if rc_is_active data
   then execute (with_recipes (deactivate_recipes menu_id))
   else ret tt) >>
  let* recipe_id := insert_returning recipes with_recipes
    {| recipe_menu_id := menu_id; recipe_version := new_version;
       recipe_is_active := rc_is_active data; recipe_notes := rc_notes data |} in
  insert_recipe_items recipe_id (rc_items data) >>
  ret (recipe_id, new_version).

Definition create_recipe_for_menu (ctx : Context) (menu_id : nat) (data : RecipeCreate)
    : tx (nat * Z) :=
  session (create_recipe_for_menu_body ctx menu_id data).

Definition set_menu_inactive (m : Menu) : Menu :=
  {| menu_organization_id := menu_organization_id m; menu_name := menu_name m;
     menu_category := menu_category m; menu_price := menu_price m;
     menu_description := menu_description m; menu_image_url := menu_image_url m;
     menu_is_active := false |}.

Definition delete_menu_body (ctx : Context) (menu_id : nat) : tx unit :=
  let* existing := query (λ db, select_in_org menu_organization_id (organization_id ctx)
                                              menu_id (menus db)) in
  if existing is None then raise MenuNotFound else
  execute (with_menus (alter set_menu_inactive menu_id)).

Definition delete_menu (ctx : Context) (menu_id : nat) : tx unit :=
  session (delete_menu_body ctx menu_id).

(** ** Administration (organizations.py, outlets.py, ingredients.py,
    suppliers.py)

    The state-changing endpoints of these four modules insert and update
    rows of their own table and write no other table.  Their rules (plan
    limits, unique outlet codes and SKUs, soft deletion) are left out: any
    new content of the four tables stands for what they may write. *)
Definition administer (organizations' : list Organization) (outlets' : list Outlet)
    (ingredients' : list Ingredient) (suppliers' : list Supplier) (db : DB) : DB :=
  {| organizations := organizations'; outlets := outlets';
     ingredients := ingredients'; units := units db; suppliers := suppliers';
     menus := menus db; recipes := recipes db; recipe_items := recipe_items db;
     inventory_stock := inventory_stock db; inventory_ledger := inventory_ledger db;
     sales_orders := sales_orders db; sales_order_items := sales_order_items db;
     purchase_orders := purchase_orders db;
     purchase_order_items := purchase_order_items db;
     stock_requests := stock_requests db;
     stock_request_items := stock_request_items db;
     stock_transfers := stock_transfers db;
     stock_transfer_items := stock_transfer_items db |}.

(** ** The requests of the system

    One constructor per state-changing endpoint of the modules above,
    and one for the administration endpoints; [handle] runs a request and
    keeps the state it leaves behind. *)

Inductive Request :=
| CreateSalesOrder (data : SalesOrderCreate)
| CreateInventoryAdjustment (data : InventoryAdjustmentCreate)
| CreatePurchaseOrder (data : PurchaseOrderCreate)
| ApprovePurchaseOrder (po_id : nat)
| ReceivePurchaseOrderReq (po_id : nat) (data : ReceivePurchaseOrder)
| CancelPurchaseOrder (po_id : nat)
| CreateStockRequest (data : StockRequestCreate)
| ApproveStockRequestReq (request_id : nat) (data : ApproveStockRequest)
| RejectStockRequest (request_id : nat)
| CancelStockRequest (request_id : nat)
| CreateStockTransfer (data : StockTransferCreate)
| ShipStockTransfer (transfer_id : nat)
| ReceiveStockTransfer (transfer_id : nat)
| CancelStockTransfer (transfer_id : nat)
| CreateMenu (data : MenuCreate)
| UpdateMenu (menu_id : nat) (data : MenuUpdate)
| CreateRecipeForMenu (menu_id : nat) (data : RecipeCreate)
| DeleteMenu (menu_id : nat)
| Administration (organizations' : list Organization) (outlets' : list Outlet)
    (ingredients' : list Ingredient) (suppliers' : list Supplier).

Definition handle (ctx : Context) (r : Request) (db : DB) : DB :=
  match r with
  | CreateSalesOrder data => (create_sales_order ctx data db).2
  | CreateInventoryAdjustment data => (create_inventory_adjustment ctx data db).2
  | CreatePurchaseOrder data => (create_purchase_order ctx data db).2
  | ApprovePurchaseOrder po_id => (approve_purchase_order ctx po_id db).2
  | ReceivePurchaseOrderReq po_id data => (receive_purchase_order ctx po_id data db).2
  | CancelPurchaseOrder po_id => (cancel_purchase_order ctx po_id db).2
  | CreateStockRequest data => (create_stock_request ctx data db).2
  | ApproveStockRequestReq request_id data =>
      (approve_stock_request ctx request_id data db).2
  | RejectStockRequest request_id => (reject_stock_request ctx request_id db).2
  | CancelStockRequest request_id => (cancel_stock_request ctx request_id db).2
  | CreateStockTransfer data => (create_stock_transfer ctx data db).2
  | ShipStockTransfer transfer_id => (ship_stock_transfer ctx transfer_id db).2
  | ReceiveStockTransfer transfer_id => (receive_stock_transfer ctx transfer_id db).2
  | CancelStockTransfer transfer_id => (cancel_stock_transfer ctx transfer_id db).2
  | CreateMenu data => (create_menu ctx data db).2
  | UpdateMenu menu_id data => (update_menu ctx menu_id data db).2
  | CreateRecipeForMenu menu_id data => (create_recipe_for_menu ctx menu_id data db).2
  | DeleteMenu menu_id => (delete_menu ctx menu_id db).2
  | Administration organizations' outlets' ingredients' suppliers' =>
      administer organizations' outlets' ingredients' suppliers' db
  end.

(** The state after a sequence of requests, each with its own context. *)
Definition run (rs : list (Context * Request)) (db : DB) : DB :=
  foldl (λ db r, handle r.1 r.2 db) db rs.

(** ** Unit conversion (app/api/v1/units.py)

    [convert_unit] only reads the table [unit_conversions], which no
    handler writes; the table is an argument.  The request quantity is a
    [float] and the multiplier a NUMERIC: both are rationals here, and the
    rounding of the two arithmetics is not modelled. *)

Record UnitConversion := {
  uc_ingredient_id : option nat;
  uc_from_unit_id : nat;
  uc_to_unit_id : nat;
  multiplier : Q }.

Record Conversion := {
  from_quantity : Q;
  to_quantity : Q;
  used_multiplier : Q }.

(** [SELECT multiplier FROM unit_conversions WHERE from_unit_id = :from
    AND to_unit_id = :to], followed, with an ingredient, by
    [AND (ingredient_id = :i OR ingredient_id IS NULL)
     ORDER BY ingredient_id DESC NULLS LAST LIMIT 1]
    and, without one, by [AND ingredient_id IS NULL]; then [fetchone()]. *)
Definition select_multiplier (from_unit_id to_unit_id : nat) (ingredient_id : option nat)
    (unit_conversions : list UnitConversion) : option UnitConversion :=
  let rows := filter (λ r, uc_from_unit_id r = from_unit_id ∧ uc_to_unit_id r = to_unit_id)
                     unit_conversions in
  let global := snd <$> list_find (λ r, uc_ingredient_id r = None) rows in
  match ingredient_id with
  | Some i =>
      match list_find (λ r, uc_ingredient_id r = Some i) rows with
      | Some (_, r) => Some r
      | None => global
      end
  | None => global
  end.

(** The bind values of a query of [convert_unit]: the dict [params],
    under its two keys. *)
Record ConversionParams := {
  p_from_unit_id : nat;
  p_to_unit_id : nat }.

Definition convert_unit (from_unit_id to_unit_id : nat) (quantity : Q)
    (ingredient_id : option nat) (unit_conversions : list UnitConversion)
    : outcome Conversion :=
  (* WHERE from_unit_id = :from_unit_id AND to_unit_id = :to_unit_id *)
  let params := {| p_from_unit_id := from_unit_id; p_to_unit_id := to_unit_id |} in
  match select_multiplier (p_from_unit_id params) (p_to_unit_id params) ingredient_id
                          unit_conversions with
  | Some result =>
      Ok {| from_quantity := quantity;
            to_quantity := quantity * multiplier result;
            used_multiplier := multiplier result |}
  | None =>
      (* the reverse query, [SELECT 1.0 / multiplier ...
         WHERE from_unit_id = :to_unit_id AND to_unit_id = :from_unit_id],
         run with [reverse_params], in which the two values change places
         as well *)
      let reverse_params :=
        {| p_from_unit_id := to_unit_id; p_to_unit_id := from_unit_id |} in
      match select_multiplier (p_to_unit_id reverse_params) (p_from_unit_id reverse_params)
                              ingredient_id unit_conversions with
      | Some result =>
          if Qeq_bool (multiplier result) 0 then Raise InternalServerError
          else Ok {| from_quantity := quantity;
                     to_quantity := quantity * (1 / multiplier result);
                     used_multiplier := 1 / multiplier result |}
      | None => Raise ConversionNotFound
      end
  end.

(** * Properties

    ** Reasoning about transactions *)

(** [m] keeps the property [I] of the working copy, whether it returns
    or raises. *)
Definition preserves {A} (I : DB → Prop) (m : tx A) : Prop :=
  ∀ db, I db → I (m db).2.

(** A table that only grows: the rows of [db0] are still there, at the
    same ids and with the same content. *)
Definition grows {T} (table : DB → list T) (db0 : DB) : DB → Prop :=
  λ db, table db0 `prefix_of` table db.

(** ** Ledger and stock *)


Definition has_stock_row (outlet_id ingredient_id : nat) (db : DB) : Prop :=
  is_Some (find_stock outlet_id ingredient_id db).

(** An update of stock rows that leaves their key alone. *)
Definition same_key (f : InventoryStock → InventoryStock) : Prop :=
  ∀ s, stock_outlet_id (f s) = stock_outlet_id s
       ∧ stock_ingredient_id (f s) = stock_ingredient_id s.

(** What the sales handler checks on a recipe line of a requested item:
    the line lacks stock when the pair has no stock row or holds less than
    the usage quantity. *)
Definition lacking (outlet_id : nat) (qty : Z) (l : RecipeLine) (db : DB) : Prop :=
  match find_stock outlet_id (line_ingredient_id l) db with
  | Some (_, s) => (qty_on_hand s < line_qty l * qty)%Z
  | None => True
  end.

(** The required usage quantity of the line exceeds the quantity on hand
    (zero when the pair has no stock row). *)
Definition exceeds_stock (outlet_id : nat) (qty : Z) (l : RecipeLine) (db : DB) : Prop :=
  (stock_level outlet_id (line_ingredient_id l) db < line_qty l * qty)%Z.

(** The menu of a requested item resolves in the caller's organization
    and is active. *)
Definition menu_on_sale (ctx : Context) (item : SalesOrderItemCreate) (db : DB) : Prop :=
  ∃ m, select_in_org menu_organization_id (organization_id ctx)
                     (soic_menu_id item) (menus db) = Some m
       ∧ menu_is_active m = true.

(** Every ingredient used by the prepared items has a stock row at the
    outlet. *)
Definition usages_have_rows (outlet_id : nat) (items : list OrderItem) (db : DB) : Prop :=
  Forall (λ it, Forall (λ u, has_stock_row outlet_id (usage_ingredient_id u) db)
                       (oi_ingredient_usage it)) items.

(** No stock row holds a negative quantity. *)
Definition stock_nonnegative (db : DB) : Prop :=
  Forall (λ s, 0 ≤ qty_on_hand s)%Z (inventory_stock db).

(** ** Recipe versions *)

(** The number of recipes of a menu with [is_active = true]. *)
Definition active_count (menu_id : nat) (db : DB) : nat :=
  length (filter (λ r, recipe_menu_id r = menu_id ∧ recipe_is_active r = true)
                 (recipes db)).

Definition at_most_one_active (db : DB) : Prop :=
  ∀ menu_id, active_count menu_id db ≤ 1.

(** The foreign key [recipes.menu_id]: every recipe belongs to a menu of
    the table. *)
Definition recipes_reference_menus (db : DB) : Prop :=
  Forall (λ r, recipe_menu_id r < length (menus db)) (recipes db).

(** The states reached from a database without recipes by the requests
    of the system, creating menus and recipe versions among them. *)
Inductive reachable : DB → Prop :=
| reachable_initial db : recipes db = [] → reachable db
| reachable_step ctx r db : reachable db → reachable (handle ctx r db).

Definition recipe_invariant (db : DB) : Prop :=
  recipes_reference_menus db ∧ at_most_one_active db.

(** ** Stock requests *)

(** The line of an approval payload that names the item; when several
    lines name it, the last one, whose write is the one that stays. *)
Definition approval_line_for (item_id : nat) (data : ApproveStockRequest)
    : option ApproveStockRequestItem :=
  last (filter (λ l, asr_item_id l = item_id) (asr_items data)).

(** Two states of the request items that differ in [approved_qty] only. *)
Definition same_request_items (db db' : DB) : Prop :=
  ∀ i, set_approved_qty 0 <$> stock_request_items db' !! i
       = set_approved_qty 0 <$> stock_request_items db !! i.

(** ** Lines that do not belong to the document *)





(** ** Unit conversion *)

(** A row the resolver may use for a request: a global row, or a row of
    the ingredient of the request. *)
Definition applicable (ingredient_id : option nat) (r : UnitConversion) : Prop :=
  uc_ingredient_id r = None
  ∨ ∃ i, ingredient_id = Some i ∧ uc_ingredient_id r = Some i.

(** [r] is a multiplier row from [from_unit_id] to [to_unit_id] that the
    request may use. *)
Definition multiplier_row (from_unit_id to_unit_id : nat) (ingredient_id : option nat)
    (unit_conversions : list UnitConversion) (r : UnitConversion) : Prop :=
  r ∈ unit_conversions
  ∧ uc_from_unit_id r = from_unit_id ∧ uc_to_unit_id r = to_unit_id
  ∧ applicable ingredient_id r.

(** The row is the one to prefer: specific to the ingredient of the
    request whenever the table has such a row for the pair of units. *)
Definition preferred (from_unit_id to_unit_id : nat) (ingredient_id : option nat)
    (unit_conversions : list UnitConversion) (r : UnitConversion) : Prop :=
  ∀ i r', ingredient_id = Some i →
          multiplier_row from_unit_id to_unit_id ingredient_id unit_conversions r' →
          uc_ingredient_id r' = Some i →
          uc_ingredient_id r = Some i.

(** ** A small database

    One organization with a central kitchen (outlet 0) and a shop
    (outlet 1); flour (ingredient 0) and sugar (ingredient 1), both in
    kilograms.  The shop holds 5 kg of flour last bought at 2.00, the
    central kitchen 3 kg of sugar.  The menu "Bread" sells at 20.00 and its
    active recipe takes 2 kg of flour.  Quantities count ten-thousandths,
    amounts hundredths. *)

Definition sample_ctx : Context :=
  {| organization_id := 0; user_id := 7; today := 20240101; created_day := 20240101 |}.

Definition sample_db : DB :=
  {| organizations := [ {| max_menu_items := 50 |} ];
     outlets := [ {| outlet_organization_id := 0; outlet_code := "CTR";
                     outlet_type := CENTRAL |};
                  {| outlet_organization_id := 0; outlet_code := "SHOP";
                     outlet_type := OUTLET |} ];
     ingredients := [ {| ingredient_organization_id := 0; ingredient_name := "Flour" |};
                      {| ingredient_organization_id := 0; ingredient_name := "Sugar" |} ];
     units := [ {| unit_symbol := "kg" |} ];
     suppliers := [ {| supplier_organization_id := 0 |} ];
     menus := [ {| menu_organization_id := 0; menu_name := "Bread";
                   menu_category := None; menu_price := 2000;
                   menu_description := None; menu_image_url := None;
                   menu_is_active := true |} ];
     recipes := [ {| recipe_menu_id := 0; recipe_version := 1;
                     recipe_is_active := true; recipe_notes := None |} ];
     recipe_items := [ {| ri_recipe_id := 0; ri_ingredient_id := 0;
                          ri_qty := 20000; ri_unit_id := 0 |} ];
     inventory_stock :=
       [ {| stock_organization_id := 0; stock_outlet_id := 1;
            stock_ingredient_id := 0; qty_on_hand := 50000; min_qty := 0;
            stock_unit_id := 0; last_cost := Some 200%Z |};
         {| stock_organization_id := 0; stock_outlet_id := 0;
            stock_ingredient_id := 1; qty_on_hand := 30000; min_qty := 0;
            stock_unit_id := 0; last_cost := Some 150%Z |} ];
     inventory_ledger :=
       [ {| ledger_organization_id := 0; ledger_outlet_id := 1;
            ledger_ingredient_id := 0; change_qty := 50000;
            source_type := ADJUSTMENT; source_id := None; ledger_unit_id := 0;
            ledger_unit_cost := None; ledger_total_cost := None;
            remarks := AdjustmentRemarks "opening stock" |};
         {| ledger_organization_id := 0; ledger_outlet_id := 0;
            ledger_ingredient_id := 1; change_qty := 30000;
            source_type := ADJUSTMENT; source_id := None; ledger_unit_id := 0;
            ledger_unit_cost := None; ledger_total_cost := None;
            remarks := AdjustmentRemarks "opening stock" |} ];
     sales_orders := [];
     sales_order_items := [];
     purchase_orders :=
       [ {| po_organization_id := 0;
            po_no := {| number_prefix := "PO"; number_day := 20231231;
                        number_sequence := 1 |};
            po_supplier_id := 0; po_outlet_id := 0; po_status := PO_ORDERED;
            po_order_date := 20231231; po_expected_date := None;
            po_received_date := None; po_total_amount := 30000000;
            po_notes := None; po_created_by := 7; po_received_by := None |} ];
     purchase_order_items :=
       [ {| poi_purchase_order_id := 0; poi_ingredient_id := 0;
            qty_ordered := 100000; qty_received := 0; poi_unit_id := 0;
            poi_unit_cost := 300; poi_total_cost := 30000000;
            poi_notes := None |} ];
     stock_requests :=
       [ {| sr_organization_id := 0;
            request_no := {| number_prefix := "SR"; number_day := 20231231;
                             number_sequence := 1 |};
            sr_created_on := 20231231; sr_from_outlet_id := 1;
            sr_to_outlet_id := 0; sr_status := SR_PENDING;
            sr_requested_by := 7; sr_approved_by := None; sr_notes := None |} ];
     stock_request_items :=
       [ {| sri_stock_request_id := 0; sri_ingredient_id := 1;
            requested_qty := 40000; requested_unit_id := 0;
            approved_qty := 0; sri_notes := None |} ];
     stock_transfers :=
       [ {| st_organization_id := 0;
            transfer_no := {| number_prefix := "ST"; number_day := 20231231;
                              number_sequence := 1 |};
            st_created_on := 20231231; st_from_outlet_id := 0;
            st_to_outlet_id := 1; st_stock_request_id := None;
            st_status := ST_DRAFT; st_created_by := 7; st_received_by := None;
            st_notes := None |} ];
     stock_transfer_items :=
       [ {| sti_stock_transfer_id := 0; sti_ingredient_id := 1;
            sti_qty := 50000; sti_unit_id := 0;
            sti_unit_cost := Some 150%Z; sti_total_cost := Some 7500000%Z |} ] |}.

(** Selling [qty] of the menu "Bread" at the shop. *)
Definition bread (qty : Z) : SalesOrderItemCreate :=
  {| soic_menu_id := 0; soic_qty := qty; soic_notes := None |}.

Definition sale_at_shop (items : list SalesOrderItemCreate) : SalesOrderCreate :=
  {| soc_outlet_id := 1; soc_payment_method := Some "CASH"%string;
     soc_customer_name := None; soc_notes := None; soc_items := items |}.

(** An order whose first line names a menu that does not exist and whose
    second line needs 6 kg of flour. *)
Definition sale_with_unknown_menu : SalesOrderCreate :=
  sale_at_shop [ {| soic_menu_id := 5; soic_qty := 1; soic_notes := None |}; bread 3 ].

(** Receiving the whole purchase order 0: 10 kg of flour at 3.00. *)
Definition receive_all : ReceivePurchaseOrder :=
  {| rpo_items := [ {| rpo_item_id := 0; rpo_qty_received := 100000 |} ];
     rpo_received_date := 20240101 |}.

(** A second, cheaper recipe for "Bread". *)
Definition lighter_bread : RecipeCreate :=
  {| rc_version := 1; rc_is_active := true; rc_notes := None;
     rc_items := [ {| ric_ingredient_id := 0; ric_qty := 10000; ric_unit_id := 0 |} ] |}.

(** The sample database after two loaves were sold at the shop. *)
Definition after_sale : DB :=
  (create_sales_order sample_ctx (sale_at_shop [bread 2]) sample_db).2.

(** The sample organization before any menu was entered. *)
Definition opening_db : DB :=
  {| organizations := organizations sample_db; outlets := outlets sample_db;
     ingredients := ingredients sample_db; units := units sample_db;
     suppliers := suppliers sample_db;
     menus := []; recipes := []; recipe_items := [];
     inventory_stock := inventory_stock sample_db;
     inventory_ledger := inventory_ledger sample_db;
     sales_orders := []; sales_order_items := [];
     purchase_orders := []; purchase_order_items := [];
     stock_requests := []; stock_request_items := [];
     stock_transfers := []; stock_transfer_items := [] |}.

Definition bread_menu : MenuCreate :=
  {| mc_name := "Bread"; mc_category := None; mc_price := 2000;
     mc_description := None; mc_image_url := None;
     mc_recipe := Some {| rc_version := 1; rc_is_active := true; rc_notes := None;
                          rc_items := [ {| ric_ingredient_id := 0; ric_qty := 20000;
                                           ric_unit_id := 0 |} ] |} |}.

(** The database after the menu "Bread" was created with its recipe. *)
Definition with_bread : DB := handle sample_ctx (CreateMenu bread_menu) opening_db.


(** The sample database with transfer 0 made of two items: 1 kg of
    sugar, which the central kitchen has, then 5 kg, which it has not. *)
Definition sugar (qty : Z) : StockTransferItem :=
  {| sti_stock_transfer_id := 0; sti_ingredient_id := 1; sti_qty := qty;
     sti_unit_id := 0; sti_unit_cost := Some 150%Z;
     sti_total_cost := Some (qty * 150)%Z |}.

Definition transfer_of (items : list StockTransferItem) : DB :=
  with_stock_transfer_items (λ _, items) sample_db.

Definition second_item_short : DB := transfer_of [sugar 10000; sugar 50000].

(** A transfer from the central kitchen to the shop with a first item of
    -10 kg of sugar, a quantity the schema of [create_stock_transfer]
    accepts and the handler stores, and a second item of 5 kg. *)
Definition negative_item_first : StockTransferCreate :=
  {| stc_from_outlet_id := 0; stc_to_outlet_id := 1; stc_stock_request_id := None;
     stc_notes := None;
     stc_items :=
       [ {| stic_ingredient_id := 1; stic_qty := -100000; stic_unit_id := 0;
            stic_unit_cost := Some 150%Z |};
         {| stic_ingredient_id := 1; stic_qty := 50000; stic_unit_id := 0;
            stic_unit_cost := Some 150%Z |} ] |}.

(** Units 0 (kg), 1 (g) and 2 (cup): a kilogram is 1000 grams, a cup is
    240 grams, and a cup of flour (ingredient 0) is 120 grams. *)
Definition sample_conversions : list UnitConversion :=
  [ {| uc_ingredient_id := None; uc_from_unit_id := 0; uc_to_unit_id := 1;
       multiplier := 1000 |};
    {| uc_ingredient_id := None; uc_from_unit_id := 2; uc_to_unit_id := 1;
       multiplier := 240 |};
    {| uc_ingredient_id := Some 0; uc_from_unit_id := 2; uc_to_unit_id := 1;
       multiplier := 120 |} ].

(** ** Document lifecycles *)

(** The statuses a purchase order in status [st] can be found in later:
    approve takes DRAFT to ORDERED, receive takes DRAFT and ORDERED to
    RECEIVED, cancel takes every status but RECEIVED to CANCELLED. *)
Definition po_may_become (st st' : PurchaseOrderStatus) : bool :=
  match st, st' with
  | PO_DRAFT, _ => true
  | PO_ORDERED, (PO_ORDERED | PO_RECEIVED | PO_CANCELLED) => true
  | PO_RECEIVED, PO_RECEIVED => true
  | PO_CANCELLED, PO_CANCELLED => true
  | _, _ => false
  end.

(** What one request of organization [org] can do to a purchase order. *)
Definition po_step (org : nat) (po po' : PurchaseOrder) : Prop :=
  po' = po
  ∨ po_organization_id po = org
    ∧ ((po_status po = PO_DRAFT ∧ po' = set_po_status PO_ORDERED po)
       ∨ ((po_status po = PO_ORDERED ∨ po_status po = PO_DRAFT)
          ∧ ∃ day user, po' = set_po_received day user po)
       ∨ (po_status po ≠ PO_RECEIVED ∧ po' = set_po_status PO_CANCELLED po)).

(** The statuses a stock transfer in status [st] can be found in later:
    ship takes DRAFT to SHIPPED, receive takes SHIPPED to RECEIVED, cancel
    takes DRAFT (and CANCELLED) to CANCELLED. *)
Definition transfer_may_become (st st' : StockTransferStatus) : bool :=
  match st, st' with
  | ST_DRAFT, _ => true
  | ST_SHIPPED, (ST_SHIPPED | ST_RECEIVED) => true
  | ST_RECEIVED, ST_RECEIVED => true
  | ST_CANCELLED, ST_CANCELLED => true
  | _, _ => false
  end.

Definition transfer_step (org : nat) (t t' : StockTransfer) : Prop :=
  t' = t
  ∨ st_organization_id t = org
    ∧ ((st_status t = ST_DRAFT ∧ t' = set_st_status ST_SHIPPED None t)
       ∨ (st_status t = ST_SHIPPED ∧ ∃ user, t' = set_st_status ST_RECEIVED (Some user) t)
       ∨ (st_status t ≠ ST_RECEIVED ∧ st_status t ≠ ST_SHIPPED
          ∧ t' = set_st_status ST_CANCELLED None t)).

(** The statuses a stock request in status [st] can be found in later:
    approve and reject take PENDING to APPROVED and REJECTED, cancel takes
    PENDING and APPROVED to CANCELLED, and the receipt of a transfer that
    links to the request sets FULFILLED whatever the status was. *)
Definition request_may_become (st st' : StockRequestStatus) : bool :=
  match st, st' with
  | SR_PENDING, _ => true
  | SR_APPROVED, (SR_APPROVED | SR_CANCELLED | SR_FULFILLED) => true
  | SR_REJECTED, (SR_REJECTED | SR_FULFILLED) => true
  | SR_CANCELLED, (SR_CANCELLED | SR_FULFILLED) => true
  | SR_FULFILLED, SR_FULFILLED => true
  | _, _ => false
  end.

Definition request_step (org : nat) (r r' : StockRequest) : Prop :=
  r' = r
  ∨ r' = set_sr_status SR_FULFILLED None r
  ∨ sr_organization_id r = org
    ∧ ((sr_status r = SR_PENDING
        ∧ ∃ user, r' = set_sr_status SR_APPROVED (Some user) r
                  ∨ r' = set_sr_status SR_REJECTED (Some user) r)
       ∨ ((sr_status r = SR_PENDING ∨ sr_status r = SR_APPROVED)
          ∧ r' = set_sr_status SR_CANCELLED None r)).

(** What a request never changes in a document: the columns written
    when it was created. *)
Definition same_purchase_order (po po' : PurchaseOrder) : Prop :=
  po_organization_id po' = po_organization_id po ∧ po_no po' = po_no po
  ∧ po_supplier_id po' = po_supplier_id po ∧ po_outlet_id po' = po_outlet_id po
  ∧ po_order_date po' = po_order_date po ∧ po_total_amount po' = po_total_amount po
  ∧ po_created_by po' = po_created_by po.

Definition same_stock_transfer (t t' : StockTransfer) : Prop :=
  st_organization_id t' = st_organization_id t ∧ transfer_no t' = transfer_no t
  ∧ st_from_outlet_id t' = st_from_outlet_id t ∧ st_to_outlet_id t' = st_to_outlet_id t
  ∧ st_stock_request_id t' = st_stock_request_id t ∧ st_created_by t' = st_created_by t.

Definition same_stock_request (r r' : StockRequest) : Prop :=
  sr_organization_id r' = sr_organization_id r ∧ request_no r' = request_no r
  ∧ sr_from_outlet_id r' = sr_from_outlet_id r ∧ sr_to_outlet_id r' = sr_to_outlet_id r
  ∧ sr_requested_by r' = sr_requested_by r.

(** A caller of another organization. *)
Definition other_ctx : Context :=
  {| organization_id := 7; user_id := 3; today := 20240102; created_day := 20240102 |}.

(** ** Stock moved by a transfer *)

(** The quantity of an ingredient that the items of a transfer carry. *)
Definition transfer_qty (ingredient_id : nat) (items : list StockTransferItem) : Z :=
  foldr (λ it acc, if decide (sti_ingredient_id it = ingredient_id)
                   then (sti_qty it + acc)%Z else acc) 0%Z items.

(** The sample database with transfer 0 made of two items that the
    central kitchen can ship: 1 kg and 2 kg of its 3 kg of sugar. *)
Definition shippable : DB := transfer_of [sugar 10000; sugar 20000].


(** ** What a sale uses *)

(** The ingredient and the quantity of a usage entry. *)
Definition usage_key (u : IngredientUsage) : nat * Z :=
  (usage_ingredient_id u, usage_qty u).

(** The usage a recipe line asks for when [qty] portions are sold. *)
Definition line_key (qty : Z) (l : RecipeLine) : nat * Z :=
  (line_ingredient_id l, (line_qty l * qty)%Z).

(** The quantity of ingredient [i] in a list of usages. *)
Definition usage_sum (i : nat) (us : list (nat * Z)) : Z :=
  foldr (λ u acc, if decide (u.1 = i) then (u.2 + acc)%Z else acc) 0%Z us.

(** The usages of a requested item, one per line of the active recipe of
    its menu, and those of all the items of an order. *)
Definition item_usages (outlet_id : nat) (db : DB) (it : SalesOrderItemCreate)
    : list (nat * Z) :=
  line_key (soic_qty it) <$> lines_of_menu (soic_menu_id it) outlet_id db.

Definition order_usages (outlet_id : nat) (db : DB) (items : list SalesOrderItemCreate)
    : list (nat * Z) :=
  flat_map (item_usages outlet_id db) items.

(** A prepared item [oi] is what the first loop of the sales handler
    makes of the requested item [it]: menu, quantity and notes of the
    request, the price of the menu as the tables have it, their product as
    amount, and one usage per recipe line, none of them short of stock. *)
Definition prepared_from (ctx : Context) (outlet_id : nat) (db : DB)
    (it : SalesOrderItemCreate) (oi : OrderItem) : Prop :=
  oi_menu_id oi = soic_menu_id it
  ∧ oi_qty oi = soic_qty it
  ∧ oi_notes oi = soic_notes it
  ∧ (∃ m, menus db !! soic_menu_id it = Some m
          ∧ menu_organization_id m = organization_id ctx
          ∧ menu_is_active m = true
          ∧ oi_price oi = menu_price m)
  ∧ oi_total oi = (oi_price oi * oi_qty oi)%Z
  ∧ usage_key <$> oi_ingredient_usage oi = item_usages outlet_id db it.

(** The stored line [soi] of order [order_id] is the snapshot of the
    requested item [it]. *)
Definition snapshot_of (ctx : Context) (outlet_id : nat) (db : DB) (order_id : nat)
    (it : SalesOrderItemCreate) (soi : SalesOrderItem) : Prop :=
  soi_sales_order_id soi = order_id
  ∧ soi_menu_id soi = soic_menu_id it
  ∧ soi_qty soi = soic_qty it
  ∧ soi_notes soi = soic_notes it
  ∧ (∃ m, menus db !! soic_menu_id it = Some m
          ∧ menu_organization_id m = organization_id ctx
          ∧ menu_is_active m = true
          ∧ price_at_that_time soi = menu_price m)
  ∧ total_item_amount soi = (price_at_that_time soi * soi_qty soi)%Z
  ∧ usage_key <$> ingredient_usage_json soi = item_usages outlet_id db it.

(** The row [store_item] writes for a prepared item. *)
Definition stored_item (order_id : nat) (item : OrderItem) : SalesOrderItem :=
  {| soi_sales_order_id := order_id; soi_menu_id := oi_menu_id item;
     soi_qty := oi_qty item; price_at_that_time := oi_price item;
     hpp_at_that_time := oi_hpp item; total_item_amount := oi_total item;
     ingredient_usage_json := oi_ingredient_usage item;
     soi_notes := oi_notes item |}.

(** The sum of the amounts of stored lines. *)
Definition lines_total (lines : list SalesOrderItem) : Z :=
  foldr (λ soi acc, (total_item_amount soi + acc)%Z) 0%Z lines.

(** ** Document numbers *)

(** The rows of a table are numbered in sequence within each key: the
    k-th row of a key, in insertion order, carries the number k. *)
Definition sequenced {A K : Type} `{EqDecision K} (key : A → K) (num : A → nat)
    (l : list A) : Prop :=
  ∀ k, num <$> filter (λ x, key x = k) l
       = seq 1 (length (filter (λ x, key x = k) l)).

(** What the sequence of an order number counts: the organization, the
    outlet and the day of the order. *)
Definition order_key (so : SalesOrder) : nat * nat * Z :=
  (so_organization_id so, so_outlet_id so, order_datetime so).

Definition request_key (sr : StockRequest) : nat * Z :=
  (sr_organization_id sr, sr_created_on sr).

Definition transfer_key (t : StockTransfer) : nat * Z :=
  (st_organization_id t, st_created_on t).

(** The order numbers of the table were issued in sequence, each on the
    day of its order. *)
Definition orders_numbered (db : DB) : Prop :=
  sequenced order_key (λ so, number_sequence (order_no so)) (sales_orders db)
  ∧ Forall (λ so, number_day (order_no so) = order_datetime so) (sales_orders db).

Definition requests_numbered (db : DB) : Prop :=
  sequenced request_key (λ sr, number_sequence (request_no sr)) (stock_requests db)
  ∧ Forall (λ sr, number_day (request_no sr) = sr_created_on sr
                  ∧ number_prefix (request_no sr) = "SR"%string) (stock_requests db).

Definition transfers_numbered (db : DB) : Prop :=
  sequenced transfer_key (λ t, number_sequence (transfer_no t)) (stock_transfers db)
  ∧ Forall (λ t, number_day (transfer_no t) = st_created_on t
                 ∧ number_prefix (transfer_no t) = "ST"%string) (stock_transfers db).

(** The sample database before any stock request or transfer was made,
    and a request of the shop for 2 kg of sugar. *)
Definition no_documents : DB :=
  with_stock_requests (λ _, []) (with_stock_transfers (λ _, []) sample_db).

Definition sugar_request : StockRequestCreate :=
  {| src_from_outlet_id := 1; src_to_outlet_id := 0; src_notes := None;
     src_items := [ {| sric_ingredient_id := 1; sric_requested_qty := 20000;
                       sric_requested_unit_id := 0; sric_notes := None |} ] |}.

(** Just after midnight for the application while the database, in
    another time zone, still stamps the day before. *)
Definition across_midnight : Context :=
  {| organization_id := 0; user_id := 7; today := 20240102; created_day := 20240101 |}.

(** ** Purchase orders as stored *)

(** The line [create_purchase_order_body] stores for a payload line. *)
Definition ordered_line (po_id : nat) (item : PurchaseOrderItemCreate) : PurchaseOrderItem :=
  {| poi_purchase_order_id := po_id;
     poi_ingredient_id := poic_ingredient_id item;
     qty_ordered := poic_qty_ordered item; qty_received := 0;
     poi_unit_id := poic_unit_id item; poi_unit_cost := poic_unit_cost item;
     poi_total_cost := (poic_qty_ordered item * poic_unit_cost item)%Z;
     poi_notes := poic_notes item |}.


(** An order of 10 kg of flour at 3.00 from supplier 0 for the central
    kitchen, dated [day]. *)
Definition flour_order (day : Z) : PurchaseOrderCreate :=
  {| poc_supplier_id := 0; poc_outlet_id := 0; poc_order_date := day;
     poc_expected_date := None; poc_notes := None;
     poc_items := [ {| poic_ingredient_id := 0; poic_qty_ordered := 100000;
                       poic_unit_id := 0; poic_unit_cost := 300;
                       poic_notes := None |} ] |}.

(** The sample database under a plan that allows one menu. *)
Definition one_menu_plan : DB :=
  administer [ {| max_menu_items := 1 |} ] (outlets sample_db) (ingredients sample_db)
             (suppliers sample_db) sample_db.

(** ** The menu engineering report (app/api/v1/sales.py)

    [get_menu_engineering_report] runs one grouped query and classifies
    its rows in Python.  The rows of the query are the argument here; the
    [float] arithmetic of the classification is done on rationals, so its
    rounding is not modelled. *)

(** A row of the query: the sales of one menu in the period. *)
Record MenuSales := {
  ms_menu_id : nat;
  ms_menu_name : string;
  ms_category : option string;
  ms_total_qty_sold : Z;           (* COUNT(soi.id) *)
  ms_total_revenue : Q;
  ms_avg_price : Q;
  ms_total_cost : Q;
  ms_total_profit : Q }.

Inductive Classification := STAR | PLOWHORSE | PUZZLE | DOG.

#[global] Instance Classification_eq_dec : EqDecision Classification.
Proof. solve_decision. Defined.

Record MenuEngineeringItem := {
  mei_menu_id : nat;
  mei_menu_name : string;
  mei_category : option string;
  mei_total_qty_sold : Z;
  mei_total_revenue : Q;
  mei_avg_price : Q;
  mei_total_cost : Q;
  mei_total_profit : Q;
  mei_profit_margin : Q;
  mei_popularity_score : Q;
  mei_profitability_score : Q;
  mei_classification : Classification }.

(** [x > 0] and [x >= 1.0]. *)
Definition positive (x : Q) : bool := negb (Qle_bool x 0%Q).
Definition at_least_one (x : Q) : bool := Qle_bool 1%Q x.

(** [sum(...)] of numbers. *)
Definition Zsum (l : list Z) : Z := foldr Z.add 0%Z l.
Definition Qsum (l : list Q) : Q := foldr Qplus 0%Q l.

(** [(revenue - cost) / revenue * 100 if r.total_revenue > 0 else 0]. *)
Definition profit_margin (r : MenuSales) : Q :=
  if positive (ms_total_revenue r)
  then ((ms_total_revenue r - ms_total_cost r) / ms_total_revenue r * 100)%Q
  else 0%Q.

Definition classify (is_popular is_profitable : bool) : Classification :=
  if is_popular && is_profitable then STAR
  else if is_popular && negb is_profitable then PLOWHORSE
  else if negb is_popular && is_profitable then PUZZLE
  else DOG.

(** Body of the two loops over the rows, for one row. *)
Definition classify_row (avg_qty_sold avg_profit_margin : Q) (r : MenuSales)
    : MenuEngineeringItem :=
  let popularity_score :=
    if positive avg_qty_sold
    then (inject_Z (ms_total_qty_sold r) / avg_qty_sold)%Q else 0%Q in
  let profitability_score :=
    if positive avg_profit_margin then (profit_margin r / avg_profit_margin)%Q else 0%Q in
  {| mei_menu_id := ms_menu_id r; mei_menu_name := ms_menu_name r;
     mei_category := ms_category r;
     mei_total_qty_sold := ms_total_qty_sold r;
     mei_total_revenue := ms_total_revenue r; mei_avg_price := ms_avg_price r;
     mei_total_cost := ms_total_cost r; mei_total_profit := ms_total_profit r;
     mei_profit_margin := profit_margin r;
     mei_popularity_score := popularity_score;
     mei_profitability_score := profitability_score;
     mei_classification :=
       classify (at_least_one popularity_score) (at_least_one profitability_score) |}.

Definition classification_order (c : Classification) : Z :=
  match c with STAR => 0 | PLOWHORSE => 1 | PUZZLE => 2 | DOG => 3 end.

(** The key of [result_items.sort]: a tuple, compared lexicographically. *)
Definition sort_key (x : MenuEngineeringItem) : Z * Z :=
  (classification_order (mei_classification x), - mei_total_qty_sold x)%Z.

Definition key_lt (a b : Z * Z) : bool :=
  (a.1 <? b.1)%Z || ((a.1 =? b.1)%Z && (a.2 <? b.2)%Z).

(** [list.sort(key=...)] is a stable sort: elements of equal key keep
    their order.  Insertion from the left, each element going behind the
    elements whose key is not above its own. *)
Fixpoint insert_by {A} (key : A → Z * Z) (x : A) (l : list A) : list A :=
  match l with
  | [] => [x]
  | y :: l' => if key_lt (key x) (key y) then x :: y :: l' else y :: insert_by key x l'
  end.

Definition sort_by {A} (key : A → Z * Z) (l : list A) : list A :=
  foldl (λ sorted x, insert_by key x sorted) [] l.

Definition get_menu_engineering_report (results : list MenuSales)
    : list MenuEngineeringItem :=
  match results with
  | [] => []                                       (* if not results: return [] *)
  | _ =>
      let total_qty := Zsum (ms_total_qty_sold <$> results) in
      let avg_qty_sold :=
        if decide (0 < length results)
        then (inject_Z total_qty / inject_Z (Z.of_nat (length results)))%Q else 0%Q in
      let profit_margins := profit_margin <$> results in
      let avg_profit_margin :=
        if decide (0 < length profit_margins)
        then (Qsum profit_margins / inject_Z (Z.of_nat (length profit_margins)))%Q
        else 0%Q in
      sort_by sort_key (classify_row avg_qty_sold avg_profit_margin <$> results)
  end.

(** The average profit margin of the rows, as the report computes it. *)
Definition average_margin (results : list MenuSales) : Q :=
  (Qsum (profit_margin <$> results) / inject_Z (Z.of_nat (length results)))%Q.

Definition popular (x : MenuEngineeringItem) : Prop :=
  mei_classification x = STAR ∨ mei_classification x = PLOWHORSE.

Definition profitable (x : MenuEngineeringItem) : Prop :=
  mei_classification x = STAR ∨ mei_classification x = PUZZLE.

(** The order of the report: by classification, STAR first, and within a
    classification by falling number of sales. *)
Definition report_order (x y : MenuEngineeringItem) : Prop :=
  (classification_order (mei_classification x)
   < classification_order (mei_classification y))%Z
  ∨ (mei_classification x = mei_classification y
     ∧ (mei_total_qty_sold y ≤ mei_total_qty_sold x)%Z).

(** Three menus: one sold often at a thin margin, one sold rarely at a
    good margin, one sold rarely at a loss. *)
Definition sample_sales : list MenuSales :=
  [ {| ms_menu_id := 2; ms_menu_name := "Cake"; ms_category := None;
       ms_total_qty_sold := 2; ms_total_revenue := 100; ms_avg_price := 50;
       ms_total_cost := 40; ms_total_profit := 60 |};
    {| ms_menu_id := 0; ms_menu_name := "Bread"; ms_category := None;
       ms_total_qty_sold := 10; ms_total_revenue := 200; ms_avg_price := 20;
       ms_total_cost := 180; ms_total_profit := 20 |};
    {| ms_menu_id := 1; ms_menu_name := "Soup"; ms_category := None;
       ms_total_qty_sold := 3; ms_total_revenue := 90; ms_avg_price := 30;
       ms_total_cost := 99; ms_total_profit := -9 |} ].

(** ** Roles (app/dependencies.py)

    Every state-changing endpoint depends on [require_role(...)], which
    lets the request through when the role of the token is one of the
    roles named and answers 403 otherwise. *)

#[global] Instance role_eq_dec : EqDecision string := string_dec.

Inductive Forbidden :=
| AccessDenied (allowed_roles : list string).
      (* 403 "Access denied. Required role: {', '.join(allowed_roles)}" *)

(** The [role_checker] that [require_role] returns for the roles it is
    given, applied to the role of the current user. *)
Definition require_role (allowed_roles : list string) (role : string)
    : Forbidden + string :=
  if decide (role ∈ allowed_roles) then inr role else inl (AccessDenied allowed_roles).

(** The state-changing endpoints that the administration request stands
    for: [update_my_organization] of organizations.py and the create,
    update and delete endpoints of outlets.py, ingredients.py and
    suppliers.py. *)
Inductive AdministrationEndpoint :=
| update_my_organization_endpoint
| create_outlet_endpoint | update_outlet_endpoint | delete_outlet_endpoint
| create_ingredient_endpoint | update_ingredient_endpoint | delete_ingredient_endpoint
| create_supplier_endpoint | update_supplier_endpoint | delete_supplier_endpoint.

Section roles.
Local Open Scope string_scope.

(** The roles each administration endpoint names in its
    [Depends(require_role(...))]. *)
Definition administration_roles (e : AdministrationEndpoint) : list string :=
  match e with
  | update_my_organization_endpoint => ["OWNER"; "ADMIN"]
  | create_outlet_endpoint => ["OWNER"; "ADMIN"; "CENTRAL_MANAGER"]
  | update_outlet_endpoint => ["OWNER"; "ADMIN"; "CENTRAL_MANAGER"]
  | delete_outlet_endpoint => ["OWNER"; "ADMIN"]
  | create_ingredient_endpoint => ["OWNER"; "ADMIN"; "CENTRAL_MANAGER"; "OUTLET_MANAGER"]
  | update_ingredient_endpoint => ["OWNER"; "ADMIN"; "CENTRAL_MANAGER"; "OUTLET_MANAGER"]
  | delete_ingredient_endpoint => ["OWNER"; "ADMIN"]
  | create_supplier_endpoint => ["OWNER"; "ADMIN"; "CENTRAL_MANAGER"; "CENTRAL_STAFF"]
  | update_supplier_endpoint => ["OWNER"; "ADMIN"; "CENTRAL_MANAGER"; "CENTRAL_STAFF"]
  | delete_supplier_endpoint => ["OWNER"; "ADMIN"]
  end.

(** The roles the endpoint of a request names in its
    [Depends(require_role(...))].  A request other than the administration
    request names its endpoint itself; an administration request came in
    through the endpoint [e]. *)
Definition allowed_roles (r : Request) (e : AdministrationEndpoint) : list string :=
  match r with
  | CreateSalesOrder _ => ["OWNER"; "ADMIN"; "CENTRAL_MANAGER"; "OUTLET_MANAGER"; "CASHIER"]
  | CreateInventoryAdjustment _ => ["OWNER"; "ADMIN"; "CENTRAL_MANAGER"; "OUTLET_MANAGER"]
  | CreatePurchaseOrder _ => ["OWNER"; "ADMIN"; "CENTRAL_MANAGER"; "CENTRAL_STAFF"]
  | ApprovePurchaseOrder _ => ["OWNER"; "ADMIN"; "CENTRAL_MANAGER"]
  | ReceivePurchaseOrderReq _ _ => ["OWNER"; "ADMIN"; "CENTRAL_MANAGER"; "CENTRAL_STAFF"]
  | CancelPurchaseOrder _ => ["OWNER"; "ADMIN"; "CENTRAL_MANAGER"]
  | CreateStockRequest _ => ["OWNER"; "ADMIN"; "OUTLET_MANAGER"; "CENTRAL_MANAGER"]
  | ApproveStockRequestReq _ _ => ["OWNER"; "ADMIN"; "CENTRAL_MANAGER"]
  | RejectStockRequest _ => ["OWNER"; "ADMIN"; "CENTRAL_MANAGER"]
  | CancelStockRequest _ => ["OWNER"; "ADMIN"; "OUTLET_MANAGER"; "CENTRAL_MANAGER"]
  | CreateStockTransfer _ => ["OWNER"; "ADMIN"; "CENTRAL_MANAGER"; "CENTRAL_STAFF"]
  | ShipStockTransfer _ => ["OWNER"; "ADMIN"; "CENTRAL_MANAGER"; "CENTRAL_STAFF"]
  | ReceiveStockTransfer _ => ["OWNER"; "ADMIN"; "CENTRAL_MANAGER"; "OUTLET_MANAGER"]
  | CancelStockTransfer _ => ["OWNER"; "ADMIN"; "CENTRAL_MANAGER"]
  | CreateMenu _ => ["OWNER"; "ADMIN"; "CENTRAL_MANAGER"; "OUTLET_MANAGER"]
  | UpdateMenu _ _ => ["OWNER"; "ADMIN"; "CENTRAL_MANAGER"; "OUTLET_MANAGER"]
  | CreateRecipeForMenu _ _ => ["OWNER"; "ADMIN"; "CENTRAL_MANAGER"]
  | DeleteMenu _ => ["OWNER"; "ADMIN"]
  | Administration _ _ _ _ => administration_roles e
  end.

(** The roles that the endpoints name. *)
Definition named_roles : list string :=
  ["OWNER"; "ADMIN"; "CENTRAL_MANAGER"; "OUTLET_MANAGER"; "CENTRAL_STAFF"; "CASHIER"].

End roles.

(** A request as it reaches the application: the role check of its
    endpoint first, the handler if it passes. *)
Definition guarded_handle (role : string) (ctx : Context) (e : AdministrationEndpoint)
    (r : Request) (db : DB) : DB :=
  match require_role (allowed_roles r e) role with
  | inr _ => handle ctx r db
  | inl _ => db
  end.

Definition guarded_run (rs : list (string * Context * AdministrationEndpoint * Request))
    (db : DB) : DB :=
  foldl (λ db r, guarded_handle r.1.1.1 r.1.1.2 r.1.2 r.2 db) db rs.

(** The tables a cashier has no business with. *)
Definition back_office (db : DB) :=
  (organizations db, outlets db, ingredients db, suppliers db, menus db, recipes db,
   recipe_items db, purchase_orders db, purchase_order_items db, stock_requests db,
   stock_request_items db, stock_transfers db, stock_transfer_items db).

(** ** Outlets (app/api/v1/outlets.py)

    The three endpoints that write the table [outlets], over its full
    rows.  Each of them writes once, as its last statement before the
    commit, so a request that raises leaves the table as it was: a handler
    returns either the exception or its response with the new table. *)

Record OrganizationPlan := { max_outlets : Z }.

Record OutletRow := {
  or_organization_id : nat;
  or_name : string;
  or_code : string;
  or_type : string;
  or_address : option string;
  or_phone : option string;
  or_is_active : bool }.

Record OutletCreate := {
  oc_name : string;
  oc_code : string;
  oc_type : string;
  oc_address : option string;
  oc_phone : option string }.

Record OutletUpdate := {
  ou_name : option string;
  ou_address : option string;
  ou_phone : option string;
  ou_is_active : option bool }.

Inductive OutletError :=
| OutletLimitReached (limit : Z)         (* 403 "Outlet limit reached. ..." *)
| OutletCodeExists (code : string)     (* 400 "Outlet code '{code}' already exists" *)
| OutletTypeInvalid            (* 400 "Type must be either 'CENTRAL' or 'OUTLET'" *)
| OutletMissing                          (* 404 "Outlet not found" *)
| OutletNoFields                         (* 400 "No fields to update" *)
| OnlyCentralOutlet                      (* 400 "Cannot delete the only central outlet" *)
| OutletServerError.                     (* an attribute read on None *)

Section outlet_endpoints.
Local Open Scope string_scope.

Definition create_outlet (plans : list OrganizationPlan) (org : nat) (data : OutletCreate)
    (t : list OutletRow) : OutletError + (nat * OutletRow * list OutletRow) :=
  let current_count := length (filter (λ o, or_organization_id o = org) t) in
  match plans !! org with
  | None => inl OutletServerError
  | Some plan =>
      if decide (max_outlets plan ≤ Z.of_nat current_count)%Z
      then inl (OutletLimitReached (max_outlets plan)) else
      if decide (Exists (λ o, or_organization_id o = org ∧ or_code o = oc_code data) t)
      then inl (OutletCodeExists (oc_code data)) else
      if decide (oc_type data ∉ ["CENTRAL"; "OUTLET"]) then inl OutletTypeInvalid else
      let row := {| or_organization_id := org; or_name := oc_name data;
                    or_code := oc_code data; or_type := oc_type data;
                    or_address := oc_address data; or_phone := oc_phone data;
                    or_is_active := true |} in
      inr (length t, row, (t ++ [row])%list)
  end.

Definition apply_outlet_update (data : OutletUpdate) (o : OutletRow) : OutletRow :=
  {| or_organization_id := or_organization_id o;
     or_name := default (or_name o) (ou_name data);
     or_code := or_code o; or_type := or_type o;
     or_address := if ou_address data is Some a then Some a else or_address o;
     or_phone := if ou_phone data is Some p then Some p else or_phone o;
     or_is_active := default (or_is_active o) (ou_is_active data) |}.

Definition update_outlet (org outlet_id : nat) (data : OutletUpdate) (t : list OutletRow)
    : OutletError + (OutletRow * list OutletRow) :=
  match select_in_org or_organization_id org outlet_id t with
  | None => inl OutletMissing
  | Some existing =>
      match ou_name data, ou_address data, ou_phone data, ou_is_active data with
      | None, None, None, None => inl OutletNoFields
      | _, _, _, _ =>
          inr (apply_outlet_update data existing,
               alter (apply_outlet_update data) outlet_id t)
      end
  end.

Definition set_outlet_inactive (o : OutletRow) : OutletRow :=
  {| or_organization_id := or_organization_id o; or_name := or_name o;
     or_code := or_code o; or_type := or_type o;
     or_address := or_address o; or_phone := or_phone o;
     or_is_active := false |}.

(** [SELECT COUNT ... WHERE organization_id = :org_id AND type = 'CENTRAL'
    AND is_active = true]. *)
Definition active_centrals (org : nat) (t : list OutletRow) : list OutletRow :=
  filter (λ o, or_organization_id o = org ∧ or_type o = "CENTRAL"
               ∧ or_is_active o = true) t.

Definition delete_outlet (org outlet_id : nat) (t : list OutletRow)
    : OutletError + list OutletRow :=
  match select_in_org or_organization_id org outlet_id t with
  | None => inl OutletMissing
  | Some existing =>
      if decide (or_type existing = "CENTRAL" ∧ length (active_centrals org t) ≤ 1)
      then inl OnlyCentralOutlet
      else inr (alter set_outlet_inactive outlet_id t)
  end.

End outlet_endpoints.

Inductive OutletRequest :=
| CreateOutlet (data : OutletCreate)
| UpdateOutlet (outlet_id : nat) (data : OutletUpdate)
| DeleteOutlet (outlet_id : nat).

(** The table a request of organization [org] leaves behind. *)
Definition handle_outlet (plans : list OrganizationPlan) (org : nat) (r : OutletRequest)
    (t : list OutletRow) : list OutletRow :=
  match r with
  | CreateOutlet data =>
      match create_outlet plans org data t with inr (_, _, t') => t' | inl _ => t end
  | UpdateOutlet outlet_id data =>
      match update_outlet org outlet_id data t with inr (_, t') => t' | inl _ => t end
  | DeleteOutlet outlet_id =>
      match delete_outlet org outlet_id t with inr t' => t' | inl _ => t end
  end.

Definition run_outlets (plans : list OrganizationPlan) (rs : list (nat * OutletRequest))
    (t : list OutletRow) : list OutletRow :=
  foldl (λ t r, handle_outlet plans r.1 r.2 t) t rs.

(** No two outlets of an organization share a code. *)
Definition outlet_codes_unique (t : list OutletRow) : Prop :=
  ∀ i j o o', t !! i = Some o → t !! j = Some o' → i ≠ j →
              or_organization_id o = or_organization_id o' → or_code o ≠ or_code o'.

(** No organization has more outlets, deleted ones included, than its
    plan allows. *)
Definition within_outlet_limit (plans : list OrganizationPlan) (t : list OutletRow) : Prop :=
  ∀ org plan, plans !! org = Some plan →
              (Z.of_nat (length (filter (λ o, or_organization_id o = org) t))
               ≤ max_outlets plan)%Z.

Definition has_active_central (org : nat) (t : list OutletRow) : Prop :=
  active_centrals org t ≠ [].

(** A plan of two outlets for organization 0, a central kitchen and a
    shop. *)
Definition two_outlet_plan : list OrganizationPlan := [ {| max_outlets := 2 |} ].

Definition kitchen : OutletCreate :=
  {| oc_name := "Kitchen"; oc_code := "CTR"; oc_type := "CENTRAL";
     oc_address := None; oc_phone := None |}.

Definition shop : OutletCreate :=
  {| oc_name := "Shop"; oc_code := "SHOP"; oc_type := "OUTLET";
     oc_address := None; oc_phone := None |}.

(** ** Ingredients (app/api/v1/ingredients.py)

    The three endpoints that write the table [ingredients], over its full
    rows.  They read the units, and the recipes and menus that use an
    ingredient, in the database of the other handlers. *)

Record IngredientRow := {
  ir_organization_id : nat;
  ir_name : string;
  ir_category : option string;
  ir_sku : option string;
  ir_base_unit_id : nat;
  ir_is_active : bool }.

Record IngredientCreate := {
  ic_name : string;
  ic_category : option string;
  ic_sku : option string;
  ic_base_unit_id : nat }.

Record IngredientUpdate := {
  iu_name : option string;
  iu_category : option string;
  iu_sku : option string;
  iu_base_unit_id : option nat;
  iu_is_active : option bool }.

Inductive IngredientError :=
| SkuExists (sku : string)                (* 400 "SKU '{sku}' already exists" *)
| InvalidBaseUnit                         (* 400 "Invalid base_unit_id" *)
| IngredientMissing                       (* 404 "Ingredient not found" *)
| IngredientNoFields                      (* 400 "No fields to update" *)
| IngredientInUse (recipes : nat).
      (* 400 "Cannot delete ingredient. It is used in {n} recipe(s)" *)

(** Python truthiness of an optional text: [if data.sku:]. *)
Definition truthy_text (s : option string) : option string :=
  match s with
  | Some EmptyString => None
  | Some s => Some s
  | None => None
  end.

Definition create_ingredient (org : nat) (data : IngredientCreate) (db : DB)
    (t : list IngredientRow) : IngredientError + (nat * IngredientRow * list IngredientRow) :=
  let row := {| ir_organization_id := org; ir_name := ic_name data;
                ir_category := ic_category data; ir_sku := ic_sku data;
                ir_base_unit_id := ic_base_unit_id data; ir_is_active := true |} in
  let verify_unit_and_insert :=
    match units db !! ic_base_unit_id data with
    | None => inl InvalidBaseUnit
    | Some _ => inr (length t, row, t ++ [row])
    end in
  match truthy_text (ic_sku data) with
  | Some sku =>
      if decide (Exists (λ i, ir_organization_id i = org ∧ ir_sku i = Some sku) t)
      then inl (SkuExists sku) else verify_unit_and_insert
  | None => verify_unit_and_insert
  end.

Definition apply_ingredient_update (data : IngredientUpdate) (i : IngredientRow)
    : IngredientRow :=
  {| ir_organization_id := ir_organization_id i;
     ir_name := default (ir_name i) (iu_name data);
     ir_category := if iu_category data is Some c then Some c else ir_category i;
     ir_sku := if iu_sku data is Some s then Some s else ir_sku i;
     ir_base_unit_id := default (ir_base_unit_id i) (iu_base_unit_id data);
     ir_is_active := default (ir_is_active i) (iu_is_active data) |}.

(** [SELECT id FROM ingredients WHERE organization_id = :org_id AND
    sku = :sku AND id != :ingredient_id]. *)
Definition sku_taken (org ingredient_id : nat) (sku : string) (t : list IngredientRow)
    : Prop :=
  Exists (λ p, p.1 ≠ ingredient_id ∧ ir_organization_id p.2 = org ∧ ir_sku p.2 = Some sku)
         (imap pair t).

#[global] Instance sku_taken_dec org ingredient_id sku t :
  Decision (sku_taken org ingredient_id sku t).
Proof. unfold sku_taken. apply _. Defined.

Definition update_ingredient (org ingredient_id : nat) (data : IngredientUpdate) (db : DB)
    (t : list IngredientRow) : IngredientError + (IngredientRow * list IngredientRow) :=
  match select_in_org ir_organization_id org ingredient_id t with
  | None => inl IngredientMissing
  | Some existing =>
      let build_and_update :=
        let unit_missing :=
          match iu_base_unit_id data with
          | Some u => bool_decide (units db !! u = None)
          | None => false
          end in
        if unit_missing then inl InvalidBaseUnit else
        match iu_name data, iu_category data, iu_sku data, iu_base_unit_id data,
              iu_is_active data with
        | None, None, None, None, None => inl IngredientNoFields
        | _, _, _, _, _ =>
            inr (apply_ingredient_update data existing,
                 alter (apply_ingredient_update data) ingredient_id t)
        end in
      match truthy_text (iu_sku data) with
      | Some sku =>
          if decide (sku_taken org ingredient_id sku t) then inl (SkuExists sku)
          else build_and_update
      | None => build_and_update
      end
  end.

Definition set_ingredient_inactive (i : IngredientRow) : IngredientRow :=
  {| ir_organization_id := ir_organization_id i; ir_name := ir_name i;
     ir_category := ir_category i; ir_sku := ir_sku i;
     ir_base_unit_id := ir_base_unit_id i; ir_is_active := false |}.

(** The recipe item belongs, through its recipe, to a menu of the
    organization: [recipe_items ri JOIN recipes r ON r.id = ri.recipe_id
    JOIN menus m ON m.id = r.menu_id WHERE m.organization_id = :org_id]. *)
Definition in_menu_of (org : nat) (db : DB) (ri : RecipeItem) : bool :=
  match recipes db !! ri_recipe_id ri with
  | Some r =>
      match menus db !! recipe_menu_id r with
      | Some m => bool_decide (menu_organization_id m = org)
      | None => false
      end
  | None => false
  end.

(** [SELECT COUNT ... WHERE ri.ingredient_id = :ingredient_id AND
    m.organization_id = :org_id] over that join. *)
Definition used_in_recipes (org ingredient_id : nat) (db : DB) : nat :=
  length (filter (λ ri, ri_ingredient_id ri = ingredient_id ∧ in_menu_of org db ri = true)
                 (recipe_items db)).

Definition delete_ingredient (org ingredient_id : nat) (db : DB) (t : list IngredientRow)
    : IngredientError + list IngredientRow :=
  match select_in_org ir_organization_id org ingredient_id t with
  | None => inl IngredientMissing
  | Some _ =>
      if decide (0 < used_in_recipes org ingredient_id db)
      then inl (IngredientInUse (used_in_recipes org ingredient_id db))
      else inr (alter set_ingredient_inactive ingredient_id t)
  end.

Inductive IngredientRequest :=
| CreateIngredient (data : IngredientCreate)
| UpdateIngredient (ingredient_id : nat) (data : IngredientUpdate)
| DeleteIngredient (ingredient_id : nat).

(** The table a request of organization [org] leaves behind. *)
Definition handle_ingredient (org : nat) (r : IngredientRequest) (db : DB)
    (t : list IngredientRow) : list IngredientRow :=
  match r with
  | CreateIngredient data =>
      match create_ingredient org data db t with inr (_, _, t') => t' | inl _ => t end
  | UpdateIngredient ingredient_id data =>
      match update_ingredient org ingredient_id data db t with
      | inr (_, t') => t'
      | inl _ => t
      end
  | DeleteIngredient ingredient_id =>
      match delete_ingredient org ingredient_id db t with inr t' => t' | inl _ => t end
  end.

(** The requests come with the organization of the caller and with the
    database as it is when they arrive. *)
Definition run_ingredients (rs : list (nat * IngredientRequest * DB))
    (t : list IngredientRow) : list IngredientRow :=
  foldl (λ t r, handle_ingredient r.1.1 r.1.2 r.2 t) t rs.

(** No two ingredients of an organization share a SKU, the empty SKU
    apart. *)
Definition skus_unique (t : list IngredientRow) : Prop :=
  ∀ i j r r' sku, t !! i = Some r → t !! j = Some r' → i ≠ j →
                  ir_organization_id r = ir_organization_id r' →
                  ir_sku r = Some sku → ir_sku r' = Some sku → sku = EmptyString.

Definition flour_sku (sku : string) : IngredientCreate :=
  {| ic_name := "Flour"; ic_category := None; ic_sku := Some sku; ic_base_unit_id := 0 |}.

(** ** Goods received on a purchase order *)




(** * Proofs *)

Lemma preserves_ret {A} (I : DB → Prop) (a : A) : preserves I (ret a).
Proof. intros db H. exact H. Qed.

Lemma preserves_raise {A} (I : DB → Prop) e : preserves I (@raise A e).
Proof. intros db H. exact H. Qed.

Lemma preserves_query {A} (I : DB → Prop) (q : DB → A) : preserves I (query q).
Proof. intros db H. exact H. Qed.

Lemma preserves_execute (I : DB → Prop) (w : DB → DB) :
  (∀ db, I db → I (w db)) → preserves I (execute w).
Proof. intros Hw db H. apply Hw, H. Qed.

Lemma preserves_bind {A B} (I : DB → Prop) (m : tx A) (k : A → tx B) :
  preserves I m → (∀ a, preserves I (k a)) → preserves I (bind m k).
Proof.
  intros Hm Hk db H. unfold bind.
  specialize (Hm db H). destruct (m db) as [[a|e] db']; simpl in *.
  - apply Hk, Hm.
  - exact Hm.
Qed.

Lemma preserves_for_acc {A S} (I : DB → Prop) (l : list A) (body : A → S → tx S) :
  (∀ x s, x ∈ l → preserves I (body x s)) → ∀ s, preserves I (for_acc l s body).
Proof.
  induction l as [|x l IH]; intros Hb s; simpl.
  - apply preserves_ret.
  - apply preserves_bind.
    + apply Hb. apply list_elem_of_here.
    + intros s'. apply IH. intros y s'' Hy. apply Hb. by apply list_elem_of_further.
Qed.

Lemma preserves_for_each {A} (I : DB → Prop) (l : list A) (body : A → tx unit) :
  (∀ x, x ∈ l → preserves I (body x)) → preserves I (for_each l body).
Proof. intros Hb. apply preserves_for_acc. intros x _ Hx. apply Hb, Hx. Qed.

Lemma preserves_session {A} (I : DB → Prop) (m : tx A) :
  preserves I m → preserves I (session m).
Proof.
  intros Hm db H. unfold session. specialize (Hm db H).
  destruct (m db) as [[a|e] db']; simpl in *; assumption.
Qed.

Lemma preserves_insert_returning {A} (I : DB → Prop) (table : DB → list A) add row :
  (∀ db, I db → I (add (λ t, t ++ [row]) db)) →
  preserves I (insert_returning table add row).
Proof.
  intros Hw. unfold insert_returning.
  apply preserves_bind; [apply preserves_query|intros id].
  apply preserves_bind; [apply preserves_execute, Hw|intros _; apply preserves_ret].
Qed.

(** Splits a handler body into its statements; what is left are the
    writes, one goal each. *)
Ltac preserves_step :=
  lazymatch goal with
  | |- preserves _ (ret _) => apply preserves_ret
  | |- preserves _ (raise _) => apply preserves_raise
  | |- preserves _ (query _) => apply preserves_query
  | |- preserves _ (bind _ _) => apply preserves_bind; [|intros ?]
  | |- preserves _ (session _) => apply preserves_session
  | |- preserves _ (for_each _ _) => apply preserves_for_each; intros ? ?
  | |- preserves _ (for_acc _ _ _) => apply preserves_for_acc; intros ? ? ?
  | |- preserves _ (insert_returning _ _ _) => apply preserves_insert_returning
  | |- preserves _ (execute _) => apply preserves_execute
  | |- preserves _ (match ?x with _ => _ end) => destruct x
  | |- preserves _ (let (_, _) := ?x in _) => destruct x
  end.

Ltac preserves_auto := repeat preserves_step.

(** ** Sales snapshots *)


Ltac unfold_handlers :=
  unfold create_sales_order, create_sales_order_body, prepare_item,
    cost_and_check_line, store_item, post_sale,
    create_inventory_adjustment, create_inventory_adjustment_body,
    create_purchase_order, create_purchase_order_body,
    approve_purchase_order, approve_purchase_order_body,
    receive_purchase_order, receive_purchase_order_body, receive_po_line,
    cancel_purchase_order, cancel_purchase_order_body,
    create_stock_request, create_stock_request_body,
    approve_stock_request, approve_stock_request_body, approve_line,
    reject_stock_request, reject_stock_request_body,
    cancel_stock_request, cancel_stock_request_body,
    create_stock_transfer, create_stock_transfer_body,
    ship_stock_transfer, ship_stock_transfer_body, ship_item,
    receive_stock_transfer, receive_stock_transfer_body, receive_item,
    cancel_stock_transfer, cancel_stock_transfer_body,
    create_menu, create_menu_body,
    update_menu, update_menu_body,
    create_recipe_for_menu, create_recipe_for_menu_body,
    delete_menu, delete_menu_body, insert_recipe_items.

(** Reduces a property of [handle] to the same property of each handler. *)
Lemma preserves_handle (I : DB → Prop) :
  (∀ ctx data, preserves I (create_sales_order ctx data)) →
  (∀ ctx data, preserves I (create_inventory_adjustment ctx data)) →
  (∀ ctx data, preserves I (create_purchase_order ctx data)) →
  (∀ ctx id, preserves I (approve_purchase_order ctx id)) →
  (∀ ctx id data, preserves I (receive_purchase_order ctx id data)) →
  (∀ ctx id, preserves I (cancel_purchase_order ctx id)) →
  (∀ ctx data, preserves I (create_stock_request ctx data)) →
  (∀ ctx id data, preserves I (approve_stock_request ctx id data)) →
  (∀ ctx id, preserves I (reject_stock_request ctx id)) →
  (∀ ctx id, preserves I (cancel_stock_request ctx id)) →
  (∀ ctx data, preserves I (create_stock_transfer ctx data)) →
  (∀ ctx id, preserves I (ship_stock_transfer ctx id)) →
  (∀ ctx id, preserves I (receive_stock_transfer ctx id)) →
  (∀ ctx id, preserves I (cancel_stock_transfer ctx id)) →
  (∀ ctx data, preserves I (create_menu ctx data)) →
  (∀ ctx id data, preserves I (update_menu ctx id data)) →
  (∀ ctx id data, preserves I (create_recipe_for_menu ctx id data)) →
  (∀ ctx id, preserves I (delete_menu ctx id)) →
  (∀ o u i s db, I db → I (administer o u i s db)) →
  ∀ ctx r db, I db → I (handle ctx r db).
Proof.
  intros H1 H2 H3 H4 H5 H6 H7 H8 H9 H10 H11 H12 H13 H14 H15 H16 H17 H18 H19 ctx r db HI.
  destruct r; simpl;
    [ apply H1 | apply H2 | apply H3 | apply H4 | apply H5 | apply H6 | apply H7
    | apply H8 | apply H9 | apply H10 | apply H11 | apply H12 | apply H13
    | apply H14 | apply H15 | apply H16 | apply H17 | apply H18 | apply H19 ];
    exact HI.
Qed.

Lemma preserves_run (I : DB → Prop) :
  (∀ ctx r db, I db → I (handle ctx r db)) → ∀ rs db, I db → I (run rs db).
Proof.
  intros Hh rs. unfold run.
  induction rs as [|[ctx r] rs IH]; intros db HI; simpl; [exact HI|].
  apply IH, Hh, HI.
Qed.

Lemma handle_grows_sales_order_items db0 ctx r db :
  grows sales_order_items db0 db → grows sales_order_items db0 (handle ctx r db).
Proof.
  revert ctx r db. apply preserves_handle; intros; unfold_handlers; preserves_auto;
    try (intros ? HI; exact HI); try assumption.
  intros db HI. unfold grows in *. simpl. by apply prefix_app_r.
Qed.

(** C4.  Sales snapshot immutability: whatever requests run after a sales
    order was created -- new recipe versions for the same menu, receipts
    that change an ingredient's last cost, or any other request -- every
    existing sales order item is still there under its id, with its
    [price_at_that_time], [hpp_at_that_time], [total_item_amount] and
    [ingredient_usage_json] (and every other column) unchanged. *)
Theorem sales_snapshot_immutable (rs : list (Context * Request)) (db : DB)
    (id : nat) (item : SalesOrderItem) :
  sales_order_items db !! id = Some item →
  sales_order_items (run rs db) !! id = Some item.
Proof.
  intros Hid. eapply prefix_lookup_Some; [exact Hid|].
  apply (preserves_run (grows sales_order_items db)).
  - apply handle_grows_sales_order_items.
  - unfold grows. reflexivity.
Qed.

Lemma sales_snapshot_immutable_witness :
  ∃ item,
    sales_order_items after_sale !! 0 = Some item
    ∧ sales_order_items
        (run [ (sample_ctx, CreateRecipeForMenu 0 lighter_bread);
               (sample_ctx, ReceivePurchaseOrderReq 0 receive_all);
               (sample_ctx, CreateSalesOrder (sale_at_shop [bread 1])) ]
             after_sale) !! 0 = Some item.
Proof.
  eexists. split; [vm_compute; reflexivity|].
  apply sales_snapshot_immutable. vm_compute. reflexivity.
Defined.

(** ** Ledger-stock reconciliation *)

Ltac tx_simpl :=
  unfold insert_returning, for_each, bind, query, execute, raise, ret in *; simpl in *.

Lemma list_find_alter {A} (P : A → Prop) `{∀ x, Decision (P x)} (f : A → A)
    (l : list A) (i : nat) :
  (∀ x, P (f x) ↔ P x) →
  list_find P (alter f i l)
  = (λ p, (p.1, if decide (p.1 = i) then f p.2 else p.2)) <$> list_find P l.
Proof.
  intros Hf. destruct (list_find P l) as [[j x]|] eqn:E; simpl.
  - apply list_find_Some in E as (Hl & HP & Hlt). apply list_find_Some.
    split_and!.
    + rewrite list_lookup_alter. destruct (decide (i = j)) as [->|Hne].
      * rewrite Hl. simpl. by rewrite decide_True.
      * by rewrite decide_False.
    + case_decide; [by apply Hf|done].
    + intros j' y Hy Hj'. rewrite list_lookup_alter in Hy.
      destruct (decide (i = j')) as [->|Hne].
      * destruct (l !! j') as [z|] eqn:Ez; simplify_eq/=. rewrite Hf. eauto.
      * eauto.
  - apply list_find_None in E. apply list_find_None.
    apply Forall_lookup. intros j y Hy. rewrite list_lookup_alter in Hy.
    rewrite Forall_lookup in E.
    destruct (decide (i = j)) as [->|Hne].
    + destruct (l !! j) as [z|] eqn:Ez; simplify_eq/=. rewrite Hf. eauto.
    + eauto.
Qed.

Lemma same_key_set_qty_on_hand q : same_key (set_qty_on_hand q).
Proof. by intros s. Qed.


Lemma find_stock_alter o i id f db :
  same_key f →
  find_stock o i (with_inventory_stock (alter f id) db)
  = (λ p, (p.1, if decide (p.1 = id) then f p.2 else p.2)) <$> find_stock o i db.
Proof.
  intros Hf. unfold find_stock. simpl. apply list_find_alter.
  intros s. destruct (Hf s) as [-> ->]. done.
Qed.

Lemma find_stock_key o i db id s :
  find_stock o i db = Some (id, s) →
  inventory_stock db !! id = Some s ∧ stock_outlet_id s = o ∧ stock_ingredient_id s = i.
Proof.
  unfold find_stock. intros (Hl & [Ho Hi] & _)%list_find_Some. done.
Qed.

Lemma find_stock_same_id o i o' i' db id s s' :
  find_stock o i db = Some (id, s) → find_stock o' i' db = Some (id, s') →
  o = o' ∧ i = i'.
Proof.
  intros (Hl & Ho & Hi)%find_stock_key (Hl' & Ho' & Hi')%find_stock_key.
  simplify_eq. done.
Qed.

(** Writing a quantity to the row found for a pair changes the level of
    that pair only. *)
Lemma stock_level_alter o i o' i' id s f db :
  same_key f → find_stock o' i' db = Some (id, s) →
  stock_level o i (with_inventory_stock (alter f id) db)
  = if decide (o = o' ∧ i = i') then qty_on_hand (f s) else stock_level o i db.
Proof.
  intros Hf Hfind. unfold stock_level. rewrite find_stock_alter by done.
  destruct (find_stock o i db) as [[j x]|] eqn:E; simpl.
  - destruct (decide (j = id)) as [->|Hne].
    + destruct (find_stock_same_id _ _ _ _ _ _ _ _ E Hfind) as [-> ->].
      rewrite decide_True by done. by simplify_eq.
    + rewrite decide_False; [done|]. intros [-> ->]. by simplify_eq.
  - rewrite decide_False; [done|]. intros [-> ->]. by simplify_eq.
Qed.



Lemma list_find_fmap_stable {A} (P : A → Prop) `{∀ x, Decision (P x)} (g : A → A)
    (l : list A) :
  (∀ x, P (g x) ↔ P x) →
  list_find P (g <$> l) = prod_map id g <$> list_find P l.
Proof.
  intros Hg. rewrite list_find_fmap. f_equal. apply list_find_ext.
  intros x. simpl. apply Hg.
Qed.

Lemma find_stock_deduct o i o' i' u db :
  find_stock o i (with_inventory_stock (deduct_stock o' i' u) db)
  = (λ p, (p.1, if decide (o = o' ∧ i = i')
                then set_qty_on_hand (qty_on_hand p.2 - u) p.2 else p.2))
    <$> find_stock o i db.
Proof.
  unfold find_stock, deduct_stock. simpl.
  rewrite list_find_fmap_stable; [|intros s; by case_decide].
  destruct (list_find _ (inventory_stock db)) as [[j x]|] eqn:E; simpl; [|done].
  apply list_find_Some in E as (_ & [Ho Hi] & _). f_equal. f_equal.
  destruct (decide (o = o' ∧ i = i')) as [[-> ->]|Hne].
  - by rewrite decide_True.
  - rewrite decide_False; [done|]. intros [? ?]. apply Hne. by simplify_eq.
Qed.

(** The by-key update of a sale lowers the level of its pair, when the
    pair has a row. *)
Lemma stock_level_deduct o i o' i' u db :
  has_stock_row o' i' db →
  stock_level o i (with_inventory_stock (deduct_stock o' i' u) db)
  = if decide (o = o' ∧ i = i') then (stock_level o i db - u)%Z
    else stock_level o i db.
Proof.
  intros [p Hp]. unfold stock_level. rewrite find_stock_deduct.
  destruct (decide (o = o' ∧ i = i')) as [[-> ->]|Hne].
  - rewrite Hp. by destruct p.
  - by destruct (find_stock o i db) as [[j x]|].
Qed.


Lemma has_stock_row_alter o i id f db :
  same_key f → has_stock_row o i db →
  has_stock_row o i (with_inventory_stock (alter f id) db).
Proof.
  intros Hf [p Hp]. unfold has_stock_row. rewrite find_stock_alter by done.
  rewrite Hp. by eexists.
Qed.

Lemma has_stock_row_deduct o i o' i' u db :
  has_stock_row o i db →
  has_stock_row o i (with_inventory_stock (deduct_stock o' i' u) db).
Proof.
  intros [p Hp]. unfold has_stock_row. rewrite find_stock_deduct, Hp. by eexists.
Qed.








Lemma insert_returning_apply {A} (table : DB → list A) add row db :
  insert_returning table add row db
  = (Ok (length (table db)), add (λ t, t ++ [row]) db).
Proof. reflexivity. Qed.

Lemma bind_apply {A B} (m : tx A) (k : A → tx B) db :
  bind m k db = match m db with
                | (Ok a, db') => k a db'
                | (Raise e, db') => (Raise e, db')
                end.
Proof. reflexivity. Qed.

(** The first loop of [create_sales_order] only reads: it leaves the
    working copy as it is, raises at a line that lacks stock, and returns
    usage entries whose pairs all have a stock row. *)
Lemma check_lines_spec outlet_id qty lines acc db :
  ∃ r, for_acc lines acc (cost_and_check_line outlet_id qty) db = (r, db) ∧
  match r with
  | Ok acc' =>
      Forall (λ l, ¬ lacking outlet_id qty l db) lines
      ∧ (Forall (λ u, has_stock_row outlet_id (usage_ingredient_id u) db) acc.1 →
         Forall (λ u, has_stock_row outlet_id (usage_ingredient_id u) db) acc'.1)
  | Raise e =>
      ∃ l, l ∈ lines ∧ lacking outlet_id qty l db
           ∧ e = InsufficientStockNamed (line_ingredient_name l)
  end.
Proof.
  revert acc. induction lines as [|l lines IH]; intros acc; simpl.
  - eexists. split; [reflexivity|]. split; [constructor|done].
  - rewrite bind_apply. unfold cost_and_check_line at 1.
    rewrite bind_apply. unfold query at 1.
    destruct (find_stock outlet_id (line_ingredient_id l) db) as [[id s]|] eqn:Hfind.
    + case_decide as Hlt.
      * eexists. split; [reflexivity|]. exists l. split; [apply list_elem_of_here|].
        split; [|done]. unfold lacking. by rewrite Hfind.
      * unfold ret at 1.
        match goal with |- context [for_acc lines ?a _ db] =>
          destruct (IH a) as (r & Heq & Hr) end.
        rewrite Heq. exists r. split; [done|]. destruct r as [acc'|e].
        -- destruct Hr as [Hall Hrows]. split.
           ++ constructor; [|done]. unfold lacking. by rewrite Hfind.
           ++ intros Hacc. apply Hrows. apply Forall_app. split; [done|].
              constructor; [|constructor]. simpl. unfold has_stock_row.
              by rewrite Hfind.
        -- destruct Hr as (l' & Hin & Hl' & ->). exists l'.
           split; [by apply list_elem_of_further|done].
    + eexists. split; [reflexivity|]. exists l. split; [apply list_elem_of_here|].
      split; [|done]. unfold lacking. by rewrite Hfind.
Qed.

Lemma prepare_items_spec ctx outlet_id items acc db :
  ∃ r, for_acc items acc (prepare_item ctx outlet_id) db = (r, db) ∧
  match r with
  | Ok acc' =>
      Forall (λ it, Forall (λ l, ¬ lacking outlet_id (soic_qty it) l db)
                           (lines_of_menu (soic_menu_id it) outlet_id db)) items
      ∧ (usages_have_rows outlet_id acc.2 db → usages_have_rows outlet_id acc'.2 db)
  | Raise e =>
      Forall (λ it, menu_on_sale ctx it db) items →
      ∃ it l, it ∈ items ∧ l ∈ lines_of_menu (soic_menu_id it) outlet_id db
              ∧ lacking outlet_id (soic_qty it) l db
              ∧ e = InsufficientStockNamed (line_ingredient_name l)
  end.
Proof.
  revert acc. induction items as [|it items IH]; intros acc; simpl.
  - eexists. split; [reflexivity|]. split; [constructor|done].
  - rewrite bind_apply. unfold prepare_item at 1.
    rewrite bind_apply. unfold query at 1.
    destruct (select_in_org _ _ _ (menus db)) as [menu|] eqn:Hmenu.
    + destruct (menu_is_active menu) eqn:Hact; simpl.
      * rewrite bind_apply. unfold query at 1. rewrite bind_apply.
        destruct (check_lines_spec outlet_id (soic_qty it)
                    (lines_of_menu (soic_menu_id it) outlet_id db) ([], 0%Z) db)
          as (rl & Heql & Hlines).
        rewrite Heql. destruct rl as [costed|e].
        -- unfold ret at 1.
           match goal with |- context [for_acc items ?a _ db] =>
             destruct (IH a) as (r & Heq & Hr) end.
           rewrite Heq. exists r. split; [done|]. destruct r as [acc'|e].
           ++ destruct Hr as [Hall Hrows]. destruct Hlines as [Hnone Hcosted].
              split; [by constructor|].
              intros Hacc. apply Hrows. apply Forall_app. split; [done|].
              constructor; [|constructor]. simpl. apply Hcosted. constructor.
           ++ intros Hvalid. apply Forall_cons in Hvalid as [_ Hvalid].
              destruct (Hr Hvalid) as (it' & l & Hin & Hl & Hlack & ->).
              exists it', l. split; [by apply list_elem_of_further|done].
        -- eexists. split; [reflexivity|]. intros _.
           destruct Hlines as (l & Hin & Hlack & ->).
           exists it, l. split; [apply list_elem_of_here|done].
      * eexists. split; [reflexivity|].
        intros Hvalid. apply Forall_cons in Hvalid as [[m [Hm Hm']] _].
        rewrite Hmenu in Hm. simplify_eq. congruence.
    + eexists. split; [reflexivity|].
      intros Hvalid. apply Forall_cons in Hvalid as [[m [Hm Hm']] _].
      rewrite Hmenu in Hm. simplify_eq.
Qed.







(** ** Sales orders: all or nothing *)

Lemma exceeds_stock_lacking outlet_id qty l db :
  exceeds_stock outlet_id qty l db → lacking outlet_id qty l db.
Proof.
  unfold exceeds_stock, lacking, stock_level.
  by destruct (find_stock _ _ db) as [[id s]|].
Qed.

(** The second loop of [create_sales_order] never raises. *)
Lemma post_sales_return ctx outlet_id order_id number us db :
  ∃ db', for_each us (post_sale ctx outlet_id order_id number) db = (Ok tt, db').
Proof.
  revert db. unfold for_each. induction us as [|u us IH]; intros db; simpl.
  - by eexists.
  - rewrite bind_apply. unfold post_sale at 1. tx_simpl. apply IH.
Qed.

Lemma store_items_return ctx outlet_id order_id number items db :
  ∃ db', for_each items (store_item ctx outlet_id order_id number) db = (Ok tt, db').
Proof.
  revert db. unfold for_each at 1. induction items as [|x items IH]; intros db; simpl.
  - by eexists.
  - rewrite bind_apply. unfold store_item at 1.
    rewrite bind_apply. unfold execute at 1.
    match goal with |- context [for_each ?us ?b ?d] =>
      destruct (post_sales_return ctx outlet_id order_id number us d) as [d' ->] end.
    apply IH.
Qed.

(** Whatever the body of [create_sales_order] raises, it raises before
    its first write. *)
Lemma sales_order_raises_before_writing ctx data db e db' :
  create_sales_order_body ctx data db = (Raise e, db') → db' = db.
Proof.
  unfold create_sales_order_body.
  rewrite bind_apply. unfold query at 1.
  destruct (select_in_org _ _ _ (outlets db)); [|by intros [= _ <-]].
  rewrite bind_apply. unfold query at 1. rewrite bind_apply.
  destruct (prepare_items_spec ctx (soc_outlet_id data) (soc_items data) (0%Z, []) db)
    as (r & Heq & _).
  rewrite Heq. destruct r as [prepared|e']; [|by intros [= _ <-]].
  rewrite bind_apply, insert_returning_apply. cbv beta iota. rewrite bind_apply.
  match goal with |- context [for_each ?l (store_item ?c ?o ?i ?n) ?d] =>
    destruct (store_items_return c o i n l d) as [d' ->] end.
  discriminate.
Qed.

Lemma for_acc_app {A S} (l1 l2 : list A) (s : S) (body : A → S → tx S) db :
  for_acc (l1 ++ l2) s body db
  = match for_acc l1 s body db with
    | (Ok s', db') => for_acc l2 s' body db'
    | (Raise e, db') => (Raise e, db')
    end.
Proof.
  revert s db. induction l1 as [|x l1 IH]; intros s db; simpl; [done|].
  rewrite !bind_apply. destruct (body x s db) as [[s'|e] db']; [apply IH|done].
Qed.

(** C2 (as amended).  All or nothing for a sales order short of stock.
    First, whatever [create_sales_order] raises, its body has written
    nothing when it raises and the database is left as it was: no sales
    order, no sales order item and no ledger entry of the request exists.
    Second, take a request for an outlet of the organization in which some
    ingredient line needs more than the quantity on hand at the outlet, the
    menus of the requested items up to and including the item of that line
    being found and active: the request raises InsufficientStock naming the
    ingredient of a line, of that item or of an earlier one, that lacks
    stock. *)
Theorem sales_order_all_or_nothing (ctx : Context) (data : SalesOrderCreate) (db : DB) :
  (∀ e, (create_sales_order ctx data db).1 = Raise e →
        (create_sales_order_body ctx data db).2 = db
        ∧ (create_sales_order ctx data db).2 = db)
  ∧ (∀ before it after l,
       soc_items data = before ++ it :: after →
       is_Some (select_in_org outlet_organization_id (organization_id ctx)
                              (soc_outlet_id data) (outlets db)) →
       Forall (λ it', menu_on_sale ctx it' db) (before ++ [it]) →
       l ∈ lines_of_menu (soic_menu_id it) (soc_outlet_id data) db →
       exceeds_stock (soc_outlet_id data) (soic_qty it) l db →
       ∃ it' l', it' ∈ before ++ [it]
                 ∧ l' ∈ lines_of_menu (soic_menu_id it') (soc_outlet_id data) db
                 ∧ lacking (soc_outlet_id data) (soic_qty it') l' db
                 ∧ create_sales_order ctx data db
                   = (Raise (InsufficientStockNamed (line_ingredient_name l')), db)).
Proof.
  split.
  - intros e. unfold create_sales_order, session.
    destruct (create_sales_order_body ctx data db) as [[r|e'] db'] eqn:Hbody; simpl.
    + discriminate.
    + intros _. split; [|done]. by eapply sales_order_raises_before_writing.
  - intros before it after l Hitems [outlet Houtlet] Hvalid Hl Hex.
    unfold create_sales_order, session, create_sales_order_body.
    rewrite bind_apply. unfold query at 1. rewrite Houtlet.
    rewrite bind_apply. unfold query at 1. rewrite bind_apply.
    rewrite Hitems, (cons_middle it before after), app_assoc, for_acc_app.
    destruct (prepare_items_spec ctx (soc_outlet_id data) (before ++ [it]) (0%Z, []) db)
      as (r & Heq & Hr).
    rewrite Heq. destruct r as [prepared|e].
    + destruct Hr as [Hnone _]. rewrite Forall_forall in Hnone.
      specialize (Hnone it). rewrite Forall_forall in Hnone.
      destruct (Hnone ltac:(apply elem_of_app; right; apply list_elem_of_here) l Hl).
      by apply exceeds_stock_lacking.
    + destruct (Hr Hvalid) as (it' & l' & Hit' & Hl' & Hlack & ->).
      by exists it', l'.
Qed.

Lemma sales_order_all_or_nothing_witness :
  ∃ name,
    create_sales_order sample_ctx (sale_at_shop [bread 1; bread 3; bread 9]) sample_db
    = (Raise (InsufficientStockNamed name), sample_db).
Proof.
  destruct (sales_order_all_or_nothing sample_ctx
              (sale_at_shop [bread 1; bread 3; bread 9]) sample_db) as [_ H].
  destruct (H [bread 1] (bread 3) [bread 9]
              {| line_ingredient_id := 0; line_qty := 20000; line_unit_id := 0;
                 line_ingredient_name := "Flour"; line_unit_symbol := "kg";
                 line_last_cost := Some 200%Z |})
    as (it & l & _ & _ & _ & Hcall).
  - reflexivity.
  - vm_compute. by eexists.
  - repeat constructor; eexists; split; vm_compute; reflexivity.
  - vm_compute. apply list_elem_of_here.
  - vm_compute. reflexivity.
  - eexists. exact Hcall.
Defined.

(** The claim as stated fails where an earlier check rejects the request:
    the second line of this order needs 6 kg of flour and the shop has 5,
    but the order is refused for the unknown menu of its first line. *)
Lemma sales_order_rejected_before_stock_check :
  (∃ it l, it ∈ soc_items sale_with_unknown_menu
           ∧ l ∈ lines_of_menu (soic_menu_id it) (soc_outlet_id sale_with_unknown_menu)
                               sample_db
           ∧ exceeds_stock (soc_outlet_id sale_with_unknown_menu) (soic_qty it) l
                           sample_db)
  ∧ create_sales_order sample_ctx sale_with_unknown_menu sample_db
    = (Raise (MenuOfOrderNotFound 5), sample_db)
  ∧ ¬ ∃ name, (create_sales_order sample_ctx sale_with_unknown_menu sample_db).1
              = Raise (InsufficientStockNamed name).
Proof.
  split; [|split].
  - exists (bread 3). eexists. split; [apply list_elem_of_further, list_elem_of_here|].
    split; [vm_compute; apply list_elem_of_here|]. vm_compute. reflexivity.
  - vm_compute. reflexivity.
  - intros [name H]. vm_compute in H. discriminate.
Qed.

(** ** Stock that must not go negative *)

Lemma adjustment_keeps_stock_nonnegative ctx data :
  preserves stock_nonnegative (create_inventory_adjustment ctx data).
Proof.
  apply preserves_session. intros db Hnn.
  unfold create_inventory_adjustment_body. tx_simpl.
  destruct (select_in_org _ _ _ (outlets db)); [|exact Hnn].
  destruct (select_in_org _ _ _ (ingredients db)); [|exact Hnn].
  destruct (find_stock _ _ db) as [[id s]|] eqn:Hfind; case_decide; simpl;
    try exact Hnn; unfold stock_nonnegative in *; simpl.
  - apply Forall_alter; [done|]. intros x _. simpl. lia.
  - apply Forall_app. split; [done|]. constructor; [simpl; lia|constructor].
Qed.

Lemma ship_keeps_stock_nonnegative ctx transfer_id :
  preserves stock_nonnegative (ship_stock_transfer ctx transfer_id).
Proof.
  unfold ship_stock_transfer, ship_stock_transfer_body. preserves_auto.
  - intros db Hnn. unfold ship_item. tx_simpl.
    destruct (find_stock _ _ db) as [[id row]|] eqn:Hfind; simpl; [|exact Hnn].
    case_decide; simpl; [exact Hnn|].
    unfold stock_nonnegative in *. simpl.
    apply Forall_alter; [done|]. intros y _. simpl. lia.
  - intros ? HI; exact HI.
Qed.

(** C3 at its failing input.  The shop holds 5 kg of flour and no stock
    row is negative.  An order with two lines of two loaves each, 4 kg of
    flour per line, passes the stock check line by line, is created, and
    leaves the flour of the shop at -3 kg. *)
Theorem sale_sharing_an_ingredient_overdraws :
  stock_nonnegative sample_db
  ∧ ∃ r db',
      create_sales_order sample_ctx (sale_at_shop [bread 2; bread 2]) sample_db
      = (Ok r, db')
      ∧ stock_level 1 0 db' = (-30000)%Z
      ∧ ¬ stock_nonnegative db'.
Proof.
  split.
  - unfold stock_nonnegative. vm_compute. repeat constructor; discriminate.
  - eexists _, _. split; [vm_compute; reflexivity|]. split; [reflexivity|].
    unfold stock_nonnegative. simpl. intros H. apply Forall_cons in H as [H _].
    vm_compute in H. by apply H.
Qed.

(** ** Recipe versions *)

Lemma active_count_app m db (rs : list Recipe) :
  length (filter (λ r, recipe_menu_id r = m ∧ recipe_is_active r = true)
                 (recipes db ++ rs))
  = active_count m db
    + length (filter (λ r, recipe_menu_id r = m ∧ recipe_is_active r = true) rs).
Proof. unfold active_count. by rewrite filter_app, length_app. Qed.

Lemma active_count_deactivate m m' (t : list Recipe) :
  length (filter (λ r, recipe_menu_id r = m ∧ recipe_is_active r = true)
                 (deactivate_recipes m' t))
  = if decide (m = m') then 0
    else length (filter (λ r, recipe_menu_id r = m ∧ recipe_is_active r = true) t).
Proof.
  unfold deactivate_recipes. induction t as [|r t IH].
  - simpl. by case_decide.
  - rewrite fmap_cons. destruct (decide (recipe_menu_id r = m')) as [Hr|Hr].
    + rewrite filter_cons_False by (simpl; intros [_ ?]; discriminate).
      rewrite IH. destruct (decide (m = m')) as [->|Hne]; [done|].
      rewrite filter_cons_False; [done|]. intros [? _]. congruence.
    + rewrite filter_cons. destruct (decide (m = m')) as [->|Hne].
      * rewrite decide_False by (intros [? _]; congruence). exact IH.
      * rewrite (filter_cons _ r t).
        destruct (decide (recipe_menu_id r = m ∧ _)); simpl; by rewrite IH.
Qed.

Lemma active_count_unreferenced m db :
  recipes_reference_menus db → length (menus db) ≤ m → active_count m db = 0.
Proof.
  unfold recipes_reference_menus, active_count. intros Hfk Hm.
  induction Hfk as [|r t Hr _ IH]; [done|].
  rewrite filter_cons_False; [done|]. intros [? _]. lia.
Qed.

Lemma insert_recipe_items_frame recipe_id items db :
  ∃ db', insert_recipe_items recipe_id items db = (Ok tt, db')
         ∧ menus db' = menus db ∧ recipes db' = recipes db.
Proof.
  revert db. unfold insert_recipe_items, for_each.
  induction items as [|x items IH]; intros db; simpl.
  - by eexists.
  - rewrite bind_apply. unfold execute at 1.
    match goal with |- context [for_acc items _ _ ?d] =>
      destruct (IH d) as (d' & -> & Hm & Hr) end.
    by eexists.
Qed.

(** What [create_menu] does to the menus and the recipes. *)
Lemma create_menu_recipes ctx data db :
  ∃ r db', create_menu ctx data db = (r, db') ∧
    ((menus db' = menus db ∧ recipes db' = recipes db)
     ∨ (∃ m, menus db' = menus db ++ [m])
       ∧ (recipes db' = recipes db
          ∨ ∃ v n, recipes db'
                   = recipes db ++ [ {| recipe_menu_id := length (menus db);
                                        recipe_version := v; recipe_is_active := true;
                                        recipe_notes := n |} ])).
Proof.
  unfold create_menu, session, create_menu_body.
  rewrite bind_apply. unfold query at 1. rewrite bind_apply. unfold query at 1.
  destruct (organizations db !! organization_id ctx) as [org|].
  2: { eexists _, _. split; [reflexivity|]. by left. }
  case_decide.
  { eexists _, _. split; [reflexivity|]. by left. }
  rewrite bind_apply, insert_returning_apply. cbv beta iota. rewrite bind_apply.
  destruct (mc_recipe data) as [recipe|].
  - rewrite bind_apply, insert_returning_apply. cbv beta iota.
    match goal with |- context [insert_recipe_items ?i ?l ?d] =>
      destruct (insert_recipe_items_frame i l d) as (d' & -> & Hm & Hr) end.
    eexists _, _. split; [reflexivity|]. right. simpl in *.
    split; [by eexists|]. right. by eexists _, _.
  - eexists _, _. split; [reflexivity|]. right. simpl.
    split; [by eexists|]. by left.
Qed.

(** What [create_recipe_for_menu] does to the recipes: on success the
    new recipe is appended, after the others of the menu were deactivated
    if it is active; the menus stay as they are. *)
Lemma create_recipe_for_menu_recipes ctx menu_id data db :
  ∃ r db', create_recipe_for_menu ctx menu_id data db = (r, db') ∧
    menus db' = menus db ∧
    match r with
    | Ok (recipe_id, version) =>
        menu_id < length (menus db)
        ∧ recipe_id = length (recipes db)
        ∧ version = (max_version menu_id db + 1)%Z
        ∧ recipes db'
          = (if rc_is_active data then deactivate_recipes menu_id (recipes db)
             else recipes db)
            ++ [ {| recipe_menu_id := menu_id; recipe_version := version;
                    recipe_is_active := rc_is_active data;
                    recipe_notes := rc_notes data |} ]
    | Raise _ => recipes db' = recipes db
    end.
Proof.
  unfold create_recipe_for_menu, session, create_recipe_for_menu_body.
  rewrite bind_apply. unfold query at 1.
  destruct (select_in_org _ _ _ (menus db)) as [menu|] eqn:Hmenu.
  2: { eexists _, _. split; [reflexivity|]. done. }
  assert (menu_id < length (menus db)) as Hlt.
  { unfold select_in_org in Hmenu.
    destruct (menus db !! menu_id) eqn:E; [|done]. by eapply lookup_lt_Some. }
  rewrite bind_apply. unfold query at 1. rewrite bind_apply.
  set (t := if rc_is_active data then deactivate_recipes menu_id (recipes db)
            else recipes db).
  set (d1 := if rc_is_active data then with_recipes (deactivate_recipes menu_id) db
             else db).
  assert ((if rc_is_active data
           then execute (with_recipes (deactivate_recipes menu_id)) else ret ()) db
          = (Ok tt, d1)) as ->.
  { unfold d1. by destruct (rc_is_active data). }
  assert (recipes d1 = t ∧ menus d1 = menus db) as [Ht Hm].
  { unfold d1, t. by destruct (rc_is_active data). }
  rewrite bind_apply, insert_returning_apply. cbv beta iota. rewrite bind_apply.
  match goal with |- context [insert_recipe_items ?i ?l ?d] =>
    destruct (insert_recipe_items_frame i l d) as (d' & -> & Hm' & Hr') end.
  eexists _, _. split; [reflexivity|]. simpl in *.
  split; [congruence|]. split; [done|]. split.
  { rewrite Ht. unfold t. destruct (rc_is_active data); [|done].
    unfold deactivate_recipes. by rewrite length_fmap. }
  split; [done|]. rewrite Hr', Ht. done.
Qed.

(** Every request but the two that create recipes leaves the recipes
    and the number of menus as they are. *)
Lemma handle_recipes_frame ctx r db :
  (∀ data, r ≠ CreateMenu data) → (∀ id data, r ≠ CreateRecipeForMenu id data) →
  recipes (handle ctx r db) = recipes db
  ∧ length (menus (handle ctx r db)) = length (menus db).
Proof.
  intros Hm Hr.
  set (I := λ d, recipes d = recipes db ∧ length (menus d) = length (menus db)).
  assert (I db) as HI by done.
  destruct r; try (by destruct (Hm data)); try (by destruct (Hr menu_id data)); simpl;
    try done;
    match goal with |- context [(?h db).2] =>
      assert (preserves I h) as Hh; [|exact (Hh db HI)] end;
    unfold_handlers; preserves_auto;
    try (intros ? HJ; exact HJ).
  all: intros d [? ?]; split; simpl; first [done | by rewrite length_alter].
Qed.

Lemma handle_recipe_invariant ctx r db :
  recipe_invariant db → recipe_invariant (handle ctx r db).
Proof.
  intros [Hfk Hone].
  destruct r;
    try (match goal with |- recipe_invariant (handle ctx ?r db) =>
           destruct (handle_recipes_frame ctx r db) as [Hr Hm]; [done|done|] end;
         unfold recipe_invariant, recipes_reference_menus, at_most_one_active,
           active_count in *; rewrite Hr, Hm; done).
  - (* create_menu *)
    simpl. destruct (create_menu_recipes ctx data db) as (r & db' & -> & Hcase). simpl.
    unfold recipe_invariant, recipes_reference_menus, at_most_one_active,
      active_count in *.
    destruct Hcase as [[Hm Hr]|[[m Hm] [Hr|(v & n & Hr)]]]; rewrite Hm, Hr.
    + done.
    + split; [|done]. eapply Forall_impl; [exact Hfk|].
      intros x Hx. rewrite length_app. simpl in *. lia.
    + split.
      * apply Forall_app. split.
        -- eapply Forall_impl; [exact Hfk|]. intros x Hx. rewrite length_app.
           simpl in *. lia.
        -- constructor; [|constructor]. rewrite length_app. simpl. lia.
      * intros m'. rewrite active_count_app. simpl.
        destruct (decide (m' = length (menus db))) as [->|Hne].
        -- rewrite (active_count_unreferenced _ db) by done.
           rewrite filter_cons_True by done. simpl. lia.
        -- rewrite filter_cons_False by (intros [? _]; simpl in *; congruence).
           specialize (Hone m'). unfold active_count. simpl. lia.
  - (* create_recipe_for_menu *)
    simpl. destruct (create_recipe_for_menu_recipes ctx menu_id data db)
      as (r & db' & -> & Hm & Hr). simpl.
    unfold recipe_invariant, recipes_reference_menus, at_most_one_active in *.
    destruct r as [[recipe_id version]|e].
    + destruct Hr as (Hlt & _ & _ & Hr). rewrite Hm. split.
      * rewrite Hr. apply Forall_app. split; [|by repeat constructor].
        destruct (rc_is_active data); [|done].
        unfold deactivate_recipes. apply Forall_fmap.
        eapply Forall_impl; [exact Hfk|]. intros x Hx. simpl. by case_decide.
      * intros m. unfold active_count. rewrite Hr, filter_app, length_app.
        destruct (rc_is_active data) eqn:Hact.
        -- rewrite active_count_deactivate.
           destruct (decide (m = menu_id)) as [->|Hne].
           ++ rewrite filter_cons_True by done. simpl. lia.
           ++ rewrite filter_cons_False by (intros [? _]; simpl in *; congruence).
              specialize (Hone m). unfold active_count in Hone. simpl. lia.
        -- rewrite filter_cons_False by (intros [_ ?]; simpl in *; congruence).
           specialize (Hone m). unfold active_count in Hone. simpl. lia.
    + unfold active_count in *. rewrite Hm, Hr. done.
Qed.

Lemma reachable_recipe_invariant db : reachable db → recipe_invariant db.
Proof.
  induction 1 as [db Hnil|ctx r db _ IH].
  - unfold recipe_invariant, recipes_reference_menus, at_most_one_active, active_count.
    rewrite Hnil. split; [constructor|]. intros m. simpl. lia.
  - by apply handle_recipe_invariant.
Qed.

(** C5.  Recipe versioning.  In every state reached from a database
    without recipes by requests of the system (creating menus and recipe
    versions among them), no menu has more than one active recipe.  And
    when [create_recipe_for_menu] creates an active recipe, it deactivates
    in the same request every recipe the menu had: afterwards the new
    recipe is the only active recipe of the menu. *)
Theorem one_active_recipe_per_menu (db : DB) :
  reachable db →
  (∀ menu_id, active_count menu_id db ≤ 1)
  ∧ (∀ ctx menu_id data recipe_id version db',
       rc_is_active data = true →
       create_recipe_for_menu ctx menu_id data db = (Ok (recipe_id, version), db') →
       (∃ r, recipes db' !! recipe_id = Some r
             ∧ recipe_menu_id r = menu_id ∧ recipe_is_active r = true)
       ∧ (∀ j r, recipes db !! j = Some r → recipe_menu_id r = menu_id →
                 ∃ r', recipes db' !! j = Some r' ∧ recipe_is_active r' = false)
       ∧ (∀ j r, recipes db' !! j = Some r → recipe_menu_id r = menu_id →
                 recipe_is_active r = true → j = recipe_id)).
Proof.
  intros Hreach. split; [apply (reachable_recipe_invariant db Hreach)|].
  intros ctx menu_id data recipe_id version db' Hact Hcall.
  destruct (create_recipe_for_menu_recipes ctx menu_id data db)
    as (r & db1 & Heq & _ & Hr).
  rewrite Hcall in Heq. simplify_eq. destruct Hr as (_ & -> & _ & Hr).
  rewrite Hact in Hr.
  assert (length (deactivate_recipes menu_id (recipes db)) = length (recipes db)) as Hlen.
  { unfold deactivate_recipes. by rewrite length_fmap. }
  split_and!.
  - eexists. rewrite Hr. split.
    + rewrite lookup_app_r by lia. rewrite Hlen, Nat.sub_diag. done.
    + done.
  - intros j r Hj Hmenu. rewrite Hr.
    rewrite lookup_app_l by (rewrite Hlen; by eapply lookup_lt_Some).
    unfold deactivate_recipes. rewrite list_lookup_fmap, Hj. simpl.
    rewrite decide_True by done. by eexists.
  - intros j r Hj Hmenu Hactive. rewrite Hr in Hj.
    destruct (decide (j < length (recipes db))) as [Hlt|Hge].
    + rewrite lookup_app_l in Hj by lia.
      unfold deactivate_recipes in Hj. rewrite list_lookup_fmap in Hj.
      destruct (recipes db !! j) as [r0|]; [|done]. simpl in Hj.
      injection Hj as <-. case_decide; simpl in *; congruence.
    + apply lookup_lt_Some in Hj. rewrite length_app, Hlen in Hj. simpl in Hj. lia.
Qed.

Lemma one_active_recipe_per_menu_witness :
  active_count 0 with_bread ≤ 1
  ∧ ∃ db', create_recipe_for_menu sample_ctx 0 lighter_bread with_bread
           = (Ok (1, 2%Z), db')
           ∧ ∀ j r, recipes db' !! j = Some r → recipe_menu_id r = 0 →
                    recipe_is_active r = true → j = 1.
Proof.
  assert (reachable with_bread) as Hreach.
  { apply reachable_step, reachable_initial. reflexivity. }
  destruct (one_active_recipe_per_menu with_bread Hreach) as [Hone Hnew].
  split; [apply Hone|]. eexists. split; [vm_compute; reflexivity|].
  eapply (Hnew sample_ctx 0 lighter_bread 1 2%Z); [reflexivity|].
  vm_compute. reflexivity.
Defined.

(** ** Approving stock requests *)

Lemma select_request_item_lookup item_id request_id db item :
  select_request_item item_id request_id db = Some item →
  stock_request_items db !! item_id = Some item
  ∧ sri_stock_request_id item = request_id.
Proof.
  unfold select_request_item.
  destruct (stock_request_items db !! item_id) as [it|]; [|done].
  case_decide; [|done]. by intros [= ->].
Qed.

Lemma select_request_item_alter item_id request_id j q db :
  select_request_item item_id request_id
    (with_stock_request_items (alter (set_approved_qty q) j) db)
  = (λ it, if decide (j = item_id) then set_approved_qty q it else it)
    <$> select_request_item item_id request_id db.
Proof.
  unfold select_request_item. simpl. rewrite list_lookup_alter.
  destruct (decide (j = item_id)) as [->|Hne].
  - destruct (stock_request_items db !! item_id) as [it|]; simpl; [|done].
    by case_decide.
  - destruct (stock_request_items db !! item_id) as [it|]; simpl; [|done].
    by case_decide.
Qed.

Lemma same_request_items_refl db : same_request_items db db.
Proof. by intros i. Qed.

Lemma same_request_items_trans db1 db2 db3 :
  same_request_items db1 db2 → same_request_items db2 db3 →
  same_request_items db1 db3.
Proof. intros H12 H23 i. by rewrite H23, H12. Qed.

Lemma same_request_items_alter q j db :
  same_request_items db (with_stock_request_items (alter (set_approved_qty q) j) db).
Proof.
  intros i. simpl. rewrite list_lookup_alter.
  destruct (decide (j = i)) as [->|Hne]; [|done].
  by destruct (stock_request_items db !! i).
Qed.

(** The loop of [approve_stock_request]: it never raises, touches
    nothing but the approved quantities, and leaves at each item the
    value computed from the last line that names it. *)
Lemma approve_lines_spec request_id central_id lines db :
  ∃ db', for_each lines (approve_line request_id central_id) db = (Ok tt, db')
    ∧ inventory_stock db' = inventory_stock db
    ∧ stock_requests db' = stock_requests db
    ∧ same_request_items db db'
    ∧ ∀ item_id item,
        select_request_item item_id request_id db = Some item →
        match last (filter (λ l, asr_item_id l = item_id) lines) with
        | Some line =>
            ∃ item', stock_request_items db' !! item_id = Some item'
              ∧ approved_qty item'
                = Z.min (asr_approved_qty line)
                        (Z.min (requested_qty item)
                               (stock_level central_id (sri_ingredient_id item) db))
        | None => stock_request_items db' !! item_id = Some item
        end.
Proof.
  revert db. unfold for_each. induction lines as [|l lines IH]; intros db.
  - simpl. eexists. split; [done|]. split; [done|]. split; [done|].
    split; [apply same_request_items_refl|].
    intros item_id item Hsel. by apply select_request_item_lookup in Hsel as [? _].
  - cbn [for_acc]. rewrite bind_apply. unfold approve_line at 1.
    rewrite bind_apply. unfold query at 1.
    destruct (select_request_item (asr_item_id l) request_id db) as [it|] eqn:Hit.
    + rewrite bind_apply. unfold query at 1. cbv beta iota. unfold execute at 1.
      set (v := Z.min (asr_approved_qty l) _).
      set (db1 := with_stock_request_items _ db).
      destruct (IH db1) as (db' & -> & Hstock & Hreq & Hsame & Hitems).
      exists db'. split; [done|]. split; [done|]. split; [done|].
      split; [eapply same_request_items_trans;
                [apply same_request_items_alter|exact Hsame]|].
      intros item_id item Hsel. rewrite filter_cons.
      assert (v = Z.min (asr_approved_qty l)
                    (Z.min (requested_qty it)
                           (stock_level central_id (sri_ingredient_id it) db))) as Hv.
      { unfold v, stock_level. by destruct (find_stock _ _ db) as [[? ?]|]. }
      assert (select_request_item item_id request_id db1
              = Some (if decide (asr_item_id l = item_id)
                      then set_approved_qty v item else item)) as Hsel1.
      { unfold db1. rewrite select_request_item_alter, Hsel. done. }
      specialize (Hitems item_id _ Hsel1).
      destruct (decide (asr_item_id l = item_id)) as [Heq|Hne].
      * rewrite Heq in Hit. rewrite Hit in Hsel. injection Hsel as ->.
        rewrite last_cons.
        destruct (last (filter _ lines)) as [line|].
        -- exact Hitems.
        -- eexists. split; [exact Hitems|]. simpl. exact Hv.
      * exact Hitems.
    + unfold ret at 1. cbv beta iota.
      destruct (IH db) as (db' & -> & Hstock & Hreq & Hsame & Hitems).
      exists db'. split; [done|]. split; [done|]. split; [done|]. split; [done|].
      intros item_id item Hsel. rewrite filter_cons_False; [by apply Hitems|].
      intros Heq. rewrite Heq in Hit. congruence.
Qed.

(** C6.  Approval bound.  An approval of a PENDING request succeeds, and
    for every line item of the request that the payload names, the
    [approved_qty] stored afterwards is the minimum of the quantity the
    caller supplied for it and of min(requested_qty, quantity on hand of
    that ingredient at the central outlet, zero without a stock row); so it
    is at most min(requested_qty, central quantity on hand). *)
Theorem approved_qty_is_clamped (ctx : Context) (request_id : nat)
    (data : ApproveStockRequest) (db : DB) (request : StockRequest) :
  select_in_org sr_organization_id (organization_id ctx) request_id (stock_requests db)
  = Some request →
  sr_status request = SR_PENDING →
  ∃ db', approve_stock_request ctx request_id data db = (Ok tt, db') ∧
    ∀ item_id item line,
      select_request_item item_id request_id db = Some item →
      approval_line_for item_id data = Some line →
      ∃ item', stock_request_items db' !! item_id = Some item'
        ∧ approved_qty item'
          = Z.min (asr_approved_qty line)
                  (Z.min (requested_qty item)
                         (stock_level (sr_to_outlet_id request)
                                      (sri_ingredient_id item) db))
        ∧ (approved_qty item'
           ≤ Z.min (requested_qty item)
                   (stock_level (sr_to_outlet_id request) (sri_ingredient_id item) db))%Z.
Proof.
  intros Hfound Hpending.
  unfold approve_stock_request, session, approve_stock_request_body.
  rewrite bind_apply. unfold query at 1. rewrite Hfound.
  rewrite decide_False by (rewrite Hpending; intros H; by apply H).
  rewrite bind_apply.
  destruct (approve_lines_spec request_id (sr_to_outlet_id request) (asr_items data) db)
    as (db1 & -> & _ & _ & _ & Hitems).
  eexists. split; [reflexivity|].
  intros item_id item line Hsel Hline. specialize (Hitems item_id item Hsel).
  unfold approval_line_for in Hline. rewrite Hline in Hitems.
  destruct Hitems as (item' & Hlookup & Happroved).
  exists item'. simpl. split; [exact Hlookup|]. split; [exact Happroved|].
  rewrite Happroved. lia.
Qed.

Lemma approved_qty_is_clamped_witness :
  ∃ db' item',
    approve_stock_request sample_ctx 0
      {| asr_items := [ {| asr_item_id := 0; asr_approved_qty := 100000 |} ] |} sample_db
    = (Ok tt, db')
    ∧ stock_request_items db' !! 0 = Some item'
    ∧ approved_qty item' = 30000%Z.
Proof.
  destruct (approved_qty_is_clamped sample_ctx 0
              {| asr_items := [ {| asr_item_id := 0; asr_approved_qty := 100000 |} ] |}
              sample_db _ eq_refl eq_refl) as (db' & Hcall & Hitems).
  destruct (Hitems 0 _ _ eq_refl eq_refl) as (item' & Hlookup & Happroved & _).
  exists db', item'. split; [exact Hcall|]. split; [exact Hlookup|].
  rewrite Happroved. reflexivity.
Defined.

(** ** Lines silently skipped *)





Lemma receive_po_lines_return ctx po_id outlet_id lines db :
  ∃ db', for_each lines (receive_po_line ctx po_id outlet_id) db = (Ok tt, db')
         ∧ purchase_orders db' = purchase_orders db.
Proof.
  revert db. unfold for_each. induction lines as [|l lines IH]; intros db.
  - by eexists.
  - cbn [for_acc]. rewrite bind_apply. unfold receive_po_line at 1.
    rewrite bind_apply. unfold query at 1.
    destruct (select_po_item _ _ db) as [item|].
    + tx_simpl. destruct (find_stock _ _ _) as [[id s]|]; simpl.
      * match goal with |- context [for_acc lines _ _ ?d] =>
          destruct (IH d) as (db' & -> & Hpo) end. by eexists.
      * match goal with |- context [for_acc lines _ _ ?d] =>
          destruct (IH d) as (db' & -> & Hpo) end. by eexists.
    + unfold ret at 1. cbv beta iota. apply IH.
Qed.





(** ** Receiving a purchase order *)

Lemma find_stock_ext o i db db' :
  inventory_stock db = inventory_stock db' → find_stock o i db = find_stock o i db'.
Proof. unfold find_stock. by intros ->. Qed.

Lemma stock_level_ext o i db db' :
  inventory_stock db = inventory_stock db' → stock_level o i db = stock_level o i db'.
Proof. unfold stock_level. intros H. by rewrite (find_stock_ext _ _ _ _ H). Qed.



(** ** Shipping a transfer *)

(** The loop of [ship_stock_transfer] raises at the latest at an item
    that asks for more than the outlet held when the request started,
    provided no earlier item of the same ingredient has a negative
    quantity. *)
Lemma ship_items_raise ctx transfer_id from_outlet_id db0 before it after db :
  Forall (λ it', sti_ingredient_id it' = sti_ingredient_id it → 0 ≤ sti_qty it')%Z
         before →
  (stock_level from_outlet_id (sti_ingredient_id it) db
   ≤ stock_level from_outlet_id (sti_ingredient_id it) db0)%Z →
  (stock_level from_outlet_id (sti_ingredient_id it) db0 < sti_qty it)%Z →
  ∃ i db', for_each (before ++ it :: after) (ship_item ctx transfer_id from_outlet_id) db
           = (Raise (InsufficientStockOf i), db').
Proof.
  revert db. unfold for_each.
  induction before as [|b before IH]; intros db Hpos Hle Hshort.
  - cbn [app for_acc]. rewrite bind_apply.
    unfold ship_item at 1. rewrite bind_apply. unfold query at 1.
    destruct (find_stock from_outlet_id (sti_ingredient_id it) db)
      as [[stock_id s]|] eqn:Hfind; [|by eexists _, _].
    case_decide as Hlt; [by eexists _, _|].
    unfold stock_level in Hle at 1. rewrite Hfind in Hle. lia.
  - apply Forall_cons in Hpos as [Hb Hpos]. cbn [app for_acc]. rewrite bind_apply.
    unfold ship_item at 1. rewrite bind_apply. unfold query at 1.
    destruct (find_stock from_outlet_id (sti_ingredient_id b) db)
      as [[stock_id s]|] eqn:Hfind; [|by eexists _, _].
    case_decide as Hlt; [by eexists _, _|].
    tx_simpl. apply IH; [done| |done].
    erewrite (stock_level_ext _ _ _
                (with_inventory_stock (alter _ stock_id) db)); [|reflexivity].
    rewrite (stock_level_alter _ _ _ _ stock_id s) by done.
    case_decide as Hi; [|done]. destruct Hi as [_ Hi]. simpl.
    assert (stock_level from_outlet_id (sti_ingredient_id it) db = qty_on_hand s) as Hs.
    { rewrite Hi. unfold stock_level. by rewrite Hfind. }
    specialize (Hb (eq_sym Hi)). lia.
Qed.

(** C8 (as amended).  A transfer in status DRAFT with an item that asks
    for more than the source outlet has on hand, no earlier item of the
    same ingredient having a negative quantity: [ship_stock_transfer]
    raises InsufficientStock and leaves the database as it was -- the
    transfer is still DRAFT and no ledger entry or stock change of the call
    persists, also when earlier items of the transfer were already deducted
    in the working copy.  And from a status other than DRAFT shipping is
    refused. *)
Theorem ship_short_of_stock_rolls_back (ctx : Context) (transfer_id : nat) (db : DB)
    (transfer : StockTransfer) :
  select_in_org st_organization_id (organization_id ctx) transfer_id (stock_transfers db)
  = Some transfer →
  (st_status transfer = ST_DRAFT →
   ∀ before it after,
     items_of_transfer transfer_id db = before ++ it :: after →
     Forall (λ it', sti_ingredient_id it' = sti_ingredient_id it → 0 ≤ sti_qty it')%Z
            before →
     (stock_level (st_from_outlet_id transfer) (sti_ingredient_id it) db < sti_qty it)%Z →
     ∃ i, ship_stock_transfer ctx transfer_id db = (Raise (InsufficientStockOf i), db))
  ∧ (st_status transfer ≠ ST_DRAFT →
     ship_stock_transfer ctx transfer_id db
     = (Raise (CannotShipTransfer (st_status transfer)), db)).
Proof.
  intros Hfound. split.
  - intros Hdraft before it after Hitems Hpos Hshort.
    unfold ship_stock_transfer, session, ship_stock_transfer_body.
    rewrite bind_apply. unfold query at 1. rewrite Hfound.
    rewrite decide_False by (rewrite Hdraft; intros H; by apply H).
    rewrite bind_apply. unfold query at 1. rewrite bind_apply. rewrite Hitems.
    destruct (ship_items_raise ctx transfer_id (st_from_outlet_id transfer) db
                before it after db Hpos) as (i & db' & ->); [done|done|].
    by exists i.
  - intros Hstatus.
    unfold ship_stock_transfer, session, ship_stock_transfer_body.
    rewrite bind_apply. unfold query at 1. rewrite Hfound.
    by rewrite decide_True.
Qed.

Lemma ship_short_of_stock_rolls_back_witness :
  ∃ i, ship_stock_transfer sample_ctx 0 second_item_short
       = (Raise (InsufficientStockOf i), second_item_short).
Proof.
  destruct (ship_short_of_stock_rolls_back sample_ctx 0 second_item_short _ eq_refl)
    as [H _].
  apply (H eq_refl [sugar 10000] (sugar 50000) []).
  - reflexivity.
  - repeat constructor. intros _. vm_compute. discriminate.
  - vm_compute. reflexivity.
Defined.

(** The rollback is what undoes the first item: when the body raises on
    the second item, its working copy already holds the ledger entry of
    the first. *)
Lemma ship_raises_after_writing :
  ∃ db', ship_stock_transfer_body sample_ctx 0 second_item_short
         = (Raise (InsufficientStockOf 1), db')
         ∧ length (inventory_ledger db') = S (length (inventory_ledger second_item_short))
         ∧ stock_level 0 1 db' = 20000%Z.
Proof. eexists. split; [vm_compute; reflexivity|]. split; reflexivity. Qed.

(** The claim as stated fails on quantities below zero.  The transfer
    created by this request is DRAFT and its second item asks for 5 kg of
    sugar where the central kitchen has 3, yet the transfer is shipped, the
    first item having added 10 kg: the central kitchen ends with 8 kg. *)
Lemma ship_succeeds_after_negative_item :
  ∃ id number db,
    create_stock_transfer sample_ctx negative_item_first sample_db = (Ok (id, number), db)
    ∧ st_status <$> stock_transfers db !! id = Some ST_DRAFT
    ∧ Exists (λ it, stock_level 0 (sti_ingredient_id it) db < sti_qty it)%Z
             (items_of_transfer id db)
    ∧ ∃ db', ship_stock_transfer sample_ctx id db = (Ok tt, db')
             ∧ st_status <$> stock_transfers db' !! id = Some ST_SHIPPED
             ∧ stock_level 0 1 db' = 80000%Z.
Proof.
  eexists _, _, _. split; [vm_compute; reflexivity|].
  split; [reflexivity|]. split.
  - apply Exists_cons_tl, Exists_cons_hd. vm_compute. reflexivity.
  - eexists. split; [vm_compute; reflexivity|]. split; reflexivity.
Qed.

(** ** Unit conversion *)

Lemma select_multiplier_spec from_unit_id to_unit_id ingredient_id unit_conversions :
  match select_multiplier from_unit_id to_unit_id ingredient_id unit_conversions with
  | Some r => multiplier_row from_unit_id to_unit_id ingredient_id unit_conversions r
              ∧ preferred from_unit_id to_unit_id ingredient_id unit_conversions r
  | None => ∀ r, ¬ multiplier_row from_unit_id to_unit_id ingredient_id unit_conversions r
  end.
Proof.
  unfold select_multiplier.
  set (rows := filter _ unit_conversions).
  assert (∀ r, r ∈ rows ↔ r ∈ unit_conversions
                          ∧ uc_from_unit_id r = from_unit_id
                          ∧ uc_to_unit_id r = to_unit_id) as Hrows.
  { intros r. unfold rows. rewrite list_elem_of_filter. tauto. }
  assert (match snd <$> list_find (λ r, uc_ingredient_id r = None) rows with
          | Some r => r ∈ rows ∧ uc_ingredient_id r = None
          | None => ∀ r, r ∈ rows → uc_ingredient_id r ≠ None
          end) as Hglobal.
  { destruct (list_find _ rows) as [[j r]|] eqn:E; simpl.
    - apply list_find_Some in E as (Hl & Hr & _). split; [|done].
      by eapply list_elem_of_lookup_2.
    - apply list_find_None in E. rewrite Forall_forall in E. exact E. }
  destruct ingredient_id as [i|].
  - destruct (list_find (λ r, uc_ingredient_id r = Some i) rows) as [[j r]|] eqn:E.
    + apply list_find_Some in E as (Hl & Hr & _).
      apply list_elem_of_lookup_2 in Hl. apply Hrows in Hl as (? & ? & ?).
      split; [|by intros i' r' [= <-] _ _].
      split_and!; [done..|]. right. by exists i.
    + apply list_find_None in E. rewrite Forall_forall in E.
      destruct (snd <$> list_find _ rows) as [r|].
      * destruct Hglobal as [Hin Hnone]. apply Hrows in Hin as (? & ? & ?).
        split; [split_and!; [done..|by left]|].
        intros i' r' [= <-] (Hin' & ? & ? & _) Hi'.
        destruct (E r'); [by apply Hrows|done].
      * intros r (Hin & ? & ? & [Hnone|(i' & [= <-] & Hsome)]).
        -- by destruct (Hglobal r); [apply Hrows|].
        -- by destruct (E r); [apply Hrows|].
  - destruct (snd <$> list_find _ rows) as [r|].
    + destruct Hglobal as [Hin Hnone]. apply Hrows in Hin as (? & ? & ?).
      split; [split_and!; [done..|by left]|]. by intros i r' [=].
    + intros r (Hin & ? & ? & [Hnone|(i' & [=] & _)]).
      by destruct (Hglobal r); [apply Hrows|].
Qed.

(** C9 at its failing input.  The table holds a row from kilogram
    (unit 0) to gram (unit 1) with the multiplier 1000, and no row from
    gram to kilogram.  For 500 grams to kilograms the claim gives
    500 * (1 / 1000), through the row of the inverse pair.  The reverse
    query of [convert_unit] names the columns in exchanged order and is run
    with the two values exchanged as well, so it asks for the pair of the
    request a second time, finds nothing, and the call ends in
    ConversionNotFound. *)
Theorem inverse_conversion_is_not_found :
  (∃ r, multiplier_row 0 1 None sample_conversions r ∧ ¬ multiplier r == 0)
  ∧ (∀ r, ¬ multiplier_row 1 0 None sample_conversions r)
  ∧ convert_unit 1 0 500 None sample_conversions = Raise ConversionNotFound.
Proof.
  split_and!.
  - eexists. split.
    + split; [apply list_elem_of_here|]. split; [reflexivity|]. split; [reflexivity|].
      by left.
    + intros H. vm_compute in H. discriminate.
  - intros r (Hin & Hfrom & _).
    repeat (apply elem_of_cons in Hin as [->|Hin]); try discriminate.
    by apply elem_of_nil in Hin.
  - reflexivity.
Qed.

(** ** The scenarios of the specification, run on the sample database *)

(** Selling two loaves needs 4 kg of flour: the order is created for
    40.00, the shop is left with 1 kg, the ledger records -4 kg as a SALE
    and the item keeps a cost of 4.00 per loaf. *)
Example scenario_sale_of_two :
  ∃ db', create_sales_order sample_ctx (sale_at_shop [bread 2]) sample_db
         = (Ok (0, {| number_prefix := "SHOP"; number_day := 20240101;
                      number_sequence := 1 |}, 4000%Z), db')
         ∧ stock_level 1 0 db' = 10000%Z
         ∧ (change_qty <$> last (inventory_ledger db')) = Some (-40000)%Z
         ∧ (source_type <$> last (inventory_ledger db')) = Some SALE
         ∧ (total_item_amount <$> sales_order_items db' !! 0) = Some 4000%Z
         ∧ (∃ item, sales_order_items db' !! 0 = Some item
                    ∧ hpp_at_that_time item == 4000000).
Proof.
  eexists. split; [vm_compute; reflexivity|].
  repeat split; try reflexivity. eexists. split; reflexivity.
Qed.

(** Selling three loaves needs 6 kg where 5 are on hand: the order is
    refused and nothing is written. *)
Example scenario_sale_of_three :
  create_sales_order sample_ctx (sale_at_shop [bread 3]) sample_db
  = (Raise (InsufficientStockNamed "Flour"), sample_db).
Proof. vm_compute. reflexivity. Qed.

(** A purchase order of 10 kg of flour at 3.00 is approved, then
    received in full. *)
Example scenario_purchase_order :
  let draft := with_purchase_orders (alter (set_po_status PO_DRAFT) 0) sample_db in
  ∃ ordered received,
    approve_purchase_order sample_ctx 0 draft = (Ok tt, ordered)
    ∧ receive_purchase_order sample_ctx 0 receive_all ordered = (Ok tt, received)
    ∧ stock_level 0 0 received = (stock_level 0 0 draft + 100000)%Z
    ∧ (last_cost ∘ snd <$> find_stock 0 0 received) = Some (Some 300%Z)
    ∧ (change_qty <$> last (inventory_ledger received)) = Some 100000%Z
    ∧ (source_type <$> last (inventory_ledger received)) = Some PURCHASE
    ∧ (po_status <$> purchase_orders received !! 0) = Some PO_RECEIVED.
Proof.
  eexists _, _. split; [vm_compute; reflexivity|].
  split; [vm_compute; reflexivity|]. repeat split; reflexivity.
Qed.

(** A DRAFT transfer of 5 kg of sugar out of a kitchen that holds 3 kg
    is refused; it stays DRAFT and nothing is posted. *)
Example scenario_transfer_short_of_stock :
  ship_stock_transfer sample_ctx 0 sample_db = (Raise (InsufficientStockOf 1), sample_db).
Proof. vm_compute. reflexivity. Qed.

Lemma select_in_org_Some {A} (org_of : A → nat) (org id : nat) (t : list A) (r : A) :
  select_in_org org_of org id t = Some r ↔ t !! id = Some r ∧ org_of r = org.
Proof.
  unfold select_in_org. destruct (t !! id) as [x|].
  - case_decide as Ho; split.
    + by intros [= ->].
    + by intros [[= ->] _].
    + done.
    + intros [[= ->] Hr]. by destruct Ho.
  - split; [done|]. by intros [? _].
Qed.

(** A transaction that keeps a table as it is. *)
Lemma preserves_table {A T} (table : DB → T) (m : tx A) (db : DB) :
  preserves (λ db', table db' = table db) m → table (m db).2 = table db.
Proof. intros Hm. by apply Hm. Qed.

Ltac frame_tac :=
  solve [ apply preserves_table; unfold_handlers; preserves_auto;
          intros ? HI; exact HI ].

Lemma approve_purchase_order_row ctx po_id db id po :
  purchase_orders db !! id = Some po →
  ∃ po', purchase_orders (approve_purchase_order ctx po_id db).2 !! id = Some po'
         ∧ po_step (organization_id ctx) po po'.
Proof.
  intros Hrow. unfold approve_purchase_order, session, approve_purchase_order_body.
  rewrite bind_apply. unfold query at 1.
  destruct (select_in_org _ _ _ _) as [p|] eqn:Hsel; simpl; [|exists po; by split; [|left]].
  case_decide as Hst; simpl; [exists po; by split; [|left]|].
  apply select_in_org_Some in Hsel as [Hp Horg].
  rewrite list_lookup_alter. destruct (decide (po_id = id)) as [->|Hne].
  - rewrite Hrow in Hp. injection Hp as <-. rewrite Hrow. eexists. split; [done|].
    right. split; [done|]. left. split; [|done].
    by destruct (decide (po_status po = PO_DRAFT)).
  - exists po. by split; [|left].
Qed.

Lemma receive_purchase_order_row ctx po_id data db id po :
  purchase_orders db !! id = Some po →
  ∃ po', purchase_orders (receive_purchase_order ctx po_id data db).2 !! id = Some po'
         ∧ po_step (organization_id ctx) po po'.
Proof.
  intros Hrow. unfold receive_purchase_order, session, receive_purchase_order_body.
  rewrite bind_apply. unfold query at 1.
  destruct (select_in_org _ _ _ _) as [p|] eqn:Hsel; simpl; [|exists po; by split; [|left]].
  case_decide as Hst; simpl; [|exists po; by split; [|left]].
  apply select_in_org_Some in Hsel as [Hp Horg].
  rewrite bind_apply.
  destruct (receive_po_lines_return ctx po_id (po_outlet_id p) (rpo_items data) db)
    as (db' & -> & Hsame).
  unfold execute. simpl. rewrite Hsame, list_lookup_alter.
  destruct (decide (po_id = id)) as [->|Hne].
  - rewrite Hrow in Hp. injection Hp as <-. rewrite Hrow. eexists. split; [done|].
    right. split; [done|]. right. left. split; [done|]. by eexists _, _.
  - exists po. by split; [|left].
Qed.

Lemma cancel_purchase_order_row ctx po_id db id po :
  purchase_orders db !! id = Some po →
  ∃ po', purchase_orders (cancel_purchase_order ctx po_id db).2 !! id = Some po'
         ∧ po_step (organization_id ctx) po po'.
Proof.
  intros Hrow. unfold cancel_purchase_order, session, cancel_purchase_order_body.
  rewrite bind_apply. unfold query at 1.
  destruct (select_in_org _ _ _ _) as [p|] eqn:Hsel; simpl; [|exists po; by split; [|left]].
  case_decide as Hst; simpl; [exists po; by split; [|left]|].
  apply select_in_org_Some in Hsel as [Hp Horg].
  rewrite list_lookup_alter. destruct (decide (po_id = id)) as [->|Hne].
  - rewrite Hrow in Hp. injection Hp as <-. rewrite Hrow. eexists. split; [done|].
    right. split; [done|]. right. right. by split.
  - exists po. by split; [|left].
Qed.

Lemma create_purchase_order_rows ctx data db :
  purchase_orders db `prefix_of` purchase_orders (create_purchase_order ctx data db).2.
Proof.
  assert (preserves (grows purchase_orders db) (create_purchase_order ctx data)) as H;
    [|apply (H db); unfold grows; reflexivity].
  unfold_handlers; preserves_auto; try (intros ? HI; exact HI).
  intros db' HI. unfold grows in *. simpl. by apply prefix_app_r.
Qed.

Lemma handle_purchase_order_row ctx r db id po :
  purchase_orders db !! id = Some po →
  ∃ po', purchase_orders (handle ctx r db) !! id = Some po'
         ∧ po_step (organization_id ctx) po po'.
Proof.
  intros Hrow.
  destruct r; simpl;
    try (exists po; split; [|by left];
         match goal with |- purchase_orders ?d !! _ = _ =>
           replace (purchase_orders d) with (purchase_orders db); [done|] end;
         symmetry; first [reflexivity | frame_tac]).
  - exists po. split; [|by left].
    eapply prefix_lookup_Some; [done|apply create_purchase_order_rows].
  - by apply approve_purchase_order_row.
  - by apply receive_purchase_order_row.
  - by apply cancel_purchase_order_row.
Qed.

(** *** Stock transfers *)

Lemma ship_stock_transfer_row ctx transfer_id db id t :
  stock_transfers db !! id = Some t →
  ∃ t', stock_transfers (ship_stock_transfer ctx transfer_id db).2 !! id = Some t'
        ∧ transfer_step (organization_id ctx) t t'.
Proof.
  intros Hrow. unfold ship_stock_transfer, session, ship_stock_transfer_body.
  rewrite bind_apply. unfold query at 1.
  destruct (select_in_org _ _ _ _) as [p|] eqn:Hsel; simpl; [|exists t; by split; [|left]].
  case_decide as Hst; simpl; [exists t; by split; [|left]|].
  apply select_in_org_Some in Hsel as [Hp Horg].
  rewrite bind_apply. unfold query at 1. rewrite bind_apply.
  match goal with |- context [for_each ?l ?b db] =>
    assert (stock_transfers (for_each l b db).2 = stock_transfers db) as Hsame
      by frame_tac;
    destruct (for_each l b db) as [[[]|e] db'] end; simpl in *;
    [|exists t; by split; [|left]].
  rewrite Hsame, list_lookup_alter. destruct (decide (transfer_id = id)) as [->|Hne].
  - rewrite Hrow in Hp. injection Hp as <-. rewrite Hrow. eexists. split; [done|].
    right. split; [done|]. left. split; [|done].
    by destruct (decide (st_status t = ST_DRAFT)).
  - exists t. by split; [|left].
Qed.

Lemma receive_stock_transfer_row ctx transfer_id db id t :
  stock_transfers db !! id = Some t →
  ∃ t', stock_transfers (receive_stock_transfer ctx transfer_id db).2 !! id = Some t'
        ∧ transfer_step (organization_id ctx) t t'.
Proof.
  intros Hrow. unfold receive_stock_transfer, session, receive_stock_transfer_body.
  rewrite bind_apply. unfold query at 1.
  destruct (select_in_org _ _ _ _) as [p|] eqn:Hsel; simpl; [|exists t; by split; [|left]].
  case_decide as Hst; simpl; [exists t; by split; [|left]|].
  apply select_in_org_Some in Hsel as [Hp Horg].
  rewrite bind_apply. unfold query at 1. rewrite bind_apply.
  match goal with |- context [for_each ?l ?b db] =>
    assert (stock_transfers (for_each l b db).2 = stock_transfers db) as Hsame
      by frame_tac;
    destruct (for_each l b db) as [[[]|e] db'] end; simpl in *;
    [|exists t; by split; [|left]].
  rewrite bind_apply. unfold execute at 1.
  assert (∀ d, stock_transfers
                 ((match st_stock_request_id p with
                   | Some request_id =>
                       execute (with_stock_requests
                                  (alter (set_sr_status SR_FULFILLED None) request_id))
                   | None => ret tt
                   end) d).2 = stock_transfers d) as Hlink
    by (intros d; by destruct (st_stock_request_id p)).
  match goal with |- context [(match ?m ?d with _ => _ end).2] =>
    specialize (Hlink d); destruct (m d) as [[[]|e] d'] end;
    simpl in *; [|exists t; by split; [|left]].
  rewrite Hlink, Hsame, list_lookup_alter.
  destruct (decide (transfer_id = id)) as [->|Hne].
  - rewrite Hrow in Hp. injection Hp as <-. rewrite Hrow. eexists. split; [done|].
    right. split; [done|]. right. left. split; [|by eexists].
    by destruct (decide (st_status t = ST_SHIPPED)).
  - exists t. by split; [|left].
Qed.

Lemma cancel_stock_transfer_row ctx transfer_id db id t :
  stock_transfers db !! id = Some t →
  ∃ t', stock_transfers (cancel_stock_transfer ctx transfer_id db).2 !! id = Some t'
        ∧ transfer_step (organization_id ctx) t t'.
Proof.
  intros Hrow. unfold cancel_stock_transfer, session, cancel_stock_transfer_body.
  rewrite bind_apply. unfold query at 1.
  destruct (select_in_org _ _ _ _) as [p|] eqn:Hsel; simpl; [|exists t; by split; [|left]].
  case_decide as Hst; simpl; [exists t; by split; [|left]|].
  case_decide as Hst'; simpl; [exists t; by split; [|left]|].
  apply select_in_org_Some in Hsel as [Hp Horg].
  rewrite list_lookup_alter. destruct (decide (transfer_id = id)) as [->|Hne].
  - rewrite Hrow in Hp. injection Hp as <-. rewrite Hrow. eexists. split; [done|].
    right. split; [done|]. right. right. by split_and!.
  - exists t. by split; [|left].
Qed.

Lemma create_stock_transfer_rows ctx data db :
  stock_transfers db `prefix_of` stock_transfers (create_stock_transfer ctx data db).2.
Proof.
  assert (preserves (grows stock_transfers db) (create_stock_transfer ctx data)) as H;
    [|apply (H db); unfold grows; reflexivity].
  unfold_handlers; preserves_auto; try (intros ? HI; exact HI).
  intros db' HI. unfold grows in *. simpl. by apply prefix_app_r.
Qed.

Lemma handle_stock_transfer_row ctx r db id t :
  stock_transfers db !! id = Some t →
  ∃ t', stock_transfers (handle ctx r db) !! id = Some t'
        ∧ transfer_step (organization_id ctx) t t'.
Proof.
  intros Hrow.
  destruct r; simpl;
    try (exists t; split; [|by left];
         match goal with |- stock_transfers ?d !! _ = _ =>
           replace (stock_transfers d) with (stock_transfers db); [done|] end;
         symmetry; first [reflexivity | frame_tac]).
  - exists t. split; [|by left].
    eapply prefix_lookup_Some; [done|apply create_stock_transfer_rows].
  - by apply ship_stock_transfer_row.
  - by apply receive_stock_transfer_row.
  - by apply cancel_stock_transfer_row.
Qed.

(** *** Stock requests *)

Lemma approve_stock_request_row ctx request_id data db id r :
  stock_requests db !! id = Some r →
  ∃ r', stock_requests (approve_stock_request ctx request_id data db).2 !! id = Some r'
        ∧ request_step (organization_id ctx) r r'.
Proof.
  intros Hrow. unfold approve_stock_request, session, approve_stock_request_body.
  rewrite bind_apply. unfold query at 1.
  destruct (select_in_org _ _ _ _) as [p|] eqn:Hsel; simpl; [|exists r; by split; [|left]].
  case_decide as Hst; simpl; [exists r; by split; [|left]|].
  apply select_in_org_Some in Hsel as [Hp Horg].
  rewrite bind_apply.
  match goal with |- context [for_each ?l ?b db] =>
    assert (stock_requests (for_each l b db).2 = stock_requests db) as Hsame
      by frame_tac;
    destruct (for_each l b db) as [[[]|e] db'] end; simpl in *;
    [|exists r; by split; [|left]].
  rewrite Hsame, list_lookup_alter. destruct (decide (request_id = id)) as [->|Hne].
  - rewrite Hrow in Hp. injection Hp as <-. rewrite Hrow. eexists. split; [done|].
    right. right. split; [done|]. left. split.
    + by destruct (decide (sr_status r = SR_PENDING)).
    + eexists. by left.
  - exists r. by split; [|left].
Qed.

Lemma reject_stock_request_row ctx request_id db id r :
  stock_requests db !! id = Some r →
  ∃ r', stock_requests (reject_stock_request ctx request_id db).2 !! id = Some r'
        ∧ request_step (organization_id ctx) r r'.
Proof.
  intros Hrow. unfold reject_stock_request, session, reject_stock_request_body.
  rewrite bind_apply. unfold query at 1.
  destruct (select_in_org _ _ _ _) as [p|] eqn:Hsel; simpl; [|exists r; by split; [|left]].
  case_decide as Hst; simpl; [exists r; by split; [|left]|].
  apply select_in_org_Some in Hsel as [Hp Horg].
  rewrite list_lookup_alter. destruct (decide (request_id = id)) as [->|Hne].
  - rewrite Hrow in Hp. injection Hp as <-. rewrite Hrow. eexists. split; [done|].
    right. right. split; [done|]. left. split.
    + by destruct (decide (sr_status r = SR_PENDING)).
    + eexists. by right.
  - exists r. by split; [|left].
Qed.

Lemma cancel_stock_request_row ctx request_id db id r :
  stock_requests db !! id = Some r →
  ∃ r', stock_requests (cancel_stock_request ctx request_id db).2 !! id = Some r'
        ∧ request_step (organization_id ctx) r r'.
Proof.
  intros Hrow. unfold cancel_stock_request, session, cancel_stock_request_body.
  rewrite bind_apply. unfold query at 1.
  destruct (select_in_org _ _ _ _) as [p|] eqn:Hsel; simpl; [|exists r; by split; [|left]].
  case_decide as Hst; simpl; [|exists r; by split; [|left]].
  apply select_in_org_Some in Hsel as [Hp Horg].
  rewrite list_lookup_alter. destruct (decide (request_id = id)) as [->|Hne].
  - rewrite Hrow in Hp. injection Hp as <-. rewrite Hrow. eexists. split; [done|].
    right. right. split; [done|]. right. by split.
  - exists r. by split; [|left].
Qed.

Lemma receive_stock_transfer_request_row ctx transfer_id db id r :
  stock_requests db !! id = Some r →
  ∃ r', stock_requests (receive_stock_transfer ctx transfer_id db).2 !! id = Some r'
        ∧ request_step (organization_id ctx) r r'.
Proof.
  intros Hrow. unfold receive_stock_transfer, session, receive_stock_transfer_body.
  rewrite bind_apply. unfold query at 1.
  destruct (select_in_org _ _ _ _) as [p|] eqn:Hsel; simpl; [|exists r; by split; [|left]].
  case_decide as Hst; simpl; [exists r; by split; [|left]|].
  rewrite bind_apply. unfold query at 1. rewrite bind_apply.
  match goal with |- context [for_each ?l ?b db] =>
    assert (stock_requests (for_each l b db).2 = stock_requests db) as Hsame
      by frame_tac;
    destruct (for_each l b db) as [[[]|e] db'] end; simpl in *;
    [|exists r; by split; [|left]].
  rewrite bind_apply. unfold execute at 1.
  destruct (st_stock_request_id p) as [request_id|]; simpl.
  - rewrite Hsame, list_lookup_alter. destruct (decide (request_id = id)) as [->|Hne].
    + rewrite Hrow. eexists. split; [done|]. right. by left.
    + exists r. by split; [|left].
  - rewrite Hsame. exists r. by split; [|left].
Qed.

Lemma create_stock_request_rows ctx data db :
  stock_requests db `prefix_of` stock_requests (create_stock_request ctx data db).2.
Proof.
  assert (preserves (grows stock_requests db) (create_stock_request ctx data)) as H;
    [|apply (H db); unfold grows; reflexivity].
  unfold_handlers; preserves_auto; try (intros ? HI; exact HI).
  intros db' HI. unfold grows in *. simpl. by apply prefix_app_r.
Qed.

Lemma handle_stock_request_row ctx rq db id r :
  stock_requests db !! id = Some r →
  ∃ r', stock_requests (handle ctx rq db) !! id = Some r'
        ∧ request_step (organization_id ctx) r r'.
Proof.
  intros Hrow.
  destruct rq; simpl;
    try (exists r; split; [|by left];
         match goal with |- stock_requests ?d !! _ = _ =>
           replace (stock_requests d) with (stock_requests db); [done|] end;
         symmetry; first [reflexivity | frame_tac]).
  - exists r. split; [|by left].
    eapply prefix_lookup_Some; [done|apply create_stock_request_rows].
  - by apply approve_stock_request_row.
  - by apply reject_stock_request_row.
  - by apply cancel_stock_request_row.
  - by apply receive_stock_transfer_request_row.
Qed.

(** *** Menus *)

Lemma handle_menu_row ctx r db id m :
  menus db !! id = Some m → menu_organization_id m ≠ organization_id ctx →
  menus (handle ctx r db) !! id = Some m.
Proof.
  intros Hrow Horg.
  assert (∀ f menu_id (m0 : Menu),
            select_in_org menu_organization_id (organization_id ctx) menu_id (menus db)
            = Some m0 →
            alter f menu_id (menus db) !! id = Some m) as Halter.
  { intros f menu_id m0 [Hm0 Ho]%select_in_org_Some.
    rewrite list_lookup_alter. destruct (decide (menu_id = id)) as [->|]; [|done].
    rewrite Hrow in Hm0. injection Hm0 as <-. done. }
  destruct r; simpl;
    try (match goal with |- menus ?d !! _ = _ =>
           replace (menus d) with (menus db); [done|] end;
         symmetry; first [reflexivity | frame_tac]).
  - eapply prefix_lookup_Some; [done|].
    assert (preserves (grows menus db) (create_menu ctx data)) as H;
      [|apply (H db); unfold grows; reflexivity].
    unfold_handlers; preserves_auto; try (intros ? HI; exact HI).
    intros db' HI. unfold grows in *. simpl. by apply prefix_app_r.
  - unfold update_menu, session, update_menu_body.
    rewrite bind_apply. unfold query at 1.
    destruct (select_in_org _ _ _ _) as [p|] eqn:Hsel; simpl; [|done].
    destruct (no_update_fields data); simpl; [done|]. by eapply Halter.
  - unfold delete_menu, session, delete_menu_body.
    rewrite bind_apply. unfold query at 1.
    destruct (select_in_org _ _ _ _) as [p|] eqn:Hsel; simpl; [|done].
    by eapply Halter.
Qed.

(** *** Lifecycles *)

Lemma po_step_same org po po' :
  po_step org po po' →
  po_may_become (po_status po) (po_status po') = true ∧ same_purchase_order po po'.
Proof.
  unfold same_purchase_order.
  intros [->|[_ [[Hst ->]|[[Hst (day & user & ->)]|[Hst ->]]]]]; simpl.
  - split; [by destruct (po_status po)|done].
  - by rewrite Hst.
  - split; [|done]. by destruct Hst as [-> | ->].
  - split; [|done]. by destruct (po_status po).
Qed.

Lemma po_may_become_trans a b c :
  po_may_become a b = true → po_may_become b c = true → po_may_become a c = true.
Proof. by destruct a, b, c. Qed.

Lemma transfer_step_same org t t' :
  transfer_step org t t' →
  transfer_may_become (st_status t) (st_status t') = true ∧ same_stock_transfer t t'.
Proof.
  unfold same_stock_transfer.
  intros [->|[_ [[Hst ->]|[[Hst (user & ->)]|(Hst & Hst' & ->)]]]]; simpl.
  - split; [by destruct (st_status t)|done].
  - by rewrite Hst.
  - by rewrite Hst.
  - split; [|done]. by destruct (st_status t).
Qed.

Lemma transfer_may_become_trans a b c :
  transfer_may_become a b = true → transfer_may_become b c = true →
  transfer_may_become a c = true.
Proof. by destruct a, b, c. Qed.

Lemma request_step_same org r r' :
  request_step org r r' →
  request_may_become (sr_status r) (sr_status r') = true ∧ same_stock_request r r'.
Proof.
  unfold same_stock_request.
  intros [->|[->|[_ [[Hst [user [-> | ->]]]|[Hst ->]]]]]; simpl.
  - split; [by destruct (sr_status r)|done].
  - split; [by destruct (sr_status r)|done].
  - by rewrite Hst.
  - by rewrite Hst.
  - split; [|done]. by destruct Hst as [-> | ->].
Qed.

Lemma request_may_become_trans a b c :
  request_may_become a b = true → request_may_become b c = true →
  request_may_become a c = true.
Proof. by destruct a, b, c. Qed.

(** X1.  The life of a purchase order.  Whatever requests run, a purchase
    order keeps its id, organization, number, supplier, outlet, order date,
    total and author, and its status only moves forward: DRAFT may become
    anything, ORDERED may become RECEIVED or CANCELLED, and RECEIVED and
    CANCELLED are final. *)
Theorem purchase_order_lifecycle (rs : list (Context * Request)) (db : DB)
    (id : nat) (po : PurchaseOrder) :
  purchase_orders db !! id = Some po →
  ∃ po', purchase_orders (run rs db) !! id = Some po'
         ∧ po_may_become (po_status po) (po_status po') = true
         ∧ same_purchase_order po po'.
Proof.
  unfold run. revert db po. induction rs as [|[ctx r] rs IH]; intros db po Hrow; simpl.
  - exists po. split; [done|]. split; [by destruct (po_status po)|].
    by unfold same_purchase_order.
  - destruct (handle_purchase_order_row ctx r db id po Hrow) as (po1 & Hrow1 & Hstep).
    apply po_step_same in Hstep as [Hst1 Hsame1].
    destruct (IH _ _ Hrow1) as (po' & Hrow' & Hst' & Hsame').
    exists po'. split; [done|]. split; [by eapply po_may_become_trans|].
    unfold same_purchase_order in *. destruct_and!. split_and!; congruence.
Qed.

Lemma purchase_order_lifecycle_witness :
  ∃ po', purchase_orders
           (run [ (sample_ctx, ReceivePurchaseOrderReq 0 receive_all);
                  (sample_ctx, CancelPurchaseOrder 0);
                  (sample_ctx, ApprovePurchaseOrder 0) ] sample_db) !! 0 = Some po'
         ∧ po_status po' = PO_RECEIVED.
Proof.
  destruct (purchase_order_lifecycle
              [ (sample_ctx, ReceivePurchaseOrderReq 0 receive_all);
                (sample_ctx, CancelPurchaseOrder 0);
                (sample_ctx, ApprovePurchaseOrder 0) ] sample_db 0 _ eq_refl)
    as (po' & Hrow & _ & _).
  exists po'. split; [exact Hrow|].
  vm_compute in Hrow. by injection Hrow as <-.
Defined.

(** X2.  The life of a stock transfer.  Whatever requests run, a stock
    transfer keeps its organization, number, outlets, linked request and
    author, and its status only moves forward: DRAFT may become anything,
    SHIPPED may only become RECEIVED (a shipped transfer is never
    cancelled or shipped again), and RECEIVED and CANCELLED are final. *)
Theorem stock_transfer_lifecycle (rs : list (Context * Request)) (db : DB)
    (id : nat) (t : StockTransfer) :
  stock_transfers db !! id = Some t →
  ∃ t', stock_transfers (run rs db) !! id = Some t'
        ∧ transfer_may_become (st_status t) (st_status t') = true
        ∧ same_stock_transfer t t'.
Proof.
  unfold run. revert db t. induction rs as [|[ctx r] rs IH]; intros db t Hrow; simpl.
  - exists t. split; [done|]. split; [by destruct (st_status t)|].
    by unfold same_stock_transfer.
  - destruct (handle_stock_transfer_row ctx r db id t Hrow) as (t1 & Hrow1 & Hstep).
    apply transfer_step_same in Hstep as [Hst1 Hsame1].
    destruct (IH _ _ Hrow1) as (t' & Hrow' & Hst' & Hsame').
    exists t'. split; [done|]. split; [by eapply transfer_may_become_trans|].
    unfold same_stock_transfer in *. destruct_and!. split_and!; congruence.
Qed.

Lemma stock_transfer_lifecycle_witness :
  ∃ t', stock_transfers
          (run [ (sample_ctx, CancelStockTransfer 0);
                 (sample_ctx, ShipStockTransfer 0);
                 (sample_ctx, ReceiveStockTransfer 0) ] sample_db) !! 0 = Some t'
        ∧ st_status t' = ST_CANCELLED.
Proof.
  destruct (stock_transfer_lifecycle
              [ (sample_ctx, CancelStockTransfer 0);
                (sample_ctx, ShipStockTransfer 0);
                (sample_ctx, ReceiveStockTransfer 0) ] sample_db 0 _ eq_refl)
    as (t' & Hrow & _ & _).
  exists t'. split; [exact Hrow|].
  vm_compute in Hrow. by injection Hrow as <-.
Defined.

(** X3.  The life of a stock request.  Whatever requests run, a stock
    request keeps its organization, number, outlets and author; PENDING may
    become anything, APPROVED may become CANCELLED or FULFILLED, REJECTED
    and CANCELLED may only become FULFILLED (by the receipt of a transfer
    that links to the request), and FULFILLED is final. *)
Theorem stock_request_lifecycle (rs : list (Context * Request)) (db : DB)
    (id : nat) (r : StockRequest) :
  stock_requests db !! id = Some r →
  ∃ r', stock_requests (run rs db) !! id = Some r'
        ∧ request_may_become (sr_status r) (sr_status r') = true
        ∧ same_stock_request r r'.
Proof.
  unfold run. revert db r. induction rs as [|[ctx rq] rs IH]; intros db r Hrow; simpl.
  - exists r. split; [done|]. split; [by destruct (sr_status r)|].
    by unfold same_stock_request.
  - destruct (handle_stock_request_row ctx rq db id r Hrow) as (r1 & Hrow1 & Hstep).
    apply request_step_same in Hstep as [Hst1 Hsame1].
    destruct (IH _ _ Hrow1) as (r' & Hrow' & Hst' & Hsame').
    exists r'. split; [done|]. split; [by eapply request_may_become_trans|].
    unfold same_stock_request in *. destruct_and!. split_and!; congruence.
Qed.

Lemma stock_request_lifecycle_witness :
  ∃ r', stock_requests
          (run [ (sample_ctx, RejectStockRequest 0);
                 (sample_ctx, ApproveStockRequestReq 0 {| asr_items := [] |});
                 (sample_ctx, CancelStockRequest 0) ] sample_db) !! 0 = Some r'
        ∧ sr_status r' = SR_REJECTED.
Proof.
  destruct (stock_request_lifecycle
              [ (sample_ctx, RejectStockRequest 0);
                (sample_ctx, ApproveStockRequestReq 0 {| asr_items := [] |});
                (sample_ctx, CancelStockRequest 0) ] sample_db 0 _ eq_refl)
    as (r' & Hrow & _ & _).
  exists r'. split; [exact Hrow|].
  vm_compute in Hrow. by injection Hrow as <-.
Defined.

(** X4.  Documents of other organizations.  The requests of callers of
    other organizations leave every purchase order, every stock transfer
    and every menu of an organization as it is. *)
Theorem documents_of_other_organizations (rs : list (Context * Request)) (db : DB)
    (org : nat) :
  Forall (λ cr, organization_id cr.1 ≠ org) rs →
  (∀ id po, purchase_orders db !! id = Some po → po_organization_id po = org →
            purchase_orders (run rs db) !! id = Some po)
  ∧ (∀ id t, stock_transfers db !! id = Some t → st_organization_id t = org →
             stock_transfers (run rs db) !! id = Some t)
  ∧ (∀ id m, menus db !! id = Some m → menu_organization_id m = org →
             menus (run rs db) !! id = Some m).
Proof.
  unfold run. revert db. induction rs as [|[ctx r] rs IH]; intros db Hrs; simpl; [done|].
  apply Forall_cons in Hrs as [Hctx Hrs]. simpl in Hctx.
  destruct (IH (handle ctx r db) Hrs) as (IHpo & IHst & IHm).
  split_and!.
  - intros id po Hrow Horg. apply IHpo; [|done].
    destruct (handle_purchase_order_row ctx r db id po Hrow) as (po' & Hrow' & [->|[Ho _]]);
      [done|congruence].
  - intros id t Hrow Horg. apply IHst; [|done].
    destruct (handle_stock_transfer_row ctx r db id t Hrow) as (t' & Hrow' & [->|[Ho _]]);
      [done|congruence].
  - intros id m Hrow Horg. apply IHm; [|done].
    apply handle_menu_row; [done|congruence].
Qed.

Lemma documents_of_other_organizations_witness :
  ∃ po, purchase_orders sample_db !! 0 = Some po
        ∧ purchase_orders
            (run [ (other_ctx, CancelPurchaseOrder 0);
                   (other_ctx, ReceivePurchaseOrderReq 0 receive_all) ] sample_db) !! 0
          = Some po.
Proof.
  eexists. split; [reflexivity|].
  apply (documents_of_other_organizations
           [ (other_ctx, CancelPurchaseOrder 0);
             (other_ctx, ReceivePurchaseOrderReq 0 receive_all) ] sample_db 0).
  - repeat constructor; vm_compute; discriminate.
  - reflexivity.
  - reflexivity.
Defined.

(** ** The audit trail *)

Lemma handle_grows_inventory_ledger db0 ctx r db :
  grows inventory_ledger db0 db → grows inventory_ledger db0 (handle ctx r db).
Proof.
  revert ctx r db. apply preserves_handle; intros; unfold_handlers; preserves_auto;
    try (intros ? HI; exact HI); try assumption.
  all: intros ? HI; unfold grows in *; simpl; by apply prefix_app_r.
Qed.

Lemma handle_grows_sales_orders db0 ctx r db :
  grows sales_orders db0 db → grows sales_orders db0 (handle ctx r db).
Proof.
  revert ctx r db. apply preserves_handle; intros; unfold_handlers; preserves_auto;
    try (intros ? HI; exact HI); try assumption.
  all: intros ? HI; unfold grows in *; simpl; by apply prefix_app_r.
Qed.

(** X5.  The audit trail is append-only.  Whatever requests run, the
    ledger entries and the sales order headers that exist are still there
    afterwards, under the same ids, in the same order and with every column
    unchanged: the handlers only ever add to them. *)
Theorem ledger_is_append_only (rs : list (Context * Request)) (db : DB) :
  inventory_ledger db `prefix_of` inventory_ledger (run rs db)
  ∧ sales_orders db `prefix_of` sales_orders (run rs db).
Proof.
  split.
  - apply (preserves_run (grows inventory_ledger db)).
    + apply handle_grows_inventory_ledger.
    + unfold grows. reflexivity.
  - apply (preserves_run (grows sales_orders db)).
    + apply handle_grows_sales_orders.
    + unfold grows. reflexivity.
Qed.

(** ** Stock moved by a transfer *)

Lemma ship_items_level ctx transfer_id from_outlet_id items db db' :
  for_each items (ship_item ctx transfer_id from_outlet_id) db = (Ok tt, db') →
  (∀ o i, stock_level o i db'
          = if decide (o = from_outlet_id)
            then (stock_level o i db - transfer_qty i items)%Z
            else stock_level o i db)
  ∧ length (inventory_ledger db') = length (inventory_ledger db) + length items
  ∧ stock_transfers db' = stock_transfers db
  ∧ stock_transfer_items db' = stock_transfer_items db
  ∧ stock_requests db' = stock_requests db.
Proof.
  unfold for_each. revert db. induction items as [|it items IH]; intros db; cbn [for_acc].
  - intros [= <-]. split_and!; try done.
    intros o i. simpl. case_decide; lia.
  - rewrite bind_apply. unfold ship_item at 1. rewrite bind_apply. unfold query at 1.
    destruct (find_stock _ _ db) as [[sid s]|] eqn:Hfind; [|done].
    case_decide as Hqty; [done|].
    rewrite bind_apply. unfold execute at 1 2.
    intros Hrest. apply IH in Hrest as (Hlevel & Hledger & Hst & Hsti & Hsr).
    split_and!; try done.
    + intros o i. rewrite Hlevel.
      match goal with |- context [stock_level o i (with_inventory_ledger ?f ?d)] =>
        rewrite (stock_level_ext o i (with_inventory_ledger f d) d eq_refl) end.
      rewrite (stock_level_alter o i _ _ _ _ _ _ (same_key_set_qty_on_hand _) Hfind).
      simpl. unfold stock_level at 3 4. 
      destruct (decide (o = from_outlet_id)) as [->|Ho].
      * destruct (decide (sti_ingredient_id it = i)) as [<-|Hi].
        -- rewrite decide_True by done. rewrite Hfind. lia.
        -- rewrite decide_False by (intros [_ ?]; congruence). 
           fold (stock_level from_outlet_id i db). lia.
      * rewrite decide_False by (intros [? _]; congruence). done.
    + rewrite Hledger. simpl. rewrite length_app. simpl. lia.
Qed.


(** What a successful [ship_stock_transfer] went through. *)
Lemma ship_stock_transfer_inv ctx transfer_id db db' :
  ship_stock_transfer ctx transfer_id db = (Ok tt, db') →
  ∃ t db1,
    select_in_org st_organization_id (organization_id ctx) transfer_id (stock_transfers db)
    = Some t
    ∧ st_status t = ST_DRAFT
    ∧ for_each (items_of_transfer transfer_id db)
               (ship_item ctx transfer_id (st_from_outlet_id t)) db = (Ok tt, db1)
    ∧ db' = with_stock_transfers (alter (set_st_status ST_SHIPPED None) transfer_id) db1.
Proof.
  unfold ship_stock_transfer, session, ship_stock_transfer_body.
  rewrite bind_apply. unfold query at 1.
  destruct (select_in_org _ _ _ _) as [t|] eqn:Hsel; simpl; [|done].
  case_decide as Hst; simpl; [done|].
  rewrite bind_apply. unfold query at 1. rewrite bind_apply.
  destruct (for_each _ _ db) as [[[]|e] db1] eqn:Hloop; simpl; [|done].
  intros [= <-]. exists t, db1. split_and!; try done.
Qed.


(** X6.  What shipping posts.  When [ship_stock_transfer] succeeds, the
    transfer was a DRAFT of the caller's organization and is now SHIPPED;
    at the source outlet the quantity on hand of every ingredient went down
    by what the items of the transfer carry of it, every other stock level
    is as before, and the ledger grew by one entry per item. *)
Theorem ship_stock_transfer_posts (ctx : Context) (transfer_id : nat) (db db' : DB) :
  ship_stock_transfer ctx transfer_id db = (Ok tt, db') →
  ∃ t, stock_transfers db !! transfer_id = Some t
       ∧ st_organization_id t = organization_id ctx
       ∧ st_status t = ST_DRAFT
       ∧ stock_transfers db' !! transfer_id = Some (set_st_status ST_SHIPPED None t)
       ∧ (∀ o i, stock_level o i db'
                 = if decide (o = st_from_outlet_id t)
                   then (stock_level o i db
                         - transfer_qty i (items_of_transfer transfer_id db))%Z
                   else stock_level o i db)
       ∧ length (inventory_ledger db')
         = length (inventory_ledger db) + length (items_of_transfer transfer_id db).
Proof.
  intros (t & db1 & Hsel & Hst & Hloop & ->)%ship_stock_transfer_inv.
  apply ship_items_level in Hloop as (Hlevel & Hledger & Hsame & _).
  apply select_in_org_Some in Hsel as [Hrow Horg].
  exists t. split_and!; try done.
  simpl. by rewrite Hsame, list_lookup_alter, decide_True, Hrow.
Qed.

Lemma ship_stock_transfer_posts_witness :
  ∃ db', ship_stock_transfer sample_ctx 0 shippable = (Ok tt, db')
         ∧ stock_level 0 1 shippable = 30000%Z
         ∧ stock_level 0 1 db' = 0%Z.
Proof.
  eexists. split; [vm_compute; reflexivity|]. split; [reflexivity|].
  destruct (ship_stock_transfer_posts sample_ctx 0 shippable _ eq_refl)
    as (t & Hrow & _ & _ & _ & Hlevel & _).
  injection Hrow as <-. rewrite Hlevel. reflexivity.
Defined.





(** ** Manual adjustments *)




(** ** What a sale posts *)

Lemma check_lines_ok outlet_id qty lines acc acc' db db' :
  for_acc lines acc (cost_and_check_line outlet_id qty) db = (Ok acc', db') →
  usage_key <$> acc'.1 = (usage_key <$> acc.1) ++ (line_key qty <$> lines).
Proof.
  revert acc db. induction lines as [|l lines IH]; intros acc db; cbn [for_acc].
  - intros [= <- <-]. by rewrite app_nil_r.
  - rewrite bind_apply. unfold cost_and_check_line at 1.
    rewrite bind_apply. unfold query at 1.
    destruct (find_stock _ _ db) as [[sid s]|]; [|done].
    case_decide; [done|]. unfold ret at 1.
    intros Hrest%IH. rewrite Hrest. simpl.
    rewrite fmap_app, <- app_assoc. done.
Qed.

Lemma prepare_items_ok ctx outlet_id items acc acc' db db' :
  for_acc items acc (prepare_item ctx outlet_id) db = (Ok acc', db') →
  ∃ ois, acc'.2 = acc.2 ++ ois
         ∧ acc'.1 = (acc.1 + foldr (λ oi s, oi_total oi + s) 0 ois)%Z
         ∧ Forall2 (prepared_from ctx outlet_id db) items ois.
Proof.
  revert acc. induction items as [|it items IH]; intros acc; cbn [for_acc].
  - intros [= <- <-]. exists []. rewrite app_nil_r. split_and!; [done|simpl; lia|constructor].
  - rewrite bind_apply. unfold prepare_item at 1.
    rewrite bind_apply. unfold query at 1.
    destruct (select_in_org _ _ _ _) as [m|] eqn:Hm; [|done].
    destruct (menu_is_active m) eqn:Hactive; simpl; [|done].
    rewrite bind_apply. unfold query at 1. rewrite bind_apply.
    destruct (check_lines_spec outlet_id (soic_qty it)
                (lines_of_menu (soic_menu_id it) outlet_id db) ([], 0%Z) db)
      as (r & Heq & _).
    rewrite Heq. destruct r as [costed|e]; [|done].
    apply check_lines_ok in Heq. unfold ret at 1.
    intros (ois & Hois & Htotal & Hall)%IH. simpl in *.
    eexists (_ :: ois). split_and!.
    + rewrite Hois, <- app_assoc. done.
    + rewrite Htotal. simpl. lia.
    + constructor; [|done]. apply select_in_org_Some in Hm as [Hm Horg].
      unfold prepared_from. simpl. split_and!; try done.
      by exists m.
Qed.

Lemma post_sales_level ctx outlet_id order_id number us db :
  Forall (λ u, has_stock_row outlet_id (usage_ingredient_id u) db) us →
  ∃ db', for_each us (post_sale ctx outlet_id order_id number) db = (Ok tt, db')
    ∧ (∀ o i, stock_level o i db'
              = if decide (o = outlet_id)
                then (stock_level o i db - usage_sum i (usage_key <$> us))%Z
                else stock_level o i db)
    ∧ (∀ o i, has_stock_row o i db → has_stock_row o i db')
    ∧ length (inventory_ledger db') = length (inventory_ledger db) + length us
    ∧ sales_order_items db' = sales_order_items db
    ∧ sales_orders db' = sales_orders db.
Proof.
  unfold for_each. revert db. induction us as [|u us IH]; intros db Hrows; cbn [for_acc].
  - exists db. split_and!; try done.
    intros o i. simpl. case_decide; lia.
  - apply Forall_cons in Hrows as [Hrow Hrows].
    rewrite bind_apply. unfold post_sale at 1. rewrite bind_apply. unfold execute at 1 2.
    set (db1 := with_inventory_stock
                  (deduct_stock outlet_id (usage_ingredient_id u) (usage_qty u)) db).
    match goal with |- context [for_acc us tt ?b ?d] => set (db2 := d) end.
    assert (∀ o i, has_stock_row o i db → has_stock_row o i db2) as Hkeep.
    { intros o i Hoi.
      change (has_stock_row o i db1). by apply has_stock_row_deduct. }
    destruct (IH db2) as (db' & -> & Hlevel & Hhas & Hledger & Hsoi & Hso).
    { eapply Forall_impl; [exact Hrows|]. intros u' Hu'. by apply Hkeep. }
    exists db'. split_and!; try done.
    + intros o i. rewrite Hlevel.
      rewrite (stock_level_ext o i db2 db1 eq_refl).
      subst db1. rewrite stock_level_deduct by done. simpl.
      repeat case_decide; destruct_and?; simplify_eq; unfold fmap; try lia;
        exfalso; tauto.
    + intros o i Hoi. by apply Hhas, Hkeep.
    + rewrite Hledger. subst db2. simpl. rewrite length_app. simpl. lia.
Qed.

Lemma store_items_level ctx outlet_id order_id number items db :
  usages_have_rows outlet_id items db →
  ∃ db', for_each items (store_item ctx outlet_id order_id number) db = (Ok tt, db')
    ∧ (∀ o i, stock_level o i db'
              = if decide (o = outlet_id)
                then (stock_level o i db
                      - usage_sum i (flat_map (λ it, usage_key <$> oi_ingredient_usage it)
                                              items))%Z
                else stock_level o i db)
    ∧ length (inventory_ledger db')
      = length (inventory_ledger db)
        + length (flat_map (λ it, usage_key <$> oi_ingredient_usage it) items)
    ∧ sales_order_items db' = sales_order_items db ++ (stored_item order_id <$> items)
    ∧ sales_orders db' = sales_orders db.
Proof.
  unfold for_each at 1. revert db.
  induction items as [|it items IH]; intros db Hrows; cbn [for_acc].
  - exists db. split_and!; try done; simpl; rewrite ?app_nil_r; try done; try lia.
    intros o i. case_decide; lia.
  - apply Forall_cons in Hrows as [Hrow Hrows].
    rewrite bind_apply. unfold store_item at 1. rewrite bind_apply. unfold execute at 1.
    match goal with |- context [for_each _ _ ?d] => set (db1 := d) end.
    destruct (post_sales_level ctx outlet_id order_id number (oi_ingredient_usage it) db1)
      as (db2 & -> & Hlevel & Hhas & Hledger & Hsoi & Hso); [exact Hrow|].
    destruct (IH db2) as (db' & Hloop & Hlevel' & Hledger' & Hsoi' & Hso').
    { unfold usages_have_rows. eapply Forall_impl; [exact Hrows|].
      intros it' Hit'. eapply Forall_impl; [exact Hit'|].
      intros u Hu. apply Hhas. exact Hu. }
    unfold for_each in Hloop. rewrite Hloop.
    exists db'. split_and!; try done.
    + intros o i. rewrite Hlevel', Hlevel.
      rewrite (stock_level_ext o i db1 db eq_refl). simpl.
      assert (∀ a b, usage_sum i (a ++ b) = (usage_sum i a + usage_sum i b)%Z) as Happ.
      { intros a b. induction a as [|x a IHa]; simpl; [done|]. case_decide; lia. }
      rewrite Happ. case_decide; lia.
    + rewrite Hledger', Hledger. subst db1. simpl.
      rewrite length_app, length_fmap. lia.
    + rewrite Hsoi', Hsoi. subst db1. simpl. by rewrite <- app_assoc.
    + by rewrite Hso', Hso.
Qed.

(** What a successful [create_sales_order] went through. *)
Lemma create_sales_order_inv ctx data db r db' :
  create_sales_order ctx data db = (Ok r, db') →
  ∃ total ois,
    let number := generate_order_number (organization_id ctx) (soc_outlet_id data)
                                        (today ctx) db in
    let order_id := length (sales_orders db) in
    let db1 := with_sales_orders (λ t, t ++ [
      {| so_organization_id := organization_id ctx; order_no := number;
         so_outlet_id := soc_outlet_id data; so_user_id := user_id ctx;
         order_datetime := today ctx; so_total_amount := total;
         payment_method := soc_payment_method data;
         customer_name := soc_customer_name data; so_notes := soc_notes data |} ]) db in
    is_Some (select_in_org outlet_organization_id (organization_id ctx)
                           (soc_outlet_id data) (outlets db))
    ∧ for_acc (soc_items data) (0%Z, []) (prepare_item ctx (soc_outlet_id data)) db
      = (Ok (total, ois), db)
    ∧ r = (order_id, number, total)
    ∧ for_each ois (store_item ctx (soc_outlet_id data) order_id number) db1 = (Ok tt, db').
Proof.
  unfold create_sales_order, session, create_sales_order_body.
  rewrite bind_apply. unfold query at 1.
  destruct (select_in_org _ _ _ _) as [outlet|] eqn:Houtlet; simpl; [|done].
  rewrite bind_apply. unfold query at 1. rewrite bind_apply.
  destruct (prepare_items_spec ctx (soc_outlet_id data) (soc_items data) (0%Z, []) db)
    as (p & Hprep & _).
  rewrite Hprep. destruct p as [[total ois]|e]; [|done].
  rewrite bind_apply, insert_returning_apply, bind_apply. simpl.
  match goal with |- context [for_each ois ?b ?d] =>
    destruct (for_each ois b d) as [[[]|e] d'] eqn:Hstore end; simpl; [|done].
  intros [= <- <-]. exists total, ois. simpl. split_and!; try done.
Qed.

Lemma prepared_usages ctx outlet_id db items ois :
  Forall2 (prepared_from ctx outlet_id db) items ois →
  flat_map (λ it, usage_key <$> oi_ingredient_usage it) ois
  = order_usages outlet_id db items.
Proof.
  unfold order_usages. induction 1 as [|it oi items ois Hp _ IH]; simpl; [done|].
  rewrite IH. f_equal. by destruct Hp as (_ & _ & _ & _ & _ & ->).
Qed.

(** X10.  The document of a sale.  When [create_sales_order] succeeds it
    returns the id of the one sales order it appends, which carries the
    returned number and total, and it appends one line per requested item,
    in the order of the request: the line keeps the menu, quantity and notes
    of the request, the price the menu has at that moment and the product
    of price and quantity as its amount.  The total of the order is the sum
    of the amounts of its lines. *)
Theorem sales_order_document (ctx : Context) (data : SalesOrderCreate) (db db' : DB)
    (order_id : nat) (number : DocumentNumber) (total : Z) :
  create_sales_order ctx data db = (Ok (order_id, number, total), db') →
  order_id = length (sales_orders db)
  ∧ (∃ so, sales_orders db' = sales_orders db ++ [so]
           ∧ so_organization_id so = organization_id ctx
           ∧ so_outlet_id so = soc_outlet_id data
           ∧ order_no so = number
           ∧ so_total_amount so = total)
  ∧ ∃ lines, sales_order_items db' = sales_order_items db ++ lines
             ∧ Forall2 (snapshot_of ctx (soc_outlet_id data) db order_id)
                       (soc_items data) lines
             ∧ total = lines_total lines.
Proof.
  intros (total' & ois & Houtlet & Hprep & [= -> -> ->] & Hstore)%create_sales_order_inv.
  destruct (prepare_items_spec ctx (soc_outlet_id data) (soc_items data) (0%Z, []) db)
    as (p & Hprep' & Hp).
  rewrite Hprep in Hprep'. injection Hprep' as <-. destruct Hp as [_ Hrows].
  apply prepare_items_ok in Hprep as (ois' & Hois & Htotal & Hall). simpl in *. subst ois'.
  match type of Hstore with for_each _ _ ?d = _ =>
    destruct (store_items_level ctx (soc_outlet_id data) (length (sales_orders db))
                (generate_order_number (organization_id ctx) (soc_outlet_id data)
                                       (today ctx) db) ois d)
      as (d' & Hstore' & _ & _ & Hsoi & Hso) end.
  { apply Hrows. constructor. }
  rewrite Hstore in Hstore'. injection Hstore' as <-.
  split; [done|]. split.
  - eexists. split; [exact Hso|]. done.
  - exists (stored_item (length (sales_orders db)) <$> ois). split; [exact Hsoi|]. split.
    + clear -Hall. induction Hall as [|it oi items ois Hp _ IH]; simpl; constructor; [|done].
      destruct Hp as (? & ? & ? & ? & ? & ?). unfold snapshot_of. simpl. done.
    + rewrite Htotal, Z.add_0_l. clear.
      induction ois as [|oi ois IH]; [done|]. rewrite fmap_cons. simpl. by rewrite IH.
Qed.

Lemma sales_order_document_witness :
  ∃ lines, sales_order_items
             (create_sales_order sample_ctx (sale_at_shop [bread 2; bread 1]) sample_db).2
           = sales_order_items sample_db ++ lines
           ∧ lines_total lines = 6000%Z.
Proof.
  destruct (sales_order_document sample_ctx (sale_at_shop [bread 2; bread 1]) sample_db
              _ _ _ _ eq_refl) as (_ & _ & lines & Hlines & _ & Htotal).
  exists lines. split; [exact Hlines|]. symmetry. exact Htotal.
Defined.

(** X11.  The stock a sale takes.  When [create_sales_order] succeeds, the
    quantity on hand of every ingredient at the outlet of the order has gone
    down by the sum of the usages of all the lines of the order (recipe
    quantity times portions sold, added up over the lines that use the
    ingredient), the stock levels of the other outlets are as before, and
    the ledger has grown by one entry per usage. *)
Theorem sales_order_deducts (ctx : Context) (data : SalesOrderCreate) (db db' : DB)
    (r : nat * DocumentNumber * Z) :
  create_sales_order ctx data db = (Ok r, db') →
  let usages := order_usages (soc_outlet_id data) db (soc_items data) in
  (∀ o i, stock_level o i db'
          = if decide (o = soc_outlet_id data)
            then (stock_level o i db - usage_sum i usages)%Z
            else stock_level o i db)
  ∧ length (inventory_ledger db') = length (inventory_ledger db) + length usages.
Proof.
  intros (total & ois & Houtlet & Hprep & -> & Hstore)%create_sales_order_inv usages.
  destruct (prepare_items_spec ctx (soc_outlet_id data) (soc_items data) (0%Z, []) db)
    as (p & Hprep' & Hp).
  rewrite Hprep in Hprep'. injection Hprep' as <-. destruct Hp as [_ Hrows].
  apply prepare_items_ok in Hprep as (ois' & Hois & _ & Hall). simpl in *. subst ois'.
  match type of Hstore with for_each _ _ ?d = _ =>
    destruct (store_items_level ctx (soc_outlet_id data) (length (sales_orders db))
                (generate_order_number (organization_id ctx) (soc_outlet_id data)
                                       (today ctx) db) ois d)
      as (d' & Hstore' & Hlevel & Hledger & _) end.
  { apply Hrows. constructor. }
  rewrite Hstore in Hstore'. injection Hstore' as <-.
  rewrite (prepared_usages _ _ _ _ _ Hall) in Hlevel, Hledger.
  split; [|exact Hledger].
  intros o i. rewrite Hlevel. by case_decide.
Qed.

Lemma sales_order_deducts_witness :
  stock_level 1 0 sample_db = 50000%Z
  ∧ stock_level 1 0
      (create_sales_order sample_ctx (sale_at_shop [bread 2]) sample_db).2 = 10000%Z.
Proof.
  split; [reflexivity|].
  destruct (sales_order_deducts sample_ctx (sale_at_shop [bread 2]) sample_db
              _ _ eq_refl) as [Hlevel _].
  rewrite Hlevel. reflexivity.
Defined.

Lemma usage_sum_absent i us : i ∉ us.*1 → usage_sum i us = 0%Z.
Proof.
  induction us as [|[j q] us IH]; simpl; [done|].
  intros Hi. apply not_elem_of_cons in Hi as [Hne Hi].
  rewrite decide_False by done. by apply IH.
Qed.

Lemma usage_sum_distinct i us :
  NoDup us.*1 → usage_sum i us = 0%Z ∨ ∃ q, (i, q) ∈ us ∧ usage_sum i us = q.
Proof.
  induction us as [|[j q] us IH]; simpl; [by left|].
  intros [Hj Hnd]%NoDup_cons. destruct (decide (j = i)) as [->|Hne].
  - right. exists q. split; [apply list_elem_of_here|].
    rewrite (usage_sum_absent i us Hj). lia.
  - destruct (IH Hnd) as [H0|(q' & Hq' & Hsum)]; [by left|].
    right. exists q'. split; [by apply list_elem_of_further|done].
Qed.

(** Every usage of a sale that passed the stock check is covered by the
    quantity on hand it was checked against. *)
Lemma checked_usages_covered outlet_id db items :
  Forall (λ it, Forall (λ l, ¬ lacking outlet_id (soic_qty it) l db)
                       (lines_of_menu (soic_menu_id it) outlet_id db)) items →
  ∀ i q, (i, q) ∈ order_usages outlet_id db items → (q ≤ stock_level outlet_id i db)%Z.
Proof.
  intros Hall i q Hiq. unfold order_usages in Hiq.
  apply list_elem_of_In, in_flat_map in Hiq as (it & Hit & Hiq).
  apply list_elem_of_In in Hit, Hiq.
  rewrite Forall_forall in Hall. specialize (Hall it Hit).
  unfold item_usages in Hiq. apply list_elem_of_fmap in Hiq as (l & Heq & Hl).
  rewrite Forall_forall in Hall. specialize (Hall l Hl).
  unfold line_key in Heq. injection Heq as -> ->.
  unfold lacking in Hall. unfold stock_level.
  destruct (find_stock outlet_id (line_ingredient_id l) db) as [[sid s]|]; [lia|].
  by destruct Hall.
Qed.

(** X12.  A sale of distinct ingredients cannot overdraw.  When
    [create_sales_order] succeeds and no ingredient is used by more than one
    line of the order, every stock level that was not negative before the
    sale is not negative after it. *)
Theorem sale_of_distinct_ingredients (ctx : Context) (data : SalesOrderCreate)
    (db db' : DB) (r : nat * DocumentNumber * Z) :
  create_sales_order ctx data db = (Ok r, db') →
  NoDup (order_usages (soc_outlet_id data) db (soc_items data)).*1 →
  ∀ o i, (0 ≤ stock_level o i db)%Z → (0 ≤ stock_level o i db')%Z.
Proof.
  intros (total & ois & Houtlet & Hprep & -> & Hstore)%create_sales_order_inv Hnd o i Hpos.
  destruct (prepare_items_spec ctx (soc_outlet_id data) (soc_items data) (0%Z, []) db)
    as (p & Hprep' & Hp).
  rewrite Hprep in Hprep'. injection Hprep' as <-. destruct Hp as [Hchecked Hrows].
  apply prepare_items_ok in Hprep as (ois' & Hois & _ & Hall). simpl in *. subst ois'.
  match type of Hstore with for_each _ _ ?d = _ =>
    destruct (store_items_level ctx (soc_outlet_id data) (length (sales_orders db))
                (generate_order_number (organization_id ctx) (soc_outlet_id data)
                                       (today ctx) db) ois d)
      as (d' & Hstore' & Hlevel & _) end.
  { apply Hrows. constructor. }
  rewrite Hstore in Hstore'. injection Hstore' as <-.
  rewrite (prepared_usages _ _ _ _ _ Hall) in Hlevel.
  rewrite Hlevel.
  match goal with |- context [stock_level o i ?d] =>
    change (stock_level o i d) with (stock_level o i db) end.
  destruct (decide (o = soc_outlet_id data)) as [->|Ho]; [|done].
  destruct (usage_sum_distinct i _ Hnd) as [-> | (q & Hq & ->)]; [lia|].
  pose proof (checked_usages_covered _ _ _ Hchecked i q Hq). lia.
Qed.

Lemma sale_of_distinct_ingredients_witness :
  (0 ≤ stock_level 1 0
         (create_sales_order sample_ctx (sale_at_shop [bread 2]) sample_db).2)%Z.
Proof.
  apply (sale_of_distinct_ingredients sample_ctx (sale_at_shop [bread 2]) sample_db
           _ _ eq_refl).
  - vm_compute. repeat constructor. apply not_elem_of_nil.
  - vm_compute. discriminate.
Defined.

(** ** Menus taken off sale *)




(** ** Document numbers *)

Section numbering.
Context {A K : Type} `{EqDecision K} (key : A → K) (num : A → nat).

Lemma sequenced_nil : sequenced key num [].
Proof. intros k. done. Qed.

Lemma sequenced_snoc l x :
  sequenced key num l →
  num x = length (filter (λ y, key y = key x) l) + 1 →
  sequenced key num (l ++ [x]).
Proof.
  intros Hl Hx k. rewrite filter_app, fmap_app, length_app, Hl.
  rewrite filter_cons, filter_nil. destruct (decide (key x = k)) as [<-|Hne]; simpl.
  - rewrite seq_app. simpl. rewrite Hx. do 2 f_equal. lia.
  - by rewrite app_nil_r, Nat.add_0_r.
Qed.

Lemma sequenced_alter f i l :
  (∀ x, key (f x) = key x ∧ num (f x) = num x) →
  sequenced key num l → sequenced key num (alter f i l).
Proof.
  intros Hf Hl k.
  assert (∀ (l : list A) (i : nat), num <$> filter (λ x, key x = k) (alter f i l)
                 = num <$> filter (λ x, key x = k) l) as Heq.
  { clear l i Hl. induction l as [|x l IH]; intros [|i]; try done.
    - change (alter f 0 (x :: l)) with (f x :: l).
      rewrite !filter_cons. destruct (Hf x) as [-> Hn].
      destruct (decide (key x = k)); [|done]. by rewrite !fmap_cons, Hn.
    - change (alter f (S i) (x :: l)) with (x :: alter f i l).
      rewrite !filter_cons. destruct (decide (key x = k)); [|apply IH].
      by rewrite !fmap_cons, IH. }
  rewrite <- (length_fmap num), Heq, length_fmap. apply Hl.
Qed.

Lemma filter_lookup_lt (P : A → Prop) `{∀ x, Decision (P x)} (l : list A) a b x y :
  l !! a = Some x → l !! b = Some y → a < b → P x → P y →
  ∃ i j, i < j ∧ filter P l !! i = Some x ∧ filter P l !! j = Some y.
Proof.
  intros Ha Hb Hlt Hx Hy.
  apply list_elem_of_split_length in Ha as (l1 & l2 & -> & ->).
  rewrite lookup_app_r in Hb by lia.
  destruct (b - length l1) as [|c] eqn:Hc; [lia|]. simpl in Hb.
  apply list_elem_of_split_length in Hb as (l3 & l4 & -> & ->).
  exists (length (filter P l1)), (length (filter P l1) + S (length (filter P l3))).
  split; [lia|].
  rewrite filter_app, filter_cons, decide_True, filter_app, filter_cons, decide_True
    by done.
  split.
  - rewrite lookup_app_r by lia. by rewrite Nat.sub_diag.
  - rewrite lookup_app_r by lia.
    replace (length (filter P l1) + S (length (filter P l3)) - length (filter P l1))
      with (S (length (filter P l3))) by lia.
    rewrite lookup_cons_ne_0 by lia. simpl.
    rewrite lookup_app_r by lia. by rewrite Nat.sub_diag.
Qed.

Lemma sequenced_distinct (l : list A) a b x y :
  sequenced key num l →
  l !! a = Some x → l !! b = Some y → a ≠ b → key x = key y → num x ≠ num y.
Proof.
  intros Hl Ha Hb Hne Hkey.
  assert (∀ a b x y, l !! a = Some x → l !! b = Some y → a < b → key x = key y →
                     num x ≠ num y) as Hlt.
  { clear a b x y Ha Hb Hne Hkey. intros a b x y Ha Hb Hab Hkey.
    destruct (filter_lookup_lt (λ z, key z = key y) l a b x y Ha Hb Hab Hkey eq_refl)
      as (i & j & Hij & Hi & Hj).
    specialize (Hl (key y)).
    apply (f_equal (λ t, t !! i)) in Hl as Hli.
    apply (f_equal (λ t, t !! j)) in Hl as Hlj.
    rewrite list_lookup_fmap, Hi in Hli. rewrite list_lookup_fmap, Hj in Hlj.
    simpl in *. symmetry in Hli, Hlj.
    apply lookup_seq in Hli as [Hi' _], Hlj as [Hj' _]. lia. }
  destruct (decide (a < b)) as [Hab|Hab].
  - by eapply Hlt.
  - intros Heq. eapply (Hlt b a y x); try done. lia.
Qed.
End numbering.

Lemma create_sales_order_rows ctx data db :
  sales_orders (create_sales_order ctx data db).2 = sales_orders db
  ∨ ∃ so, sales_orders (create_sales_order ctx data db).2 = sales_orders db ++ [so]
          ∧ order_key so = (organization_id ctx, soc_outlet_id data, today ctx)
          ∧ order_no so = generate_order_number (organization_id ctx) (soc_outlet_id data)
                                                (today ctx) db.
Proof.
  destruct (create_sales_order ctx data db) as [[r|e] db'] eqn:Hcall.
  - right. apply create_sales_order_inv in Hcall as (total & ois & _ & _ & _ & Hstore).
    simpl in *.
    match type of Hstore with for_each ?l ?b ?d = _ =>
      assert (sales_orders (for_each l b d).2 = sales_orders d) as Hsame by frame_tac end.
    rewrite Hstore in Hsame. simpl in Hsame. eexists. split; [exact Hsame|]. done.
  - left. revert Hcall. unfold create_sales_order, session.
    destruct (create_sales_order_body ctx data db) as [[r|e'] d]; [done|].
    by intros [= _ <-].
Qed.

Lemma handle_orders_numbered ctx r db :
  orders_numbered db → orders_numbered (handle ctx r db).
Proof.
  intros Hdb.
  destruct r; simpl;
    try (match goal with |- orders_numbered ?d =>
           assert (sales_orders d = sales_orders db) as Hsame end;
         [first [reflexivity | frame_tac]
         |unfold orders_numbered in *; by rewrite Hsame]).
  destruct (create_sales_order_rows ctx data db) as [Hsame|(so & Hrows & Hkey & Hno)];
    unfold orders_numbered in *; rewrite ?Hsame; [done|].
  rewrite Hrows. destruct Hdb as [Hseq Hday]. split.
  - apply sequenced_snoc; [done|]. rewrite Hno, Hkey. simpl. f_equal.
    apply (f_equal length), list_filter_iff. intros so'. unfold order_key.
    split; [by intros (-> & -> & ->)|by intros [= -> -> ->]].
  - apply Forall_app. split; [done|]. constructor; [|done].
    rewrite Hno. injection Hkey as _ _ ->. done.
Qed.

(** X14.  Order numbers are not reused.  In every state reached from a
    database without sales orders, two different sales orders of the same
    organization and outlet never carry the same day and sequence in their
    order numbers: the sequence of a number counts the orders of the outlet
    on that day, and orders are never removed. *)
Theorem order_numbers_are_distinct (rs : list (Context * Request)) (db : DB)
    (a b : nat) (so so' : SalesOrder) :
  sales_orders db = [] →
  sales_orders (run rs db) !! a = Some so →
  sales_orders (run rs db) !! b = Some so' →
  a ≠ b →
  so_organization_id so = so_organization_id so' →
  so_outlet_id so = so_outlet_id so' →
  (number_day (order_no so), number_sequence (order_no so))
  ≠ (number_day (order_no so'), number_sequence (order_no so')).
Proof.
  intros Hempty Ha Hb Hab Horg Houtlet.
  assert (orders_numbered (run rs db)) as [Hseq Hday].
  { apply preserves_run; [apply handle_orders_numbered|].
    unfold orders_numbered. rewrite Hempty. split; [apply sequenced_nil|constructor]. }
  rewrite Forall_forall in Hday.
  pose proof (Hday so (list_elem_of_lookup_2 _ _ _ Ha)) as Hda.
  pose proof (Hday so' (list_elem_of_lookup_2 _ _ _ Hb)) as Hdb.
  intros [= Hd Hs].
  eapply (sequenced_distinct order_key _ _ a b so so' Hseq Ha Hb Hab); [|exact Hs].
  unfold order_key. congruence.
Qed.

Lemma order_numbers_are_distinct_witness :
  ∃ so so',
    sales_orders (run [ (sample_ctx, CreateSalesOrder (sale_at_shop [bread 1]));
                        (sample_ctx, CreateSalesOrder (sale_at_shop [bread 1])) ]
                      sample_db) !! 0 = Some so
    ∧ sales_orders (run [ (sample_ctx, CreateSalesOrder (sale_at_shop [bread 1]));
                          (sample_ctx, CreateSalesOrder (sale_at_shop [bread 1])) ]
                        sample_db) !! 1 = Some so'
    ∧ order_no so ≠ order_no so'.
Proof.
  eexists _, _. split; [vm_compute; reflexivity|]. split; [vm_compute; reflexivity|].
  intros Heq.
  apply (order_numbers_are_distinct
           [ (sample_ctx, CreateSalesOrder (sale_at_shop [bread 1]));
             (sample_ctx, CreateSalesOrder (sale_at_shop [bread 1])) ]
           sample_db 0 1 _ _ eq_refl eq_refl eq_refl); [lia|reflexivity|reflexivity|].
  exact (f_equal (λ n, (number_day n, number_sequence n)) Heq).
Defined.

Lemma create_stock_request_appends ctx data db :
  stock_requests (create_stock_request ctx data db).2 = stock_requests db
  ∨ ∃ sr, stock_requests (create_stock_request ctx data db).2 = stock_requests db ++ [sr]
          ∧ request_key sr = (organization_id ctx, created_day ctx)
          ∧ request_no sr = generate_request_number (organization_id ctx) (today ctx) db.
Proof.
  destruct (create_stock_request ctx data db) as [r db'] eqn:Hcall. simpl.
  revert Hcall. unfold create_stock_request, session, create_stock_request_body.
  rewrite bind_apply. unfold query at 1.
  destruct (select_in_org _ _ _ _) as [from|]; simpl; [|intros [= _ <-]; by left].
  rewrite bind_apply. unfold query at 1.
  destruct (select_in_org _ _ _ _) as [to|]; simpl; [|intros [= _ <-]; by left].
  case_decide; simpl; [intros [= _ <-]; by left|].
  rewrite bind_apply. unfold query at 1.
  rewrite bind_apply, insert_returning_apply, bind_apply.
  match goal with |- context [for_each ?l ?b ?d] =>
    assert (stock_requests (for_each l b d).2 = stock_requests d) as Hsame by frame_tac;
    destruct (for_each l b d) as [[[]|e] d'] end; simpl in *;
    intros [= _ <-]; [|by left].
  right. eexists. split; [exact Hsame|]. done.
Qed.

Lemma create_stock_transfer_appends ctx data db :
  stock_transfers (create_stock_transfer ctx data db).2 = stock_transfers db
  ∨ ∃ t, stock_transfers (create_stock_transfer ctx data db).2 = stock_transfers db ++ [t]
         ∧ transfer_key t = (organization_id ctx, created_day ctx)
         ∧ transfer_no t = generate_transfer_number (organization_id ctx) (today ctx) db.
Proof.
  destruct (create_stock_transfer ctx data db) as [r db'] eqn:Hcall. simpl.
  revert Hcall. unfold create_stock_transfer, session, create_stock_transfer_body.
  rewrite bind_apply. unfold query at 1.
  destruct (select_in_org _ _ _ _) as [from|]; simpl; [|intros [= _ <-]; by left].
  rewrite bind_apply. unfold query at 1.
  destruct (select_in_org _ _ _ _) as [to|]; simpl; [|intros [= _ <-]; by left].
  rewrite bind_apply. unfold query at 1.
  rewrite bind_apply, insert_returning_apply, bind_apply.
  match goal with |- context [for_each ?l ?b ?d] =>
    assert (stock_transfers (for_each l b d).2 = stock_transfers d) as Hsame by frame_tac;
    destruct (for_each l b d) as [[[]|e] d'] end; simpl in *;
    intros [= _ <-]; [|by left].
  right. eexists. split; [exact Hsame|]. done.
Qed.

Lemma requests_numbered_alter st user id db :
  requests_numbered db →
  requests_numbered (with_stock_requests (alter (set_sr_status st user) id) db).
Proof.
  intros [Hseq Hday]. split; simpl.
  - by apply sequenced_alter.
  - by apply Forall_alter.
Qed.

Lemma transfers_numbered_alter st user id db :
  transfers_numbered db →
  transfers_numbered (with_stock_transfers (alter (set_st_status st user) id) db).
Proof.
  intros [Hseq Hday]. split; simpl.
  - by apply sequenced_alter.
  - by apply Forall_alter.
Qed.

Lemma handle_requests_numbered ctx r db :
  created_day ctx = today ctx →
  requests_numbered db → requests_numbered (handle ctx r db).
Proof.
  intros Hclock Hdb. destruct r; simpl.
  7: { destruct (create_stock_request_appends ctx data db)
         as [Hsame|(sr & Hrows & Hkey & Hno)];
         unfold requests_numbered in *; rewrite ?Hsame; [done|].
       rewrite Hrows. destruct Hdb as [Hseq Hday]. rewrite Hclock in Hkey. split.
       - apply sequenced_snoc; [done|]. rewrite Hno, Hkey. simpl. f_equal.
         apply (f_equal length), list_filter_iff. intros sr'. unfold request_key.
         split; [by intros (-> & ->)|by intros [= -> ->]].
       - apply Forall_app. split; [done|]. constructor; [|done].
         rewrite Hno. injection Hkey as _ ->. done. }
  18: exact Hdb.
  all: revert db Hdb;
    match goal with |- ∀ db, ?I db → ?I (?m db).2 => change (preserves I m) end;
    unfold_handlers; preserves_auto;
    try (intros ? HI; exact HI); try assumption.
  all: intros ? HI; by apply requests_numbered_alter.
Qed.

Lemma handle_transfers_numbered ctx r db :
  created_day ctx = today ctx →
  transfers_numbered db → transfers_numbered (handle ctx r db).
Proof.
  intros Hclock Hdb. destruct r; simpl.
  11: { destruct (create_stock_transfer_appends ctx data db)
          as [Hsame|(t & Hrows & Hkey & Hno)];
          unfold transfers_numbered in *; rewrite ?Hsame; [done|].
        rewrite Hrows. destruct Hdb as [Hseq Hday]. rewrite Hclock in Hkey. split.
        - apply sequenced_snoc; [done|]. rewrite Hno, Hkey. simpl. f_equal.
          apply (f_equal length), list_filter_iff. intros t'. unfold transfer_key.
          split; [by intros (-> & ->)|by intros [= -> ->]].
        - apply Forall_app. split; [done|]. constructor; [|done].
          rewrite Hno. injection Hkey as _ ->. done. }
  18: exact Hdb.
  all: revert db Hdb;
    match goal with |- ∀ db, ?I db → ?I (?m db).2 => change (preserves I m) end;
    unfold_handlers; preserves_auto;
    try (intros ? HI; exact HI); try assumption.
  all: intros ? HI; by apply transfers_numbered_alter.
Qed.

(** An invariant that the requests of [rs] keep, one after the other. *)
Lemma run_keeps (C : Context → Prop) (I : DB → Prop) :
  (∀ ctx r db, C ctx → I db → I (handle ctx r db)) →
  ∀ rs db, Forall (λ cr, C cr.1) rs → I db → I (run rs db).
Proof.
  intros Hh rs. unfold run.
  induction rs as [|[ctx r] rs IH]; intros db Hrs HI; simpl; [exact HI|].
  apply Forall_cons in Hrs as [Hctx Hrs]. by apply IH, Hh.
Qed.

(** X15.  Request and transfer numbers are unique.  Take requests that
    run one after the other, from a database without stock requests and
    stock transfers, and let the [created_at] that the database stamps on
    every new stock request and stock transfer fall on the day that
    [date.today()] gives the handler.  Then two different stock requests of
    an organization never carry the same request number, and two different
    stock transfers of an organization never carry the same transfer
    number. *)
Theorem request_and_transfer_numbers_are_unique (rs : list (Context * Request))
    (db : DB) :
  stock_requests db = [] → stock_transfers db = [] →
  Forall (λ cr, created_day cr.1 = today cr.1) rs →
  (∀ a b sr sr', stock_requests (run rs db) !! a = Some sr →
                 stock_requests (run rs db) !! b = Some sr' →
                 a ≠ b → sr_organization_id sr = sr_organization_id sr' →
                 request_no sr ≠ request_no sr')
  ∧ (∀ a b t t', stock_transfers (run rs db) !! a = Some t →
                 stock_transfers (run rs db) !! b = Some t' →
                 a ≠ b → st_organization_id t = st_organization_id t' →
                 transfer_no t ≠ transfer_no t').
Proof.
  intros Hsr Hst Hclock. split.
  - assert (requests_numbered (run rs db)) as [Hseq Hday].
    { apply (run_keeps (λ ctx, created_day ctx = today ctx)); [|done|].
      - intros ctx r d. apply handle_requests_numbered.
      - unfold requests_numbered. rewrite Hsr. split; [apply sequenced_nil|constructor]. }
    intros a b sr sr' Ha Hb Hab Horg Heq. rewrite Forall_forall in Hday.
    destruct (Hday sr (list_elem_of_lookup_2 _ _ _ Ha)) as [Hda _].
    destruct (Hday sr' (list_elem_of_lookup_2 _ _ _ Hb)) as [Hdb _].
    eapply (sequenced_distinct request_key _ _ a b sr sr' Hseq Ha Hb Hab).
    + unfold request_key. congruence.
    + by rewrite Heq.
  - assert (transfers_numbered (run rs db)) as [Hseq Hday].
    { apply (run_keeps (λ ctx, created_day ctx = today ctx)); [|done|].
      - intros ctx r d. apply handle_transfers_numbered.
      - unfold transfers_numbered. rewrite Hst. split; [apply sequenced_nil|constructor]. }
    intros a b t t' Ha Hb Hab Horg Heq. rewrite Forall_forall in Hday.
    destruct (Hday t (list_elem_of_lookup_2 _ _ _ Ha)) as [Hda _].
    destruct (Hday t' (list_elem_of_lookup_2 _ _ _ Hb)) as [Hdb _].
    eapply (sequenced_distinct transfer_key _ _ a b t t' Hseq Ha Hb Hab).
    + unfold transfer_key. congruence.
    + by rewrite Heq.
Qed.

Lemma request_and_transfer_numbers_are_unique_witness :
  ∃ sr sr',
    stock_requests (run [ (sample_ctx, CreateStockRequest sugar_request);
                          (sample_ctx, CreateStockRequest sugar_request) ]
                        no_documents) !! 0 = Some sr
    ∧ stock_requests (run [ (sample_ctx, CreateStockRequest sugar_request);
                            (sample_ctx, CreateStockRequest sugar_request) ]
                          no_documents) !! 1 = Some sr'
    ∧ request_no sr ≠ request_no sr'.
Proof.
  eexists _, _. split; [vm_compute; reflexivity|]. split; [vm_compute; reflexivity|].
  destruct (request_and_transfer_numbers_are_unique
              [ (sample_ctx, CreateStockRequest sugar_request);
                (sample_ctx, CreateStockRequest sugar_request) ]
              no_documents eq_refl eq_refl) as [Hsr _].
  - repeat constructor.
  - apply (Hsr 0 1); [reflexivity|reflexivity|lia|reflexivity].
Defined.

(** Where the two clocks disagree on the day the numbers repeat: the
    count of the second request looks for rows of a day that the first
    request was not stamped with. *)
Example request_numbers_repeat_across_midnight :
  ∃ sr sr',
    stock_requests (run [ (across_midnight, CreateStockRequest sugar_request);
                          (across_midnight, CreateStockRequest sugar_request) ]
                        no_documents) = [sr; sr']
    ∧ request_no sr = request_no sr'.
Proof. eexists _, _. split; [vm_compute; reflexivity|reflexivity]. Qed.

(** ** Purchase orders as stored *)

Lemma store_po_lines po_id items db :
  for_each items (λ item,
    execute (with_purchase_order_items (λ t, t ++ [
      {| poi_purchase_order_id := po_id;
         poi_ingredient_id := poic_ingredient_id item;
         qty_ordered := poic_qty_ordered item; qty_received := 0;
         poi_unit_id := poic_unit_id item; poi_unit_cost := poic_unit_cost item;
         poi_total_cost := poic_qty_ordered item * poic_unit_cost item;
         poi_notes := poic_notes item |} ]))) db
  = (Ok tt, with_purchase_order_items (λ t, t ++ (ordered_line po_id <$> items)) db).
Proof.
  unfold for_each. revert db. induction items as [|item items IH]; intros db; cbn [for_acc].
  - unfold ret. f_equal. destruct db. unfold with_purchase_order_items. simpl.
    by rewrite app_nil_r.
  - rewrite bind_apply. unfold execute at 1. rewrite IH. f_equal.
    unfold with_purchase_order_items. simpl. by rewrite <- app_assoc.
Qed.

Lemma create_purchase_order_run ctx data db :
  is_Some (select_in_org supplier_organization_id (organization_id ctx)
                         (poc_supplier_id data) (suppliers db)) →
  is_Some (select_in_org outlet_organization_id (organization_id ctx)
                         (poc_outlet_id data) (outlets db)) →
  create_purchase_order ctx data db
  = let po_id := length (purchase_orders db) in
    let number := generate_po_number (organization_id ctx) (today ctx) db in
    (Ok (po_id, number),
     with_purchase_order_items (λ t, t ++ (ordered_line po_id <$> poc_items data))
       (with_purchase_orders (λ t, t ++ [
          {| po_organization_id := organization_id ctx; po_no := number;
             po_supplier_id := poc_supplier_id data; po_outlet_id := poc_outlet_id data;
             po_status := PO_DRAFT; po_order_date := poc_order_date data;
             po_expected_date := poc_expected_date data; po_received_date := None;
             po_total_amount :=
               foldr (λ item acc, poic_qty_ordered item * poic_unit_cost item + acc)%Z
                     0%Z (poc_items data);
             po_notes := poc_notes data;
             po_created_by := user_id ctx; po_received_by := None |} ]) db)).
Proof.
  intros [supplier Hsupplier] [outlet Houtlet].
  unfold create_purchase_order, session, create_purchase_order_body.
  rewrite bind_apply. unfold query at 1. rewrite Hsupplier.
  rewrite bind_apply. unfold query at 1. rewrite Houtlet.
  rewrite bind_apply. unfold query at 1.
  rewrite bind_apply, insert_returning_apply, bind_apply.
  rewrite store_po_lines. done.
Qed.



(** X17.  What the sequence of a PO number counts.  The number of a new
    purchase order is PO-<today>-<n + 1>, where n counts the purchase
    orders of the organization whose order date is today.  So of two
    purchase orders created one after the other on the same day, the
    second gets the next sequence number when the first is dated today, and
    the same number as the first when the first carries another order
    date. *)
Theorem po_number_counts_order_dates (ctx : Context) (data data' : PurchaseOrderCreate)
    (db : DB) :
  is_Some (select_in_org supplier_organization_id (organization_id ctx)
                         (poc_supplier_id data) (suppliers db)) →
  is_Some (select_in_org outlet_organization_id (organization_id ctx)
                         (poc_outlet_id data) (outlets db)) →
  is_Some (select_in_org supplier_organization_id (organization_id ctx)
                         (poc_supplier_id data') (suppliers db)) →
  is_Some (select_in_org outlet_organization_id (organization_id ctx)
                         (poc_outlet_id data') (outlets db)) →
  ∃ id1 n1 db1 id2 n2 db2,
    create_purchase_order ctx data db = (Ok (id1, n1), db1)
    ∧ create_purchase_order ctx data' db1 = (Ok (id2, n2), db2)
    ∧ id2 = S id1
    ∧ number_prefix n2 = number_prefix n1
    ∧ number_day n2 = number_day n1
    ∧ number_sequence n2
      = number_sequence n1 + (if decide (poc_order_date data = today ctx) then 1 else 0).
Proof.
  intros Hs Ho Hs' Ho'.
  rewrite (create_purchase_order_run ctx data db Hs Ho). cbv zeta.
  eexists _, _, _. 
  match goal with |- ∃ _ _ _, (_, ?d) = _ ∧ _ =>
    assert (suppliers d = suppliers db) as Hsup by done;
    assert (outlets d = outlets db) as Hout by done;
    rewrite (create_purchase_order_run ctx data' d)
      by (rewrite ?Hsup, ?Hout; assumption) end.
  cbv zeta. eexists _, _, _. split; [done|]. split; [done|]. split_and!; try done.
  - simpl. rewrite length_app. simpl. lia.
  - simpl. rewrite filter_app, length_app, filter_cons, filter_nil. simpl.
    destruct (decide (poc_order_date data = today ctx)) as [Hd|Hd].
    + rewrite decide_True by done. simpl. lia.
    + rewrite decide_False by (intros [_ ?]; done). simpl. lia.
Qed.

Lemma po_number_counts_order_dates_witness :
  ∃ id1 id2 n db1 db2,
    create_purchase_order sample_ctx (flour_order 20231231) sample_db = (Ok (id1, n), db1)
    ∧ create_purchase_order sample_ctx (flour_order 20231231) db1 = (Ok (id2, n), db2)
    ∧ id1 ≠ id2.
Proof.
  destruct (po_number_counts_order_dates sample_ctx (flour_order 20231231)
              (flour_order 20231231) sample_db)
    as (id1 & n1 & db1 & id2 & n2 & db2 & H1 & H2 & Hid & Hp & Hd & Hs).
  - vm_compute. by eexists.
  - vm_compute. by eexists.
  - vm_compute. by eexists.
  - vm_compute. by eexists.
  - exists id1, id2, n1, db1, db2. split; [exact H1|]. split; [|lia].
    rewrite H2. do 3 f_equal. destruct n1, n2. simpl in *.
    f_equal; try done. lia.
Defined.

(** ** The recipe a sale is costed on *)

Lemma filter_imap_fmap {A B} (f : nat → A → B) (P : B → Prop) `{∀ y, Decision (P y)}
    (g : A → A) (l : list A) :
  (∀ i x, P (f i (g x)) ↔ P (f i x)) → (∀ i x, P (f i x) → f i (g x) = f i x) →
  filter P (imap f (g <$> l)) = filter P (imap f l).
Proof.
  revert f. induction l as [|x l IH]; intros f Hiff Hfix; [done|].
  rewrite fmap_cons, !imap_cons, !filter_cons.
  rewrite (IH (f ∘ S)) by (intros; simpl; auto).
  destruct (decide (P (f 0 x))) as [HP|HP].
  - rewrite decide_True by by apply Hiff. by rewrite Hfix.
  - rewrite decide_False; [done|]. by rewrite Hiff.
Qed.

Lemma filter_imap_none {A B} (f : nat → A → B) (P : B → Prop) `{∀ y, Decision (P y)}
    (l : list A) :
  (∀ i x, ¬ P (f i x)) → filter P (imap f l) = [].
Proof.
  revert f. induction l as [|x l IH]; intros f Hnone; [done|].
  rewrite imap_cons, filter_cons_False by apply Hnone.
  apply IH. intros i y. apply Hnone.
Qed.

Lemma max_version_bound menu_id db r :
  r ∈ recipes db → recipe_menu_id r = menu_id →
  (recipe_version r ≤ max_version menu_id db)%Z.
Proof.
  intros Hr Hm. unfold max_version.
  assert (r ∈ filter (λ r, recipe_menu_id r = menu_id) (recipes db)) as Hin
    by by apply list_elem_of_filter.
  destruct (filter _ (recipes db)) as [|r0 rs]; [by apply elem_of_nil in Hin|].
  assert (∀ (l : list Recipe) m, (m ≤ foldl (λ m r', Z.max m (recipe_version r')) m l)%Z
          ∧ ∀ x, x ∈ l → (recipe_version x
                          ≤ foldl (λ m r', Z.max m (recipe_version r')) m l)%Z) as Hfold.
  { induction l as [|y l IH]; intros m; simpl.
    - split; [lia|]. intros x Hx. by apply elem_of_nil in Hx.
    - destruct (IH (Z.max m (recipe_version y))) as [Hm' Hl]. split; [lia|].
      intros x [->|Hx]%elem_of_cons; [lia|by apply Hl]. }
  destruct (Hfold rs (recipe_version r0)) as [H0 Hrs].
  apply elem_of_cons in Hin as [->|Hin]; [done|by apply Hrs].
Qed.

(** X18.  A new recipe version takes over.  When [create_recipe_for_menu]
    succeeds, the version it returns is above every version the menu had.
    If the new recipe is active it is from then on the recipe that sales of
    the menu are costed and checked on; if it is not, that recipe is the
    same as before.  The recipes that the other menus are sold on do not
    change. *)
Theorem new_recipe_version_takes_over (ctx : Context) (menu_id : nat)
    (data : RecipeCreate) (db db' : DB) (recipe_id : nat) (version : Z) :
  create_recipe_for_menu ctx menu_id data db = (Ok (recipe_id, version), db') →
  (∀ r, r ∈ recipes db → recipe_menu_id r = menu_id → (recipe_version r < version)%Z)
  ∧ active_recipe menu_id db'
    = (if rc_is_active data then Some recipe_id else active_recipe menu_id db)
  ∧ (∀ m, m ≠ menu_id → active_recipe m db' = active_recipe m db).
Proof.
  intros Hcall.
  destruct (create_recipe_for_menu_recipes ctx menu_id data db)
    as (r & d & Heq & _ & Hr).
  rewrite Hcall in Heq. injection Heq as <- <-.
  destruct Hr as (_ & -> & -> & Hrecipes).
  assert (∀ m (row : Recipe) (t : list Recipe),
            filter (λ c : nat * Recipe, recipe_menu_id c.2 = m ∧ recipe_is_active c.2 = true)
                   (imap (λ n, pair (length t + n)) [row])
            = if decide (recipe_menu_id row = m ∧ recipe_is_active row = true)
              then [(length t, row)] else []) as Hlast.
  { intros m row t. cbn [imap]. rewrite Nat.add_0_r, filter_cons, filter_nil.
    simpl. by case_decide. }
  split; [|split].
  - intros r Hr Hm. pose proof (max_version_bound menu_id db r Hr Hm). lia.
  - unfold active_recipe. rewrite Hrecipes, imap_app, filter_app, Hlast. simpl.
    destruct (rc_is_active data) eqn:Hactive.
    + rewrite decide_True by done.
      unfold deactivate_recipes at 1. rewrite imap_fmap, filter_imap_none.
      * simpl. unfold deactivate_recipes. by rewrite length_fmap.
      * intros i x. simpl. case_decide; simpl; [by intros [_ ?]|by intros [? _]].
    + rewrite decide_False by (by intros [_ ?]). by rewrite app_nil_r.
  - intros m Hm. unfold active_recipe. rewrite Hrecipes, imap_app, filter_app, Hlast.
    simpl. rewrite decide_False by (intros [? _]; congruence). rewrite app_nil_r.
    destruct (rc_is_active data); [|done].
    unfold deactivate_recipes. by rewrite filter_imap_fmap;
      [|intros i x; simpl; case_decide; simpl; [split; intros [? _]; congruence|done]
       |intros i x [Hx _]; simpl in *; rewrite decide_False by congruence; done].
Qed.

Lemma new_recipe_version_takes_over_witness :
  active_recipe 0 sample_db = Some 0
  ∧ active_recipe 0 (create_recipe_for_menu sample_ctx 0 lighter_bread sample_db).2
    = Some 1.
Proof.
  split; [reflexivity|].
  pose proof (new_recipe_version_takes_over sample_ctx 0 lighter_bread sample_db
                _ _ _ eq_refl) as (_ & H & _).
  exact H.
Defined.

(** ** The plan limit on menus *)

(** X19.  Deleting a menu frees no slot.  [create_menu] is refused with
    "Menu limit reached" exactly when the organization has as many menus,
    deleted ones included, as its plan allows; and once it is refused it
    stays refused whatever menus are deleted or updated afterwards. *)
Theorem deleted_menus_count_against_limit (ctx : Context) (data : MenuCreate) (db : DB)
    (org : Organization) :
  organizations db !! organization_id ctx = Some org →
  let count db := length (filter (λ m, menu_organization_id m = organization_id ctx)
                                 (menus db)) in
  ((max_menu_items org ≤ Z.of_nat (count db))%Z
   ↔ create_menu ctx data db = (Raise (MenuLimitReached (max_menu_items org)), db))
  ∧ ∀ rs, Forall (λ cr, ∃ id, cr.2 = DeleteMenu id ∨ ∃ u, cr.2 = UpdateMenu id u) rs →
          (max_menu_items org ≤ Z.of_nat (count db))%Z →
          create_menu ctx data (run rs db)
          = (Raise (MenuLimitReached (max_menu_items org)), run rs db).
Proof.
  intros Horg count.
  assert (∀ d, organizations d !! organization_id ctx = Some org →
               ((max_menu_items org ≤ Z.of_nat (count d))%Z
                ↔ create_menu ctx data d = (Raise (MenuLimitReached (max_menu_items org)), d)))
    as Hiff.
  { intros d Hd. unfold create_menu, session, create_menu_body.
    rewrite bind_apply. unfold query at 1. rewrite bind_apply. unfold query at 1.
    rewrite Hd. fold (count d).
    destruct (decide (max_menu_items org ≤ Z.of_nat (count d))%Z) as [Hle|Hgt].
    - done.
    - split; [done|]. rewrite bind_apply, insert_returning_apply. cbv beta iota.
      rewrite bind_apply.
      destruct (mc_recipe data) as [recipe|].
      + rewrite bind_apply, insert_returning_apply. cbv beta iota.
        match goal with |- context [insert_recipe_items ?i ?l ?d] =>
          destruct (insert_recipe_items_frame i l d) as (d' & -> & _) end.
        done.
      + done. }
  split; [by apply Hiff|].
  intros rs Hrs Hfull.
  assert (organizations (run rs db) = organizations db
          ∧ menu_organization_id <$> menus (run rs db) = menu_organization_id <$> menus db)
    as [Horgs Hmenus].
  { clear Hfull. unfold run. revert db Horg. clear Hiff.
    induction Hrs as [|[c r] rs (id & Hr) _ IH]; intros db Horg; simpl; [done|].
    assert (organizations (handle c r db) = organizations db
            ∧ menu_organization_id <$> menus (handle c r db)
              = menu_organization_id <$> menus db) as [Ho Hm].
    { simpl in Hr. destruct Hr as [->|[u ->]]; simpl.
      - unfold delete_menu, session, delete_menu_body.
        rewrite bind_apply. unfold query.
        destruct (select_in_org _ _ _ _); simpl; [|done]. split; [done|].
        apply list_eq. intros i. rewrite !list_lookup_fmap, list_lookup_alter.
        case_decide; [subst|done]. by destruct (menus db !! i).
      - unfold update_menu, session, update_menu_body.
        rewrite bind_apply. unfold query.
        destruct (select_in_org _ _ _ _); simpl; [|done].
        destruct (no_update_fields u); simpl; [done|]. split; [done|].
        apply list_eq. intros i. rewrite !list_lookup_fmap, list_lookup_alter.
        case_decide; [subst|done]. by destruct (menus db !! i). }
    destruct (IH (handle c r db)) as [Ho' Hm']; [by rewrite Ho|].
    split; congruence. }
  apply Hiff; [by rewrite Horgs|].
  assert (∀ d, count d
               = length (filter (λ o, o = organization_id ctx)
                                (menu_organization_id <$> menus d))) as Hcount.
  { intros d. unfold count. induction (menus d) as [|m l IHl]; [done|].
    rewrite fmap_cons, !filter_cons. case_decide; simpl; by rewrite IHl. }
  by rewrite Hcount, Hmenus, <- Hcount.
Qed.

Lemma deleted_menus_count_against_limit_witness :
  create_menu sample_ctx bread_menu (run [ (sample_ctx, DeleteMenu 0) ] one_menu_plan)
  = (Raise (MenuLimitReached 1), run [ (sample_ctx, DeleteMenu 0) ] one_menu_plan).
Proof.
  destruct (deleted_menus_count_against_limit sample_ctx bread_menu one_menu_plan
              {| max_menu_items := 1 |} eq_refl) as [_ H].
  apply (H [ (sample_ctx, DeleteMenu 0) ]).
  - repeat constructor. exists 0. by left.
  - vm_compute. discriminate.
Defined.

(** ** The menu engineering report *)

Ltac key_solve :=
  unfold key_lt in *; simpl in *;
  rewrite ?orb_true_iff, ?orb_false_iff, ?andb_true_iff, ?andb_false_iff,
    ?Z.ltb_lt, ?Z.ltb_ge, ?Z.eqb_eq, ?Z.eqb_neq in *;
  lia.

Lemma insert_by_Permutation {A} (key : A → Z * Z) x l : insert_by key x l ≡ₚ x :: l.
Proof.
  induction l as [|y l IH]; simpl; [done|].
  destruct (key_lt (key x) (key y)); [done|]. rewrite IH. apply Permutation_swap.
Qed.

Lemma sort_by_Permutation {A} (key : A → Z * Z) l : sort_by key l ≡ₚ l.
Proof.
  unfold sort_by.
  assert (∀ acc, foldl (λ sorted x, insert_by key x sorted) acc l ≡ₚ acc ++ l) as H.
  { induction l as [|x l IH]; intros acc; simpl; [by rewrite app_nil_r|].
    rewrite IH, insert_by_Permutation. simpl. apply Permutation_middle. }
  by rewrite H.
Qed.

Lemma insert_by_sorted {A} (key : A → Z * Z) x l :
  StronglySorted (λ a b, key_lt (key b) (key a) = false) l →
  StronglySorted (λ a b, key_lt (key b) (key a) = false) (insert_by key x l).
Proof.
  induction 1 as [|y l Hl IH Hy]; simpl; [repeat constructor|].
  destruct (key_lt (key x) (key y)) eqn:Hxy.
  - constructor; [by constructor|]. constructor.
    + destruct (key x), (key y). key_solve.
    + eapply Forall_impl; [exact Hy|]. intros z Hz. simpl in Hz.
      destruct (key x), (key y), (key z). key_solve.
  - constructor; [exact IH|]. rewrite insert_by_Permutation. by constructor.
Qed.

Lemma sort_by_sorted {A} (key : A → Z * Z) l :
  StronglySorted (λ a b, key_lt (key b) (key a) = false) (sort_by key l).
Proof.
  unfold sort_by.
  assert (∀ acc, StronglySorted (λ a b, key_lt (key b) (key a) = false) acc →
                 StronglySorted (λ a b, key_lt (key b) (key a) = false)
                                (foldl (λ sorted x, insert_by key x sorted) acc l)) as H.
  { induction l as [|x l IH]; intros acc Hacc; simpl; [done|].
    apply IH. by apply insert_by_sorted. }
  apply H. constructor.
Qed.

Lemma StronglySorted_impl {A} (R R' : A → A → Prop) l :
  (∀ x y, R x y → R' x y) → StronglySorted R l → StronglySorted R' l.
Proof.
  intros HR. induction 1 as [|x l Hl IH Hx]; constructor; [done|].
  eapply Forall_impl; [exact Hx|]. apply HR.
Qed.

(** X20.  The order of the report.  The report lists every menu of the
    query exactly once, the STAR menus first, then PLOWHORSE, PUZZLE and
    DOG, and within each classification the menus sold more often first. *)
Theorem report_is_sorted (results : list MenuSales) :
  mei_menu_id <$> get_menu_engineering_report results ≡ₚ ms_menu_id <$> results
  ∧ StronglySorted report_order (get_menu_engineering_report results).
Proof.
  unfold get_menu_engineering_report. destruct results as [|r results]; [by repeat constructor|].
  set (l := r :: results). clearbody l. split.
  - rewrite sort_by_Permutation, <- list_fmap_compose. done.
  - eapply StronglySorted_impl; [|apply sort_by_sorted].
    intros x y Hxy. unfold report_order, sort_key in *.
    assert (classification_order (mei_classification x)
            = classification_order (mei_classification y) →
            mei_classification x = mei_classification y) as Hinj
      by (by destruct (mei_classification x), (mei_classification y)).
    destruct (decide (classification_order (mei_classification x)
                      < classification_order (mei_classification y))%Z) as [Hlt|Hge];
      [by left|right].
    assert (classification_order (mei_classification x)
            = classification_order (mei_classification y)) as Heq by key_solve.
    split; [by apply Hinj|]. key_solve.
Qed.

Lemma positive_true x : positive x = true ↔ (0 < x)%Q.
Proof.
  unfold positive. rewrite negb_true_iff. split.
  - intros H. apply Qnot_le_lt. intros Hle. apply Qle_bool_iff in Hle. congruence.
  - intros H. destruct (Qle_bool x 0) eqn:E; [|done].
    apply Qle_bool_iff in E. lra.
Qed.

Lemma at_least_one_true x : at_least_one x = true ↔ (1 <= x)%Q.
Proof. apply Qle_bool_iff. Qed.

Lemma Qsum_below (l : list Q) (a : Q) :
  l ≠ [] → Forall (λ x, (x < a)%Q) l →
  (Qsum l < inject_Z (Z.of_nat (length l)) * a)%Q.
Proof.
  intros Hne Hall. induction Hall as [|x l Hx Hl IH]; [done|].
  cbn [Qsum foldr length]. rewrite Nat2Z.inj_succ, <- Z.add_1_l, inject_Z_plus.
  change (inject_Z 1) with 1%Q.
  destruct l as [|y l].
  - change (inject_Z (Z.of_nat (length []))) with 0%Q. cbn [foldr]. lra.
  - specialize (IH ltac:(done)). unfold Qsum in IH. lra.
Qed.

Lemma above_average (l : list Q) :
  l ≠ [] → ∃ x, x ∈ l ∧ (Qsum l / inject_Z (Z.of_nat (length l)) <= x)%Q.
Proof.
  intros Hne.
  set (a := (Qsum l / inject_Z (Z.of_nat (length l)))%Q).
  destruct (Forall_Exists_dec (λ x, (x < a)%Q) (λ x, ¬ (x < a)%Q)
              (λ x, match Qlt_le_dec x a with
                    | left H => left H
                    | right H => right (Qle_not_lt _ _ H)
                    end) l) as [Hall|Hex].
  - exfalso. pose proof (Qsum_below l a Hne Hall) as Hlt.
    assert (0 < inject_Z (Z.of_nat (length l)))%Q as Hn.
    { change 0%Q with (inject_Z 0). rewrite <- Zlt_Qlt.
      destruct l; [done|]. simpl. lia. }
    assert (inject_Z (Z.of_nat (length l)) * a == Qsum l)%Q as Heq
      by (unfold a; field; lra).
    lra.
  - apply Exists_exists in Hex as (x & Hx & Hge). exists x. split; [done|].
    by apply Qnot_lt_le.
Qed.

Lemma Qsum_inject_Z (l : list Z) : (Qsum (inject_Z <$> l) == inject_Z (Zsum l))%Q.
Proof.
  induction l as [|x l IH]; [done|].
  cbn [Qsum Zsum foldr fmap list_fmap]. rewrite inject_Z_plus.
  unfold Qsum, Zsum in IH. by rewrite IH.
Qed.

Lemma Zsum_positive (l : list Z) : l ≠ [] → Forall (λ x, 0 < x)%Z l → (0 < Zsum l)%Z.
Proof.
  intros Hne Hall. induction Hall as [|x l Hx Hl IH]; [done|].
  cbn [Zsum foldr]. destruct l as [|y l]; [simpl; lia|].
  specialize (IH ltac:(done)). unfold Zsum in IH. lia.
Qed.

Lemma classify_popular p q : classify p q = STAR ∨ classify p q = PLOWHORSE ↔ p = true.
Proof. destruct p, q; unfold classify; simpl; intuition congruence. Qed.

Lemma classify_profitable p q : classify p q = STAR ∨ classify p q = PUZZLE ↔ q = true.
Proof. destruct p, q; unfold classify; simpl; intuition congruence. Qed.

(** X21.  Who is popular and who is profitable.  A report made from a
    query with rows, each with at least one sale, always classifies some
    menu as popular (STAR or PLOWHORSE); and it classifies some menu as
    profitable (STAR or PUZZLE) exactly when the average of the profit
    margins of the rows is positive. *)
Theorem report_has_a_popular_menu (results : list MenuSales) :
  results ≠ [] →
  Forall (λ r, 0 < ms_total_qty_sold r)%Z results →
  Exists popular (get_menu_engineering_report results)
  ∧ (Exists profitable (get_menu_engineering_report results)
     ↔ (0 < average_margin results)%Q).
Proof.
  intros Hne Hsold. unfold get_menu_engineering_report, average_margin.
  destruct results as [|r0 results0] eqn:Hres; [done|]. rewrite <- Hres in *.
  assert (0 < length results) as Hlen by (rewrite Hres; simpl; lia).
  rewrite length_fmap, !decide_True by done.
  set (avg_qty := (inject_Z (Zsum (ms_total_qty_sold <$> results))
                   / inject_Z (Z.of_nat (length results)))%Q).
  set (avg_margin := (Qsum (profit_margin <$> results)
                      / inject_Z (Z.of_nat (length results)))%Q).
  assert (0 < inject_Z (Z.of_nat (length results)))%Q as Hn.
  { change 0%Q with (inject_Z 0). rewrite <- Zlt_Qlt. lia. }
  assert (∀ P, Exists P (sort_by sort_key (classify_row avg_qty avg_margin <$> results))
               ↔ ∃ r, r ∈ results ∧ P (classify_row avg_qty avg_margin r)) as Hex.
  { intros P. rewrite Exists_exists. split.
    - intros (x & Hx & HP). rewrite sort_by_Permutation in Hx.
      apply list_elem_of_fmap in Hx as (r & -> & Hr). by exists r.
    - intros (r & Hr & HP). eexists. split; [|exact HP].
      rewrite sort_by_Permutation. by apply list_elem_of_fmap_2. }
  split.
  - apply Hex.
    assert (0 < avg_qty)%Q as Havg.
    { unfold avg_qty. apply Qlt_shift_div_l; [done|]. rewrite Qmult_0_l.
      change 0%Q with (inject_Z 0). rewrite <- Zlt_Qlt.
      apply Zsum_positive; [by rewrite Hres|]. by apply Forall_fmap. }
    destruct (above_average (inject_Z <$> (ms_total_qty_sold <$> results)))
      as (x & Hx & Hge); [by rewrite Hres|].
    apply list_elem_of_fmap in Hx as (q & -> & Hq).
    apply list_elem_of_fmap in Hq as (r & -> & Hr).
    rewrite Qsum_inject_Z, !length_fmap in Hge. fold avg_qty in Hge.
    exists r. split; [done|]. unfold popular, classify_row. simpl.
    apply classify_popular, at_least_one_true.
    rewrite (proj2 (positive_true avg_qty) Havg).
    apply Qle_shift_div_l; [done|]. lra.
  - rewrite Hex. split.
    + intros (r & Hr & Hp). unfold profitable, classify_row in Hp. simpl in Hp.
      apply classify_profitable, at_least_one_true in Hp.
      destruct (positive avg_margin) eqn:Hpos; [by apply positive_true|lra].
    + intros Hpos.
      destruct (above_average (profit_margin <$> results)) as (x & Hx & Hge);
        [by rewrite Hres|].
      apply list_elem_of_fmap in Hx as (r & -> & Hr).
      rewrite length_fmap in Hge. fold avg_margin in Hge.
      exists r. split; [done|]. unfold profitable, classify_row. simpl.
      apply classify_profitable, at_least_one_true.
      rewrite (proj2 (positive_true avg_margin) Hpos).
      apply Qle_shift_div_l; [done|]. lra.
Qed.

Lemma report_has_a_popular_menu_witness :
  Exists popular (get_menu_engineering_report sample_sales)
  ∧ mei_classification <$> get_menu_engineering_report sample_sales
    = [PLOWHORSE; PUZZLE; DOG].
Proof.
  split; [|vm_compute; reflexivity].
  apply report_has_a_popular_menu.
  - discriminate.
  - repeat constructor.
Defined.

(** ** Roles *)

Lemma create_sales_order_back_office ctx data db :
  back_office (create_sales_order ctx data db).2 = back_office db.
Proof.
  assert (preserves (λ d, back_office d = back_office db) (create_sales_order ctx data))
    as H; [|by apply H].
  unfold_handlers. preserves_auto; intros ? HI; exact HI.
Qed.

(** X22.  What the roles may change.  OWNER and ADMIN pass the role check
    of every state-changing endpoint, each of the ten administration
    endpoints included.  A role that no endpoint names passes none and
    changes nothing.  A CASHIER passes the check of [create_sales_order]
    only: whatever cashiers request, the organizations, outlets,
    ingredients, suppliers, menus, recipes, purchase orders, stock requests
    and stock transfers stay as they are. *)
Theorem what_the_roles_may_change (ctx : Context) (e : AdministrationEndpoint)
    (r : Request) (db : DB) :
  (∀ role, role = "OWNER"%string ∨ role = "ADMIN"%string →
           require_role (allowed_roles r e) role = inr role
           ∧ guarded_handle role ctx e r db = handle ctx r db)
  ∧ (∀ role : string, role ∉ named_roles →
                      require_role (allowed_roles r e) role
                      = inl (AccessDenied (allowed_roles r e))
                      ∧ guarded_handle role ctx e r db = db)
  ∧ (∀ rs, Forall (λ x, x.1.1.1 = "CASHIER"%string) rs →
           back_office (guarded_run rs db) = back_office db).
Proof.
  assert (∀ (x : string) (l : list string), bool_decide (x ∈ l) = true → x ∈ l) as Hin
    by (intros x l; apply bool_decide_eq_true_1).
  assert (∀ (x : string) (l : list string), bool_decide (x ∈ l) = false → x ∉ l) as Hout
    by (intros x l; apply bool_decide_eq_false_1).
  split_and!.
  - intros role [-> | ->]; unfold guarded_handle, require_role;
      destruct r; try destruct e;
      by rewrite decide_True by (apply Hin; vm_compute; reflexivity).
  - intros role Hrole. unfold guarded_handle, require_role.
    rewrite decide_False; [done|].
    intros H. apply Hrole. revert H.
    unfold named_roles.
    destruct r; try destruct e; simpl; rewrite !elem_of_cons, !elem_of_nil; tauto.
  - intros rs Hrs. unfold guarded_run. revert db.
    induction Hrs as [|[[[role c] e'] rq] rs Hrole _ IH]; intros db; simpl; [done|].
    simpl in Hrole. subst role. rewrite IH.
    unfold guarded_handle, require_role.
    destruct rq;
      try (rewrite decide_False by (apply Hout; vm_compute; reflexivity); done);
      try (destruct e'; rewrite decide_False by (apply Hout; vm_compute; reflexivity);
           done).
    rewrite decide_True by (apply Hin; vm_compute; reflexivity).
    simpl. apply create_sales_order_back_office.
Qed.

(** ** Conversions follow the stored rows *)

(** X23.  Conversions follow the stored direction.  [convert_unit] returns
    a result exactly when the table has a row from [from_unit_id] to
    [to_unit_id] that the request may use, a global row or a row of its
    ingredient: the result is the quantity times the multiplier of such a
    row, a row of the ingredient when there is one.  In every other case it
    answers ConversionNotFound, whatever rows the table has for the
    opposite direction, and it never divides by a multiplier of zero.  So a
    quantity converted along a stored row cannot be converted back unless
    the table also stores a row for the way back. *)
Theorem convert_unit_follows_stored_rows (from_unit_id to_unit_id : nat) (quantity : Q)
    (ingredient_id : option nat) (unit_conversions : list UnitConversion) :
  match convert_unit from_unit_id to_unit_id quantity ingredient_id unit_conversions with
  | Ok c =>
      ∃ r, multiplier_row from_unit_id to_unit_id ingredient_id unit_conversions r
           ∧ preferred from_unit_id to_unit_id ingredient_id unit_conversions r
           ∧ c = {| from_quantity := quantity;
                    to_quantity := quantity * multiplier r;
                    used_multiplier := multiplier r |}
  | Raise e =>
      e = ConversionNotFound
      ∧ ∀ r, ¬ multiplier_row from_unit_id to_unit_id ingredient_id unit_conversions r
  end.
Proof.
  pose proof (select_multiplier_spec from_unit_id to_unit_id ingredient_id
                unit_conversions) as Hrow.
  unfold convert_unit. cbn [p_from_unit_id p_to_unit_id].
  destruct (select_multiplier from_unit_id to_unit_id ingredient_id unit_conversions)
    as [r|].
  - exists r. by destruct Hrow.
  - done.
Qed.

(** ** Outlets *)

Lemma filter_alter_length {A} (P : A → Prop) `{∀ x, Decision (P x)} (f : A → A)
    (i : nat) (l : list A) :
  length (filter P l) ≤ length (filter P (alter f i l)) + 1.
Proof.
  revert i. induction l as [|x l IH]; intros [|i]; try (simpl; lia).
  - change (alter f 0 (x :: l)) with (f x :: l). rewrite !filter_cons.
    destruct (decide (P x)), (decide (P (f x))); simpl; lia.
  - change (alter f (S i) (x :: l)) with (x :: alter f i l). rewrite !filter_cons.
    specialize (IH i). destruct (decide (P x)); simpl; lia.
Qed.

Lemma filter_alter_same {A} (P : A → Prop) `{∀ x, Decision (P x)} (f : A → A)
    (i : nat) (l : list A) :
  (∀ x, l !! i = Some x → (P (f x) ↔ P x)) →
  length (filter P (alter f i l)) = length (filter P l).
Proof.
  revert i. induction l as [|x l IH]; intros [|i] Hf; try done.
  - change (alter f 0 (x :: l)) with (f x :: l). rewrite !filter_cons.
    specialize (Hf x eq_refl).
    destruct (decide (P x)), (decide (P (f x))); simpl; tauto.
  - change (alter f (S i) (x :: l)) with (x :: alter f i l). rewrite !filter_cons.
    specialize (IH i Hf). destruct (decide (P x)); simpl; lia.
Qed.

Lemma handle_outlet_cases plans org r t :
  handle_outlet plans org r t = t
  ∨ (∃ row plan, handle_outlet plans org r t = t ++ [row]
       ∧ or_organization_id row = org ∧ plans !! org = Some plan
       ∧ (Z.of_nat (length (filter (λ o, or_organization_id o = org) t))
          < max_outlets plan)%Z
       ∧ ¬ Exists (λ o, or_organization_id o = org ∧ or_code o = or_code row) t)
  ∨ (∃ f outlet_id existing,
       handle_outlet plans org r t = alter f outlet_id t
       ∧ t !! outlet_id = Some existing ∧ or_organization_id existing = org
       ∧ (∀ o, or_organization_id (f o) = or_organization_id o
               ∧ or_code (f o) = or_code o ∧ or_type (f o) = or_type o)
       ∧ match r with
         | DeleteOutlet _ =>
             f = set_outlet_inactive
             ∧ (or_type existing = "CENTRAL"%string → 2 ≤ length (active_centrals org t))
         | _ => True
         end).
Proof.
  destruct r as [data|outlet_id data|outlet_id]; simpl.
  - unfold create_outlet. destruct (plans !! org) as [plan|]; [|by left].
    repeat (case_decide; [by left|]).
    right. left. eexists _, plan. split; [done|]. simpl. split_and!; try done. lia.
  - unfold update_outlet.
    destruct (select_in_org _ _ _ _) as [existing|] eqn:Hsel; [|by left].
    apply select_in_org_Some in Hsel as [Hrow Horg].
    destruct (ou_name data), (ou_address data), (ou_phone data), (ou_is_active data);
      try (by left); right; right; eexists _, _, _; split_and!; done.
  - unfold delete_outlet.
    destruct (select_in_org _ _ _ _) as [existing|] eqn:Hsel; [|by left].
    apply select_in_org_Some in Hsel as [Hrow Horg].
    case_decide as Hlast; [by left|].
    right. right. eexists _, _, _. split_and!; try done.
    intros Hc. destruct (decide (2 ≤ length (active_centrals org t))); [done|].
    destruct Hlast. split; [done|lia].
Qed.

Lemma handle_outlet_invariant plans org r t :
  outlet_codes_unique t ∧ within_outlet_limit plans t →
  outlet_codes_unique (handle_outlet plans org r t)
  ∧ within_outlet_limit plans (handle_outlet plans org r t).
Proof.
  intros [Hcodes Hlimit].
  destruct (handle_outlet_cases plans org r t)
    as [->|[(row & plan & -> & Horg & Hplan & Hcount & Hfresh)
           |(f & id & existing & -> & Hrow & Horg & Hf & _)]]; [done|..].
  - split.
    + intros i j o o' Hi Hj Hij Hsame Hcode.
      assert (∀ k x, t !! k = Some x → or_organization_id x = org →
                     or_code x ≠ or_code row) as Hnew.
      { intros k x Hk Hx Hc. apply Hfresh, Exists_exists. exists x.
        split; [by eapply list_elem_of_lookup_2|done]. }
      apply lookup_snoc_Some in Hi as [[Hi Hti]|[Hi Hti]];
        apply lookup_snoc_Some in Hj as [[Hj Htj]|[Hj Htj]]; simplify_eq.
      all: first [ by eapply (Hcodes i j)
                 | eapply Hnew; [eassumption|congruence|congruence] ].
    + intros org' plan' Hplan'. rewrite filter_app, length_app, filter_cons, filter_nil.
      specialize (Hlimit org' plan' Hplan').
      destruct (decide (or_organization_id row = org')) as [Heq|Hne]; simpl; [|lia].
      rewrite <- Heq, Horg in *. rewrite Hplan in Hplan'. injection Hplan' as <-. lia.
  - split.
    + intros i j o o' Hi Hj Hij Hsame Hcode.
      rewrite list_lookup_alter in Hi, Hj.
      assert (∀ k x, (if decide (id = k) then f <$> t !! id else t !! k) = Some x →
                     ∃ x0, t !! k = Some x0
                           ∧ or_organization_id x = or_organization_id x0
                           ∧ or_code x = or_code x0) as Hback.
      { intros k x Hk. case_decide.
        - subst k. destruct (t !! id) as [x0|]; [|done]. injection Hk as <-.
          exists x0. split; [done|]. by destruct (Hf x0) as (-> & -> & _).
        - by exists x. }
      destruct (Hback i o Hi) as (o0 & Hi0 & Ho & Hc).
      destruct (Hback j o' Hj) as (o0' & Hj0 & Ho' & Hc').
      apply (Hcodes i j o0 o0'); congruence.
    + intros org' plan' Hplan'. rewrite filter_alter_same; [by apply Hlimit|].
      intros x _. by destruct (Hf x) as (-> & _).
Qed.

(** X24.  Outlet codes and the outlet limit.  Whatever outlets are
    created, updated and deleted, no two outlets of an organization share a
    code, and no organization has more outlets, deleted ones included, than
    its plan allows, as long as both held before. *)
Theorem outlets_keep_codes_and_limit (plans : list OrganizationPlan)
    (rs : list (nat * OutletRequest)) (t : list OutletRow) :
  outlet_codes_unique t → within_outlet_limit plans t →
  outlet_codes_unique (run_outlets plans rs t)
  ∧ within_outlet_limit plans (run_outlets plans rs t).
Proof.
  intros Hcodes Hlimit. unfold run_outlets. revert t Hcodes Hlimit.
  induction rs as [|[org r] rs IH]; intros t Hcodes Hlimit; simpl; [done|].
  destruct (handle_outlet_invariant plans org r t) as [Hc Hl]; [done|].
  by apply IH.
Qed.

Lemma outlets_keep_codes_and_limit_witness :
  outlet_codes_unique
    (run_outlets two_outlet_plan
       [ (0, CreateOutlet kitchen); (0, CreateOutlet kitchen); (0, CreateOutlet shop) ] [])
  ∧ length (run_outlets two_outlet_plan
              [ (0, CreateOutlet kitchen); (0, CreateOutlet kitchen);
                (0, CreateOutlet shop) ] []) = 2.
Proof.
  split; [|reflexivity].
  apply (outlets_keep_codes_and_limit two_outlet_plan).
  - intros i j o o' Hi. by rewrite lookup_nil in Hi.
  - intros org plan Hplan. simpl.
    destruct org as [|org]; simpl in Hplan; [by injection Hplan as <-|done].
Defined.

(** X25.  Deleting outlets keeps a central outlet.  An organization that
    has an active CENTRAL outlet still has one after any [delete_outlet],
    whoever calls it and whatever outlet it names. *)
Theorem delete_outlet_keeps_a_central (plans : list OrganizationPlan) (org caller : nat)
    (outlet_id : nat) (t : list OutletRow) :
  has_active_central org t →
  has_active_central org (handle_outlet plans caller (DeleteOutlet outlet_id) t).
Proof.
  unfold has_active_central. intros Hcentral.
  destruct (handle_outlet_cases plans caller (DeleteOutlet outlet_id) t)
    as [->|[(row & plan & Heq & _)
           |(f & id & existing & -> & Hrow & Horg & Hf & -> & Htwo)]]; [done|..].
  - exfalso. revert Heq. simpl. unfold delete_outlet.
    destruct (select_in_org _ _ _ _); [|by intros ?%(f_equal length);
      rewrite length_app in *; simpl in *; lia].
    case_decide; intros H'%(f_equal length);
      rewrite ?length_app, ?length_alter in H'; simpl in H'; lia.
  - intros Hnone.
    assert (length (active_centrals org (alter set_outlet_inactive id t)) = 0) as Hzero
      by by rewrite Hnone.
    destruct (decide (or_organization_id existing = org ∧ or_type existing = "CENTRAL"%string))
      as [[Ho Hc]|Hother].
    + assert (caller = org) as -> by congruence.
      pose proof (filter_alter_length
                    (λ o, or_organization_id o = org ∧ or_type o = "CENTRAL"%string
                          ∧ or_is_active o = true) set_outlet_inactive id t) as Hle.
      specialize (Htwo Hc). unfold active_centrals in *. lia.
    + unfold active_centrals in *. rewrite filter_alter_same in Hzero.
      * apply Hcentral. by apply length_zero_iff_nil.
      * intros x Hx. rewrite Hrow in Hx. injection Hx as <-. simpl. tauto.
Qed.

Lemma delete_outlet_keeps_a_central_witness :
  has_active_central 0
    (handle_outlet two_outlet_plan 0 (DeleteOutlet 0)
       (run_outlets two_outlet_plan [ (0, CreateOutlet kitchen); (0, CreateOutlet shop) ] [])).
Proof.
  apply delete_outlet_keeps_a_central. vm_compute. discriminate.
Defined.

(** ** Ingredients *)

Lemma truthy_text_Some s sku : truthy_text s = Some sku ↔ s = Some sku ∧ sku ≠ EmptyString.
Proof. destruct s as [[|c s]|]; simpl; intuition congruence. Qed.

Lemma truthy_text_None s : truthy_text s = None ↔ s = None ∨ s = Some EmptyString.
Proof. destruct s as [[|c s]|]; simpl; intuition congruence. Qed.

Lemma create_ingredient_unique org data db t :
  skus_unique t → skus_unique (handle_ingredient org (CreateIngredient data) db t).
Proof.
  intros Hunique. simpl. unfold create_ingredient.
  assert (∀ row, ir_organization_id row = org → ir_sku row = ic_sku data →
                 (∀ sku, truthy_text (ic_sku data) = Some sku →
                         ¬ Exists (λ i, ir_organization_id i = org ∧ ir_sku i = Some sku) t) →
                 skus_unique (t ++ [row])) as Happend.
  { intros row Horg Hsku Hfresh i j r r' sku Hi Hj Hij Hsame Hr Hr'.
    destruct (decide (sku = EmptyString)) as [|Hne]; [done|exfalso].
    assert (∀ k x, t !! k = Some x → ir_organization_id x = org →
                   ir_sku x = Some sku → ir_sku row = Some sku → False) as Hnew.
    { intros k x Hk Hx Hs Hrow. rewrite Hsku in Hrow.
      apply (Hfresh sku); [by apply truthy_text_Some|].
      apply Exists_exists. exists x. split; [by eapply list_elem_of_lookup_2|done]. }
    apply lookup_snoc_Some in Hi as [[Hi Hti]|[Hi Hti]];
      apply lookup_snoc_Some in Hj as [[Hj Htj]|[Hj Htj]]; simplify_eq.
    - by apply Hne, (Hunique i j r r').
    - eapply (Hnew i r); congruence.
    - eapply (Hnew j r'); congruence. }
  destruct (truthy_text (ic_sku data)) as [sku|] eqn:Hsku.
  - case_decide as Htaken; [done|].
    destruct (units db !! ic_base_unit_id data); [|done].
    apply Happend; [done..|]. by intros ? [= <-].
  - destruct (units db !! ic_base_unit_id data); [|done].
    apply Happend; [done..|]. by intros ? [=].
Qed.

Lemma alter_ingredient_unique (f : IngredientRow → IngredientRow) org id existing t :
  skus_unique t →
  t !! id = Some existing → ir_organization_id existing = org →
  (∀ r, ir_organization_id (f r) = ir_organization_id r) →
  (ir_sku (f existing) = ir_sku existing
   ∨ ∃ sku, ir_sku (f existing) = Some sku
            ∧ (sku = EmptyString ∨ ¬ sku_taken org id sku t)) →
  skus_unique (alter f id t).
Proof.
  intros Hunique Hrow Horg Hf Hsku i j r r' sku Hi Hj Hij Hsame Hr Hr'.
  destruct (decide (sku = EmptyString)) as [|Hne]; [done|exfalso].
  rewrite list_lookup_alter in Hi, Hj.
  assert (∀ k x, k ≠ id → t !! k = Some x → ir_organization_id x = org →
                 ir_sku x = Some sku → ir_sku (f existing) = Some sku → False) as Hother.
  { intros k x Hk Hx Ho Hs Hnew. destruct Hsku as [Hsame'|(s & Hs' & [->|Hfree])].
    - apply Hne, (Hunique k id x existing sku); try done; congruence.
    - congruence.
    - apply Hfree. unfold sku_taken. apply Exists_exists. exists (k, x).
      split; [by apply elem_of_lookup_imap; exists k, x|]. simpl.
      split_and!; [done|done|congruence]. }
  destruct (decide (id = i)) as [<-|Hi']; destruct (decide (id = j)) as [<-|Hj'].
  - done.
  - rewrite Hrow in Hi. injection Hi as <-.
    apply (Hother j r'); try done. rewrite <- Hsame, Hf. done.
  - rewrite Hrow in Hj. injection Hj as <-.
    apply (Hother i r); try done. rewrite Hsame, Hf. done.
  - by apply Hne, (Hunique i j r r' sku).
Qed.

Lemma update_ingredient_inr org id data db t row t' :
  update_ingredient org id data db t = inr (row, t') →
  ∃ existing, t !! id = Some existing ∧ ir_organization_id existing = org
              ∧ row = apply_ingredient_update data existing
              ∧ t' = alter (apply_ingredient_update data) id t
              ∧ (∀ sku, truthy_text (iu_sku data) = Some sku → ¬ sku_taken org id sku t).
Proof.
  unfold update_ingredient.
  destruct (select_in_org _ _ _ _) as [existing|] eqn:Hsel; [|done].
  apply select_in_org_Some in Hsel as [Hrow Horg]. cbv zeta.
  intros Hcall. exists existing.
  assert (∀ b : IngredientError + (IngredientRow * list IngredientRow),
            b = inr (row, t') →
            b = (if match iu_base_unit_id data with
                    | Some u => bool_decide (units db !! u = None)
                    | None => false
                    end
                 then inl InvalidBaseUnit
                 else match iu_name data, iu_category data, iu_sku data,
                            iu_base_unit_id data, iu_is_active data with
                      | None, None, None, None, None => inl IngredientNoFields
                      | _, _, _, _, _ =>
                          inr (apply_ingredient_update data existing,
                               alter (apply_ingredient_update data) id t)
                      end) →
            row = apply_ingredient_update data existing
            ∧ t' = alter (apply_ingredient_update data) id t) as Hbuild.
  { intros b -> Hb.
    destruct (match iu_base_unit_id data with Some u => _ | None => _ end); [done|].
    destruct (iu_name data), (iu_category data), (iu_sku data), (iu_base_unit_id data),
      (iu_is_active data); by simplify_eq. }
  destruct (truthy_text (iu_sku data)) as [sku|] eqn:Hsku.
  - case_decide as Htaken; [done|].
    destruct (Hbuild _ eq_refl (eq_sym Hcall)) as [-> ->].
    split_and!; try done. by intros ? [= <-].
  - destruct (Hbuild _ eq_refl (eq_sym Hcall)) as [-> ->].
    split_and!; done.
Qed.

Lemma handle_ingredient_unique org r db t :
  skus_unique t → skus_unique (handle_ingredient org r db t).
Proof.
  intros Hunique. destruct r as [data|id data|id].
  - by apply create_ingredient_unique.
  - simpl. destruct (update_ingredient org id data db t) as [|[row t']] eqn:Hcall; [done|].
    apply update_ingredient_inr in Hcall as (existing & Hrow & Horg & _ & -> & Hfree).
    eapply alter_ingredient_unique; [done..|].
    simpl. destruct (iu_sku data) as [s|] eqn:Hs; [|by left].
    right. exists s. split; [done|].
    destruct (decide (s = EmptyString)) as [|Hne]; [by left|right].
    apply Hfree. by apply truthy_text_Some.
  - simpl. unfold delete_ingredient.
    destruct (select_in_org _ _ _ _) as [existing|] eqn:Hsel; [|done].
    apply select_in_org_Some in Hsel as [Hrow Horg].
    case_decide; [done|].
    eapply alter_ingredient_unique; [done..|]. by left.
Qed.

(** X26.  SKUs of ingredients.  When no two ingredients of an organization
    share a non-empty SKU, no sequence of create, update and delete
    requests, of any organizations and against any state of the other
    tables, makes two of them share one. *)
Theorem ingredient_skus_stay_unique (rs : list (nat * IngredientRequest * DB))
    (t : list IngredientRow) :
  skus_unique t → skus_unique (run_ingredients rs t).
Proof.
  revert t. induction rs as [|[[org r] db] rs IH]; intros t Hunique; [done|].
  apply IH. by apply handle_ingredient_unique.
Qed.

Lemma ingredient_skus_stay_unique_witness :
  let requests := [(0, CreateIngredient (flour_sku "F-1"), sample_db);
                   (0, CreateIngredient (flour_sku "F-1"), sample_db);
                   (1, CreateIngredient (flour_sku "F-1"), sample_db);
                   (0, CreateIngredient (flour_sku "F-2"), sample_db)] in
  skus_unique []
  ∧ length (run_ingredients requests []) = 3
  ∧ skus_unique (run_ingredients requests []).
Proof.
  assert (skus_unique []) as Hempty by (by intros i j r r' sku Hi).
  split; [exact Hempty|]. split; [reflexivity|].
  exact (ingredient_skus_stay_unique _ [] Hempty).
Defined.

(** ** Goods received on a purchase order *)






